(** * Calendar archive pipeline: extraction, reconciliation and analytics

    A shallow embedding of the decision logic of
      - [src/src/make_verified_manifests.py]  (manifest partitioner),
      - [src/src/rebuild_events_safe.py]      (grid parser and reconciler),
      - [src/src/extract_all_events.py]       (first extractor),
      - [src/src/fundraiser_analytics.py]     (analytics over the canonical table),
      - [src/src/audit_html_types.py]         (audit of the downloaded files),
      - [src/src/build_board_site.py]         (escaping of the text of the pages),
      - [src/src/eda_wayback_links.py]        (guess of the page type from the URL),
      - [src/wayback_bulk_download.py]        (downloader),
    followed by the properties stated about them.

    Text is a [string] whose characters are the code points U+0000..U+00FF.
    What the HTML, URL and regular-expression libraries return for a document
    (the blocks found, the text of an element, a query dictionary, the groups of
    a match on raw markup) is data of the model; everything the scripts decide
    from those values is a definition below. *)

From Stdlib Require Import ZArith NArith Ascii DecimalString.
From stdpp Require Import base option list sorting gmap strings.

Local Open Scope Z_scope.

(* ===================================================================== *)
(** ** Python primitives used by the scripts *)
(* ===================================================================== *)

Module Py.

(** Outcome of a statement that may raise. *)
Inductive exn : Type :=
| KeyError (key : string)
| TypeError (msg : string).

Inductive result (A : Type) : Type :=
| Ok (a : A)
| Raise (e : exn).
Arguments Ok {A} a.
Arguments Raise {A} e.

(** The error monad of the scripts; [x ← m; k] runs [k] unless [m] raised. *)
#[global] Instance result_ret : MRet result := λ A a, Ok a.
#[global] Instance result_bind : MBind result := λ A B k m,
  match m with
  | Ok a => k a
  | Raise e => Raise e
  end.

Definition code (c : ascii) : N := N_of_ascii c.

Definition in_range (lo hi : N) (c : ascii) : bool :=
  ((lo <=? code c) && (code c <=? hi))%N.

(** [str.isspace] / the class [\s] of [re] on [str], below U+0100. *)
Definition is_space (c : ascii) : bool :=
  in_range 9 13 c || in_range 28 32 c
  || (code c =? 133)%N || (code c =? 160)%N.

Definition is_digit (c : ascii) : bool := in_range 48 57 c.

(** [str.isalnum], below U+0100. *)
Definition is_alnum (c : ascii) : bool :=
  is_digit c || in_range 65 90 c || in_range 97 122 c
  || (code c =? 170)%N || in_range 178 179 c || (code c =? 181)%N
  || in_range 185 186 c || in_range 188 190 c
  || in_range 192 214 c || in_range 216 246 c || in_range 248 255 c.

(** The class [\w] of [re] on [str]. *)
Definition is_word (c : ascii) : bool :=
  is_alnum c || (code c =? 95)%N.

Definition lower_char (c : ascii) : ascii :=
  if in_range 65 90 c || in_range 192 214 c || in_range 216 222 c
  then ascii_of_N (code c + 32) else c.

Fixpoint map_chars (f : ascii → ascii) (s : string) : string :=
  match s with
  | EmptyString => EmptyString
  | String c r => String (f c) (map_chars f r)
  end.

(** [s.lower()] *)
Definition lower (s : string) : string := map_chars lower_char s.

Definition nbsp : ascii := ascii_of_N 160.
Definition space : ascii := ascii_of_N 32.
Definition newline : ascii := ascii_of_N 10.

(** [s.replace("\xa0", " ")] *)
Definition replace_nbsp (s : string) : string :=
  map_chars (λ c, if (code c =? 160)%N then space else c) s.

(** [re.sub(r"\s+", " ", s)]: every maximal run of whitespace becomes one
    space. [in_run] tells that the previous character was whitespace. *)
Fixpoint sub_spaces (in_run : bool) (s : string) : string :=
  match s with
  | EmptyString => EmptyString
  | String c r =>
      if is_space c
      then (if in_run then sub_spaces true r
            else String space (sub_spaces true r))
      else String c (sub_spaces false r)
  end.

Fixpoint lstrip_by (p : ascii → bool) (s : string) : string :=
  match s with
  | EmptyString => EmptyString
  | String c r => if p c then lstrip_by p r else s
  end.

Fixpoint rstrip_by (p : ascii → bool) (s : string) : string :=
  match s with
  | EmptyString => EmptyString
  | String c r =>
      match rstrip_by p r with
      | EmptyString => if p c then EmptyString else String c EmptyString
      | r' => String c r'
      end
  end.

(** [s.strip()] *)
Definition strip (s : string) : string := rstrip_by is_space (lstrip_by is_space s).

(** [re.sub(r"[^\w\s]", repl, s)] for [repl] empty or one character. *)
Fixpoint sub_punct (repl : string) (s : string) : string :=
  match s with
  | EmptyString => EmptyString
  | String c r =>
      if is_word c || is_space c then String c (sub_punct repl r)
      else repl +:+ sub_punct repl r
  end.

(** [s.split(sep)] for a one-character separator. *)
Fixpoint split (sep : ascii) (s : string) : list string :=
  match s with
  | EmptyString => [EmptyString]
  | String c r =>
      if Ascii.eqb c sep then EmptyString :: split sep r
      else match split sep r with
           | h :: t => String c h :: t
           | [] => [String c EmptyString]
           end
  end.

(** [s[:n]] *)
Fixpoint take_str (n : nat) (s : string) : string :=
  match n, s with
  | S n', String c r => String c (take_str n' r)
  | _, _ => EmptyString
  end.

(** [s[n:]] *)
Fixpoint drop_str (n : nat) (s : string) : string :=
  match n, s with
  | S n', String _ r => drop_str n' r
  | _, _ => s
  end.

(** [s.startswith(p)] *)
Fixpoint startswith (p s : string) : bool :=
  match p, s with
  | EmptyString, _ => true
  | String a p', String b s' => Ascii.eqb a b && startswith p' s'
  | String _ _, EmptyString => false
  end.

(** [needle in hay] *)
Fixpoint contains (needle hay : string) : bool :=
  startswith needle hay
  || match hay with
     | EmptyString => false
     | String _ r => contains needle r
     end.

(** Truth value of an optional string: [None] and the empty string are false. *)
Definition truthy (o : option string) : bool :=
  match o with
  | Some (String _ _) => true
  | _ => false
  end.

(** Decimal digits of [int(...)]: [digit (["_"] digit)*]. [acc] is the
    value read so far, [after_digit] tells that the previous character was a
    digit. *)
Fixpoint int_digits (acc : N) (after_digit : bool) (s : string) : option N :=
  match s with
  | EmptyString => if after_digit then Some acc else None
  | String c r =>
      if is_digit c then int_digits (10 * acc + (code c - 48))%N true r
      else if (code c =? 95)%N && after_digit then int_digits acc false r
      else None
  end.

(** The whitespace that [int] ignores around the number: the ASCII blanks
    and, below U+0100, the two other space characters; the separators
    U+001C..U+001F are not among them. *)
Definition is_int_space (c : ascii) : bool :=
  in_range 9 13 c || (code c =? 32)%N || (code c =? 133)%N || (code c =? 160)%N.

(** [int(s)] on a [str]: surrounding whitespace is ignored, one sign is
    allowed, digits may be grouped by single underscores. [None] stands for
    [ValueError]. The interpreter's configurable cap on the number of digits
    is not part of the model. *)
Definition int (s : string) : option Z :=
  match rstrip_by is_int_space (lstrip_by is_int_space s) with
  | String c r =>
      if (code c =? 45)%N then (λ n, - Z.of_N n) <$> int_digits 0 false r
      else if (code c =? 43)%N then Z.of_N <$> int_digits 0 false r
      else Z.of_N <$> int_digits 0 false (String c r)
  | EmptyString => None
  end.

Definition zeros (n : nat) : string :=
  fold_right (λ _ s, String "0" s) EmptyString (seq 0 n).

(** [format(n, "0<width>d")]: sign first, then zeros up to [width]. *)
Definition format_0d (width : nat) (n : Z) : string :=
  let digits := NilZero.string_of_uint (N.to_uint (Z.abs_N n)) in
  if n <? 0
  then String "-" (zeros (width - 1 - String.length digits) +:+ digits)
  else zeros (width - String.length digits) +:+ digits.

(** A position is a word boundary when exactly one of its two neighbours is
    a word character; the ends of the string count as non-word. *)
Definition is_word_opt (c : option ascii) : bool :=
  from_option is_word false c.

Definition head_char (s : string) : option ascii :=
  match s with
  | EmptyString => None
  | String c _ => Some c
  end.

Definition boundary (prev : option ascii) (rest : string) : bool :=
  xorb (is_word_opt prev) (is_word_opt (head_char rest)).

Fixpoint last_char (prev : option ascii) (s : string) : option ascii :=
  match s with
  | EmptyString => prev
  | String c r => last_char (Some c) r
  end.

(** Case-insensitive [startswith] (the flag [(?i)]). *)
Fixpoint startswith_ci (p s : string) : bool :=
  match p, s with
  | EmptyString, _ => true
  | String a p', String b s' =>
      Ascii.eqb (lower_char a) (lower_char b) && startswith_ci p' s'
  | String _ _, EmptyString => false
  end.

(** [\bw\b] matches at the start of [s], where [prev] is the character
    before [s]. *)
Definition word_at (ci : bool) (w : string) (prev : option ascii) (s : string) : bool :=
  boundary prev s
  && (if ci then startswith_ci w s else startswith w s)
  && boundary (last_char prev w) (drop_str (String.length w) s).

(** [re.search(r"(?i)\bw\b", s)] finds a match. *)
Fixpoint search_word_ci (w : string) (prev : option ascii) (s : string) : bool :=
  word_at true w prev s
  || match s with
     | EmptyString => false
     | String c r => search_word_ci w (Some c) r
     end.

End Py.

(* ===================================================================== *)
(** ** Data-frame operations used by the scripts *)
(* ===================================================================== *)

Module Pd.

(** A stable sort: rows that compare equal keep their order. *)
Fixpoint insert_by {A} (leb : A → A → bool) (x : A) (l : list A) : list A :=
  match l with
  | [] => [x]
  | y :: l' => if leb x y then x :: l else y :: insert_by leb x l'
  end.

Definition sort_by {A} (leb : A → A → bool) (l : list A) : list A :=
  foldr (insert_by leb) [] l.

(** [drop_duplicates(subset=key, keep="first")]; [seen] holds the keys of
    the rows already kept. *)
Fixpoint drop_duplicates {A K} `{EqDecision K} (key : A → K) (seen : list K)
    (l : list A) : list A :=
  match l with
  | [] => []
  | x :: l' =>
      if decide (key x ∈ seen) then drop_duplicates key seen l'
      else x :: drop_duplicates key (key x :: seen) l'
  end.

(** [Series.shift(1)]: the first value is missing, the last one is lost. *)
Definition shift1 {A} (l : list A) : list (option A) :=
  match l with
  | [] => []
  | _ => None :: (Some <$> removelast l)
  end.

End Pd.

(* ===================================================================== *)
(** ** What the HTML library returns for an event block *)
(* ===================================================================== *)

Module Html.

(** One [div] whose class matches [CalEvent], as the HTML library shows it
    to the extractors. *)
Record Block : Type := {
  (** class lists of the [div]s nested in the block, in document order *)
  div_classes : list (list string);
  (** text of the first [span] whose class matches [TimeLabel] *)
  time_span : option string;
  (** text of the first [a] *)
  anchor_text : option string;
  (** text of the whole block *)
  block_text : string;
  (** query dictionary of the link inside [noscript], when the block has a
      [noscript] holding an [a] with a non-empty [href]: what [get_qs]
      returns of a URL that [urlparse] accepts (module [Raw] has the URLs
      on which it raises) *)
  noscript_qs : option (gmap string string);
  (** groups 1 and 2 of the [PopupWindow] pattern that
      rebuild_events_safe.py searches in the markup of the block *)
  popup_call : option (string * string);
  (** groups 1 and 2 of the [PopupWindow] pattern that
      extract_all_events.py searches in the markup of the block *)
  popup_call_closed : option (string * string)
}.

(** One manifest item as a parser reads it, its file read and its URL
    taken apart: the [CalendarName] parameter of its URL and the event
    blocks of its file. *)
Record Item : Type := {
  item_calendar : option string;
  item_blocks : list Block
}.

End Html.

(* ===================================================================== *)
(** ** rebuild_events_safe.py: grid parser and reconciler *)
(* ===================================================================== *)

Module Rebuild.
Import Py Html Pd.

(** [clean(s)] on a string (the callers pass the empty string for [None]). *)
Definition clean (s : string) : string :=
  strip (sub_spaces false (replace_nbsp s)).

Definition normalize_title (t : string) : string :=
  let t := lower (clean t) in
  let t := sub_punct EmptyString t in
  strip (sub_spaces false t).

Definition normalize_loc (loc : option string) : option string :=
  if truthy loc then
    let loc := clean (default EmptyString loc) in
    Some (if startswith "c_" (lower loc) then drop_str 2 loc else loc)
  else None.

Definition parse_date_str (d : string) : option string :=
  match split "/" d with
  | p0 :: p1 :: p2 :: _ =>
      match Py.int p0, Py.int p1, Py.int p2 with
      | Some y, Some m, Some dd =>
          Some (format_0d 4 y +:+ "-" +:+ format_0d 2 m +:+ "-" +:+ format_0d 2 dd)
      | _, _, _ => None
      end
  | _ => None
  end.

Record Row : Type := {
  date : string;
  year_month : string;
  year : string;
  calendar_name : option string;
  title : string;
  title_norm : string;
  time_label : option string;
  location_code : option string;
  event_id : option string;
  source_type : string
}.

#[global] Instance Row_eq_dec : EqDecision Row.
Proof. solve_decision. Defined.

Definition structural_classes : list string :=
  ["CalEvent"; "EventLink"; "DayWithEvents"].

(** The inner loop over the classes of one [div]: the first class that is
    not structural. *)
Definition first_venue_class (classes : list string) : option string :=
  head (filter (λ c, c ∉ structural_classes) classes).

(** The outer loop over the nested [div]s; it stops at the first [div] that
    leaves [location_code] true. *)
Fixpoint scan_divs (location_code : option string) (divs : list (list string))
  : option string :=
  match divs with
  | [] => location_code
  | classes :: rest =>
      let location_code :=
        match first_venue_class classes with
        | Some c => Some c
        | None => location_code
        end in
      if truthy location_code then location_code
      else scan_divs location_code rest
  end.

Definition block_title (ev : Block) : string :=
  let title := clean <$> anchor_text ev in
  if truthy title then default EmptyString title else clean (block_text ev).

(** [date] and [event_id] of a block: the [noscript] link first, the
    [PopupWindow] call when that gave no date. *)
Definition block_date_id (ev : Block) : option string * option string :=
  let '(date, event_id) :=
    match noscript_qs ev with
    | Some qs => (parse_date_str (default EmptyString (qs !! "Date")), qs !! "ID")
    | None => (None, None)
    end in
  if truthy date then (date, event_id)
  else match popup_call ev with
       | Some (d, i) => (parse_date_str d, Some i)
       | None => (date, event_id)
       end.

(** The body of the loop of [extract_events] for one block: [None] is the
    [continue] taken when title or date is missing. *)
Definition extract_block (calendar_name : option string) (source_type : string)
    (ev : Block) : option Row :=
  let location_code := normalize_loc (scan_divs None (div_classes ev)) in
  let time_label := clean <$> time_span ev in
  let title := block_title ev in
  let '(date, event_id) := block_date_id ev in
  if truthy (Some title) && truthy date then
    let date := default EmptyString date in
    Some {| date := date;
            year_month := take_str 7 date;
            year := take_str 4 date;
            calendar_name := calendar_name;
            title := title;
            title_norm := normalize_title title;
            time_label := time_label;
            location_code := location_code;
            event_id := event_id;
            source_type := source_type |}
  else None.

Definition extract_events (blocks : list Block) (calendar_name : option string)
    (source_type : string) : list Row :=
  omap (extract_block calendar_name source_type) blocks.

Definition parse_manifest (items : list Item) (source_type : string) : list Row :=
  items ≫= (λ it, extract_events (item_blocks it) (item_calendar it) source_type).

(** [pd.DataFrame(rows)] has the columns of its rows: built from no row at
    all it has none, and selecting [calendar_name] raises. *)
Definition column_calendar_name (rows : list Row) : result (list Row) :=
  match rows with
  | [] => Raise (KeyError "calendar_name")
  | _ => Ok rows
  end.

Definition is_bilal (r : Row) : Prop := calendar_name r = Some "BilalEvents".
#[global] Instance is_bilal_dec r : Decision (is_bilal r).
Proof. unfold is_bilal. apply _. Defined.

(** The rows of a manifest that belong to the calendar, as the script keeps
    them in [df_month] and [df_day]. *)
Definition bilal_rows (items : list Item) (source_type : string) : list Row :=
  filter is_bilal (parse_manifest items source_type).

Definition has_event_id (r : Row) : Z := if event_id r is Some _ then 1 else 0.
Definition has_location (r : Row) : Z := if location_code r is Some _ then 1 else 0.

Definition source_ranks : gmap string Z :=
  {[ "month_block" := 0; "day_block" := 1 ]}.
Definition source_rank (r : Row) : Z := default 9 (source_ranks !! source_type r).

(** Lexicographic comparison on a list of column comparisons. *)
Fixpoint lex (cs : list comparison) : comparison :=
  match cs with
  | [] => Eq
  | Eq :: cs' => lex cs'
  | c :: _ => c
  end.

(** The order of [sort_values]: date, title_norm and source_rank ascending,
    has_event_id and has_location descending. *)
Definition row_compare (a b : Row) : comparison :=
  lex [ String.compare (date a) (date b);
        String.compare (title_norm a) (title_norm b);
        source_rank a ?= source_rank b;
        has_event_id b ?= has_event_id a;
        has_location b ?= has_location a ].

Definition row_leb (a b : Row) : bool :=
  match row_compare a b with
  | Gt => false
  | _ => true
  end.

Definition sort_values (df : list Row) : list Row := sort_by row_leb df.

Definition id_key (r : Row) : string * option string := (date r, event_id r).
Definition title_key (r : Row) : string * string := (date r, title_norm r).

(** Steps 1 to 4 of the script on the two frames already restricted to the
    calendar [BilalEvents]. *)
Definition month_months (df_month : list Row) : gset string :=
  list_to_set (year_month <$> df_month).

Definition df_day_missing (df_month df_day : list Row) : list Row :=
  filter (λ r, year_month r ∉ month_months df_month) df_day.

Definition df_sorted (df_month df_day : list Row) : list Row :=
  sort_values (df_month ++ df_day_missing df_month df_day).

Definition df_with_id (df : list Row) : list Row :=
  drop_duplicates id_key [] (filter (λ r, is_Some (event_id r)) df).

Definition df_no_id (df : list Row) : list Row :=
  drop_duplicates title_key [] (filter (λ r, event_id r = None) df).

Definition reconcile (df_month df_day : list Row) : list Row :=
  let df := df_sorted df_month df_day in
  df_with_id df ++ df_no_id df.

(** The script from the two manifests to [df_final]. *)
Definition df_final (month_items day_items : list Item) : result (list Row) :=
  df_month ← column_calendar_name (parse_manifest month_items "month_block");
  let df_month := filter is_bilal df_month in
  df_day ← column_calendar_name (parse_manifest day_items "day_block");
  let df_day := filter is_bilal df_day in
  mret (reconcile df_month df_day).



End Rebuild.

(* ===================================================================== *)
(** ** extract_all_events.py: the first extractor *)
(* ===================================================================== *)

Module Extract.
Import Py Html Pd.

Definition clean (text : string) : string :=
  strip (sub_spaces false (replace_nbsp text)).

Definition normalize_title (t : string) : string :=
  sub_punct EmptyString (lower (clean t)).

Definition parse_date_str (d : string) : option string :=
  match split "/" d with
  | y :: m :: day :: _ =>
      match Py.int y, Py.int m, Py.int day with
      | Some y, Some m, Some day =>
          Some (format_0d 4 y +:+ "-" +:+ format_0d 2 m +:+ "-" +:+ format_0d 2 day)
      | _, _, _ => None
      end
  | _ => None
  end.

(** Rows of this script keep a missing date until [main] filters them. *)
Record Row : Type := {
  date : option string;
  title : string;
  title_norm : string;
  time_label : option string;
  location_code : option string;
  calendar_name : option string;
  event_id : option string;
  source_type : string
}.

Definition first_venue_class (classes : list string) : option string :=
  head (filter (λ c, (c ∉ ["CalEvent"; "EventLink"]) ∧ (c ≠ "DayWithEvents")) classes).

Fixpoint scan_divs (location_code : option string) (divs : list (list string))
  : option string :=
  match divs with
  | [] => location_code
  | classes :: rest =>
      let location_code :=
        match first_venue_class classes with
        | Some c => Some c
        | None => location_code
        end in
      if truthy location_code then location_code
      else scan_divs location_code rest
  end.

Definition block_title (ev : Block) : string :=
  let title := clean <$> anchor_text ev in
  if truthy title then default EmptyString title else clean (block_text ev).

Definition block_date_id (ev : Block) : option string * option string :=
  let '(date, event_id) :=
    match noscript_qs ev with
    | Some qs => (parse_date_str (default EmptyString (qs !! "Date")), qs !! "ID")
    | None => (None, None)
    end in
  if truthy date then (date, event_id)
  else match popup_call_closed ev with
       | Some (d, i) => (parse_date_str d, Some i)
       | None => (date, event_id)
       end.

(** One block of [extract_events_from_html]: only a missing title skips it. *)
Definition extract_block (calendar_name : option string) (source_type : string)
    (ev : Block) : option Row :=
  let location_code := scan_divs None (div_classes ev) in
  let time_label := clean <$> time_span ev in
  let title := block_title ev in
  let '(date, event_id) := block_date_id ev in
  if truthy (Some title) then
    Some {| date := date;
            title := title;
            title_norm := normalize_title title;
            time_label := time_label;
            location_code := location_code;
            calendar_name := calendar_name;
            event_id := event_id;
            source_type := source_type |}
  else None.

Definition extract_events_from_html (blocks : list Block)
    (calendar_name : option string) (source_type : string) : list Row :=
  omap (extract_block calendar_name source_type) blocks.

Definition process_manifest (items : list Item) (source_type : string) : list Row :=
  items ≫= (λ it,
    extract_events_from_html (item_blocks it) (item_calendar it) source_type).

Definition dedupe_key (r : Row) : option string * string * option string :=
  (date r, title_norm r, location_code r).

(** [main] up to the popup enrichment: concatenate, drop the rows without a
    date, drop duplicates. A frame concatenated from no row at all has no
    [date] column. *)
Definition all_events (month_items day_items : list Item) : result (list Row) :=
  let df_month := process_manifest month_items "month_block" in
  let df_day := process_manifest day_items "day_block" in
  match df_month ++ df_day with
  | [] => Raise (KeyError "date")
  | all_events =>
      let all_events := filter (λ r, is_Some (date r)) all_events in
      mret (drop_duplicates dedupe_key [] all_events)
  end.

End Extract.

(* ===================================================================== *)
(** ** fundraiser_analytics.py: analytics over the canonical table *)
(* ===================================================================== *)

Module Analytics.
Import Py Pd.

(** The cells of [events_master_clean.csv] that [main] reads, as
    [pd.read_csv] returns them; [None] is a missing value (NaN). *)
Record CsvRow : Type := {
  csv_date : option string;
  csv_title : option string;
  csv_time_label : option string;
  csv_location_code : option string
}.

(** The strings [pd.read_csv] reads as a missing value. *)
Definition na_values : list string :=
  [ EmptyString; "#N/A"; "#N/A N/A"; "#NA"; "-1.#IND"; "-1.#QNAN"; "-NaN"; "-nan";
    "1.#IND"; "1.#QNAN"; "<NA>"; "N/A"; "NA"; "NULL"; "NaN"; "None";
    "n/a"; "nan"; "null" ].

(** A cell written by [to_csv] and read back: a missing value and the
    strings of [na_values] come back missing, any other text comes back as
    text (the number inference of [read_csv] on columns made of numerals
    only is not part of the model). *)
Definition read_back (cell : option string) : option string :=
  cell ≫= (λ s, if decide (s ∈ na_values) then None else Some s).

(** [events_master_clean.csv] as written by rebuild_events_safe.py and read
    by [main]. *)
Definition read_csv (df_final : list Rebuild.Row) : list CsvRow :=
  (λ r, {| csv_date := read_back (Some (Rebuild.date r));
           csv_title := read_back (Some (Rebuild.title r));
           csv_time_label := read_back (Rebuild.time_label r);
           csv_location_code := read_back (Rebuild.location_code r) |})
  <$> df_final.

(** [str(x)] of a cell: a missing value prints as [nan]. *)
Definition astype_str (cell : option string) : string := default "nan" cell.

Definition clean (s : string) : string :=
  strip (sub_spaces false (replace_nbsp s)).

(** [.*$] at the start of [s]: the rest of the line, which must end the
    string or stand before its final newline. The result is what is left
    after the match. *)
Fixpoint rest_of_line (s : string) : option string :=
  match s with
  | EmptyString => Some EmptyString
  | String c r =>
      if (code c =? 10)%N
      then (if decide (r = EmptyString) then Some s else None)
      else rest_of_line r
  end.

(** [re.sub] of the pattern [\bhost\b.*$] by the empty string, where [prev] is the character before
    [s]. *)
Fixpoint sub_host (prev : option ascii) (s : string) : string :=
  let here :=
    if word_at false "host" prev s then rest_of_line (drop_str 4 s) else None in
  match here, s with
  | Some after, _ => after
  | None, EmptyString => EmptyString
  | None, String c r => String c (sub_host (Some c) r)
  end.

Definition FIXES : gmap string string :=
  {[ "arabic scool at bilal" := "arabic school at bilal";
     "arabic scool" := "arabic school" ]}.

Definition canonical_title (t : string) : string :=
  let t := lower (clean t) in
  let t := strip (sub_host None t) in
  let t := sub_punct " " t in
  let t := strip (sub_spaces false t) in
  default t (FIXES !! t).

Definition canonical_loc (loc : string) : string :=
  let loc := clean loc in
  if decide (loc = EmptyString) then EmptyString
  else if startswith "c_" (lower loc) then drop_str 2 loc else loc.

(** A row of [df] once [main] has filled its columns. *)
Record Event : Type := {
  date : string;
  year_int : Z;
  year_month : string;
  title_canonical : string;
  location_code : string;
  time_label : string;
  event_key : string
}.

#[global] Instance Event_eq_dec : EqDecision Event.
Proof. solve_decision. Defined.

(** [str.match(r"^\d{4}$")] on a string of at most four characters. *)
Definition is_year (s : string) : bool :=
  match s with
  | String a (String b (String c (String d EmptyString))) =>
      is_digit a && is_digit b && is_digit c && is_digit d
  | _ => false
  end.

(** [pick_time_series] on the table of the reconciler, whose first candidate
    column [time_label] exists: [clean] of every cell, a missing one
    included, so that [fillna] finds nothing to fill. *)
Definition pick_time_series (cell : option string) : string :=
  clean (astype_str cell).

Definition make_event_key (date title_canonical time_label : string) : string :=
  clean date +:+ "||" +:+ lower (clean title_canonical)
    +:+ "||" +:+ lower (clean time_label).

(** The column assignments and the two row filters of [main] on one row:
    [None] when the year does not match or the canonical title is empty. *)
Definition load_row (row : CsvRow) : option Event :=
  let date := clean (astype_str (csv_date row)) in
  let year4 := take_str 4 date in
  if is_year year4 then
    let base_title := clean (astype_str (csv_title row)) in
    let title_canonical := canonical_title base_title in
    let location_code := canonical_loc (astype_str (csv_location_code row)) in
    let time_label := pick_time_series (csv_time_label row) in
    if decide (title_canonical = EmptyString) then None
    else Some {| date := date;
                 year_int := default 0 (Py.int year4);
                 year_month := take_str 7 date;
                 title_canonical := title_canonical;
                 location_code := location_code;
                 time_label := time_label;
                 event_key := make_event_key date title_canonical time_label |}
  else None.

Definition load (csv : list CsvRow) : list Event := omap load_row csv.

Definition events_unique (df : list Event) : list Event :=
  Pd.drop_duplicates event_key [] df.

Definition booking_key (e : Event) : string * string :=
  (event_key e, location_code e).

Definition venue_bookings (df : list Event) : list Event :=
  Pd.drop_duplicates booking_key []
    (filter (λ e, location_code e ≠ EmptyString) df).

(** [groupby("year_int")] with the size of each group, sorted by year. *)
Definition years (events : list Event) : list Z :=
  Pd.sort_by Z.leb (remove_dups (year_int <$> events)).

Definition events_in (events : list Event) (y : Z) : Z :=
  Z.of_nat (length (filter (λ e, year_int e = y) events)).

Definition yearly (events : list Event) : list (Z * Z) :=
  (λ y, (y, events_in events y)) <$> years events.

(** The floating-point operations that [pct_change] and [round] apply. *)
Class FloatOps (F : Type) : Type := {
  of_int : Z → F;
  fsub : F → F → F;
  fmul : F → F → F;
  fdiv : F → F → F;
  round_ndigits : F → Z → F
}.

Section Growth.
Context {F : Type} `{FloatOps F}.

Definition pct_change (cur : Z) (prev : option Z) : option F :=
  match prev with
  | None => None
  | Some p =>
      if decide (p = 0) then None
      else Some (fdiv (fmul (of_int 100) (fsub (of_int cur) (of_int p))) (of_int p))
  end.

(** One element of the list comprehension: [round] of [None] raises. *)
Definition growth_entry (cur : Z) (prev : option Z) : result (option F) :=
  match prev with
  | None => Ok None
  | Some _ =>
      match pct_change cur prev with
      | Some x => Ok (Some (round_ndigits x 1))
      | None => Raise (TypeError "NoneType does not define __round__")
      end
  end.

Definition growth_pct (events : list Z) : result (list (option F)) :=
  mapM (λ '(cur, prev), growth_entry cur prev) (zip events (shift1 events)).

(** The [growth_pct] column of the yearly summary of [main]. *)
Definition yearly_growth (csv : list CsvRow) : result (list (Z * option F)) :=
  let yearly := yearly (events_unique (load csv)) in
  g ← growth_pct yearly.*2;
  mret (zip yearly.*1 g).

(** The rule in words: no growth for the first year of the table, and for
    each later year the rounded percentage over the count of the year that
    precedes it in the table. *)
Fixpoint growth_after (prev : Z) (rows : list (Z * Z)) : list (Z * option F) :=
  match rows with
  | [] => []
  | (y, n) :: rows' =>
      (y, Some (round_ndigits
                  (fdiv (fmul (of_int 100) (fsub (of_int n) (of_int prev)))
                        (of_int prev)) 1))
      :: growth_after n rows'
  end.

Definition growth_by_rule (rows : list (Z * Z)) : list (Z * option F) :=
  match rows with
  | [] => []
  | (y, n) :: rows' => (y, None) :: growth_after n rows'
  end.
End Growth.

(** Floating-point expressions left unevaluated: the instance that shows which
    operations a run applies, in which order. *)
Inductive fexpr : Type :=
| FInt (z : Z)
| FSub (a b : fexpr)
| FMul (a b : fexpr)
| FDiv (a b : fexpr)
| FRound (a : fexpr) (ndigits : Z).

#[global] Instance fexpr_ops : FloatOps fexpr :=
  {| of_int := FInt; fsub := FSub; fmul := FMul; fdiv := FDiv;
     round_ndigits := FRound |}.

End Analytics.

(* ===================================================================== *)
(** ** make_verified_manifests.py: the manifest partitioner *)
(* ===================================================================== *)

Module Manifests.
Import Py.

(** The text [name="value"], with double quotes. *)
Definition attr (name value : string) : string :=
  let dq := String (ascii_of_N 34) EmptyString in
  name +:+ "=" +:+ dq +:+ value +:+ dq.

Definition classify_html (html : string) : string :=
  let low := lower html in
  if contains (attr "class" "eventpopup") low || contains (attr "id" "eventsummary") low
  then "event_popup"
  else if contains (attr "class" "calblock") low || contains "class='calblock'" low
  then (if contains (attr "class" "blockview") low || contains "class='blockview'" low
        then "month_block" else "calendar_grid_other")
  else if contains "<rss" low || contains "<feed" low || contains "op=rss" low
  then "feed"
  else if contains "calcium web calendar" low || contains "brownbearsw.com" low
  then "calcium_other"
  else "other".

(** One entry of [manifest.json]; a key that is absent is [None]. *)
Record Entry : Type := {
  timestamp : option string;
  original : option string;
  path : option string
}.

#[global] Instance Entry_eq_dec : EqDecision Entry.
Proof. solve_decision. Defined.

(** The four lists the loop appends to. *)
Record Buckets : Type := {
  month_block : list Entry;
  event_popup : list Entry;
  day_block : list Entry;
  other : list Entry
}.

Definition empty_buckets : Buckets :=
  {| month_block := []; event_popup := []; day_block := []; other := [] |}.

Section Partition.
(** The files on disk: [read_text p] is the text of the file at [p] when
    [Path(p).exists()], and the query dictionary of a URL. *)
Context (read_text : string → option string)
        (get_qs : string → gmap string string).

(** [not p or not Path(p).exists()] fails: the text of the file. *)
Definition existing_file (it : Entry) : option string :=
  if truthy (path it) then read_text (default EmptyString (path it)) else None.

Definition op_of (it : Entry) : string :=
  default EmptyString (get_qs (default EmptyString (original it)) !! "Op").

(** One iteration of the loop. *)
Definition route (st : Buckets) (it : Entry) : Buckets :=
  match existing_file it with
  | None => st
  | Some html =>
      let html_type := classify_html html in
      let op := op_of it in
      if bool_decide (html_type = "month_block")
         && bool_decide (op ∈ ["ShowIt"; "ShowMonth"])
      then {| month_block := month_block st ++ [it];
              event_popup := event_popup st;
              day_block := day_block st;
              other := other st |}
      else if bool_decide (html_type = "event_popup")
      then {| month_block := month_block st;
              event_popup := event_popup st ++ [it];
              day_block := day_block st;
              other := other st |}
      else if bool_decide (op = "ShowDay") && search_word_ci "CalEvent" None html
      then {| month_block := month_block st;
              event_popup := event_popup st;
              day_block := day_block st ++ [it];
              other := other st |}
      else {| month_block := month_block st;
              event_popup := event_popup st;
              day_block := day_block st;
              other := other st ++ [it] |}
  end.

Definition partition (data : list Entry) : Buckets :=
  foldl route empty_buckets data.

(** The name of the list that one iteration appends to; [None] when the
    iteration takes the first [continue]. *)
Definition target (it : Entry) : option string :=
  html ← existing_file it;
  let html_type := classify_html html in
  let op := op_of it in
  Some (if bool_decide (html_type = "month_block")
           && bool_decide (op ∈ ["ShowIt"; "ShowMonth"])
        then "month_block"
        else if bool_decide (html_type = "event_popup") then "event_popup"
        else if bool_decide (op = "ShowDay") && search_word_ci "CalEvent" None html
        then "day_block"
        else "other").

Definition bucket_names : list string :=
  ["month_block"; "event_popup"; "day_block"; "other"].

(** A list of the state by its name. *)
Definition bucket (name : string) (st : Buckets) : list Entry :=
  if decide (name = "month_block") then month_block st
  else if decide (name = "event_popup") then event_popup st
  else if decide (name = "day_block") then day_block st
  else if decide (name = "other") then other st
  else [].

(** Everything the script leaves behind: the four files it writes and the
    four lines it prints. *)
Definition output (data : list Entry)
  : Buckets * list (string * nat) :=
  let b := partition data in
  (b, [ ("month_block:", length (month_block b));
        ("event_popup:", length (event_popup b));
        ("day_block:", length (day_block b));
        ("other:", length (other b)) ]).
End Partition.

End Manifests.

(* ===================================================================== *)
(** ** Sample documents *)
(* ===================================================================== *)

Module Sample.
Import Py Html.

(** An event block as the calendar pages print it: one nested [div] whose
    class names the venue, a time label, a title link and a [noscript] link
    carrying [Date] and [ID]. *)
Definition grid_block (venue : option string) (time : string) (title : string)
    (date : string) (id : option string) : Block :=
  {| div_classes := from_option (λ v, [[v]]) [] venue;
     time_span := Some time;
     anchor_text := Some title;
     block_text := time +:+ " " +:+ title;
     noscript_qs :=
       Some (from_option (λ i, <["ID" := i]> {["Date" := date]}) {["Date" := date]} id);
     popup_call := None;
     popup_call_closed := None |}.

Definition bilal (blocks : list Block) : Item :=
  {| item_calendar := Some "BilalEvents"; item_blocks := blocks |}.

Definition foreign (blocks : list Block) : Item :=
  {| item_calendar := Some "YouthClub"; item_blocks := blocks |}.

Definition row (source : string) (venue : option string) (time title title_norm : string)
    (date : string) (id : option string) : Rebuild.Row :=
  {| Rebuild.date := date;
     Rebuild.year_month := take_str 7 date;
     Rebuild.year := take_str 4 date;
     Rebuild.calendar_name := Some "BilalEvents";
     Rebuild.title := title;
     Rebuild.title_norm := title_norm;
     Rebuild.time_label := Some time;
     Rebuild.location_code := venue;
     Rebuild.event_id := id;
     Rebuild.source_type := source |}.

(** Friday prayer of 21 May 2021, as a month page and as a day page show it. *)
Definition friday : Block :=
  grid_block (Some "c_Masjid") "1:00 PM" "Friday Prayer" "2021/5/21" (Some "899").
Definition friday_bare : Block :=
  grid_block None "1:00 PM" "Friday Prayer" "2021/5/21" (Some "899").
Definition friday_row : Rebuild.Row :=
  row "month_block" (Some "Masjid") "1:00 PM" "Friday Prayer" "friday prayer"
      "2021-05-21" (Some "899").
Definition friday_bare_row : Rebuild.Row :=
  row "month_block" None "1:00 PM" "Friday Prayer" "friday prayer"
      "2021-05-21" (Some "899").
Definition friday_day_row : Rebuild.Row :=
  row "day_block" (Some "Masjid") "1:00 PM" "Friday Prayer" "friday prayer"
      "2021-05-21" (Some "899").

(** A family night of the same day, booked in two venues, printed without
    an event id. *)
Definition family_masjid : Block :=
  grid_block (Some "c_Masjid") "7:00 PM" "Family Night" "2021/5/21" None.
Definition family_gym : Block :=
  grid_block (Some "c_Gym") "7:00 PM" "Family Night" "2021/5/21" None.
Definition family_masjid_row (source : string) : Rebuild.Row :=
  row source (Some "Masjid") "7:00 PM" "Family Night" "family night" "2021-05-21" None.
Definition family_gym_row (source : string) : Rebuild.Row :=
  row source (Some "Gym") "7:00 PM" "Family Night" "family night" "2021-05-21" None.

(** A block whose links carry no date at all. *)
Definition undated : Block :=
  {| div_classes := [["c_Masjid"]];
     time_span := Some "6:30 PM";
     anchor_text := Some "Quran Class";
     block_text := "6:30 PM Quran Class";
     noscript_qs := Some {["ID" := "412"]};
     popup_call := None;
     popup_call_closed := None |}.

(** A block dated on the 45th day of a 13th month. *)
Definition misdated : Block :=
  grid_block (Some "c_Gym") "9:00 AM" "Open Gym" "2021/13/45" (Some "77").
Definition misdated_row : Rebuild.Row :=
  row "month_block" (Some "Gym") "9:00 AM" "Open Gym" "open gym" "2021-13-45" (Some "77").

(** Rows of the canonical table as the analytics reads them. *)
Definition csv_row (date title : string) : Analytics.CsvRow :=
  {| Analytics.csv_date := Some date;
     Analytics.csv_title := Some title;
     Analytics.csv_time_label := Some "7:00 PM";
     Analytics.csv_location_code := Some "Masjid" |}.

(** Two events in 2019, none in 2020, three in 2021. *)
Definition gap_table : list Analytics.CsvRow :=
  [ csv_row "2019-03-01" "Family Night"; csv_row "2019-04-05" "Family Night";
    csv_row "2021-01-08" "Family Night"; csv_row "2021-02-12" "Family Night";
    csv_row "2021-03-12" "Family Night" ].

(** A small disk and the query dictionaries of three URLs. *)
Definition month_page : string :=
  "<table class='CalBlock'><div class='BlockView'><div class='CalEvent'>x</div></div></table>".

Definition disk (p : string) : option string :=
  if decide (p = "month.html") then Some month_page
  else if decide (p = "empty.html") then Some EmptyString
  else None.

Definition url_qs (url : string) : gmap string string :=
  if decide (url = "http://cal/?Op=ShowMonth") then {["Op" := "ShowMonth"]}
  else if decide (url = "http://cal/?Op=ShowDay") then {["Op" := "ShowDay"]}
  else ∅.

Definition entry (url path : string) : Manifests.Entry :=
  {| Manifests.timestamp := Some "20210521000000";
     Manifests.original := Some url;
     Manifests.path := Some path |}.

Definition month_entry : Manifests.Entry := entry "http://cal/?Op=ShowMonth" "month.html".
Definition empty_entry : Manifests.Entry := entry "http://cal/?Op=ShowMonth" "empty.html".
Definition missing_entry : Manifests.Entry := entry "http://cal/?Op=ShowDay" "gone.html".

End Sample.

(* ===================================================================== *)
(** ** Shapes of text *)
(* ===================================================================== *)

Module Shape.
Import Py.

Fixpoint all_chars (p : ascii → bool) (s : string) : bool :=
  match s with
  | EmptyString => true
  | String c r => p c && all_chars p r
  end.

(** Every whitespace character is a space that does not follow a space;
    [after_space] tells that the character before [s] is a space (or that [s]
    starts the text, where a space is not wanted either). *)
Fixpoint spaced (after_space : bool) (s : string) : bool :=
  match s with
  | EmptyString => true
  | String c r =>
      if is_space c then Ascii.eqb c space && negb after_space && spaced true r
      else spaced false r
  end.

Definition ends_with_space (s : string) : bool :=
  from_option is_space false (last_char None s).

(** Single spaces between the words, none at either end, no other
    whitespace. *)
Definition tidy (s : string) : bool :=
  spaced true s && negb (ends_with_space s).

(** No character is changed by [lower]. *)
Definition lowercase (s : string) : bool :=
  all_chars (λ c, Ascii.eqb (lower_char c) c) s.

(** Word characters and spaces only. *)
Definition plain (s : string) : bool :=
  all_chars (λ c, is_word c || Ascii.eqb c space) s.

(** [str(n)] for an integer that is not negative: its decimal digits. *)
Definition decimal (n : Z) : string :=
  NilZero.string_of_uint (N.to_uint (Z.to_N n)).

End Shape.

(* ===================================================================== *)
(** ** Scanning a text for the word [host] *)
(* ===================================================================== *)

Module Host.
Import Py.

(** How far a scan from left to right has come towards a match of
    [\bhost\b]: the previous character is not a word character ([Gap], also
    at the start of the text), or the word that the scan is in reads [h],
    [ho], [hos] or [host] so far, or it is any other word ([Word]). *)
Inductive state : Type := Gap | Word | Hh | Ho | Hs | Ht.

(** The state after one more character; [None] when the character completes
    a match, a word [host] being followed by a character that is not a word
    character. *)
Definition step (st : state) (c : ascii) : option state :=
  if is_word c then
    Some match st with
         | Gap => if Ascii.eqb c "h" then Hh else Word
         | Hh => if Ascii.eqb c "o" then Ho else Word
         | Ho => if Ascii.eqb c "s" then Hs else Word
         | Hs => if Ascii.eqb c "t" then Ht else Word
         | Ht | Word => Word
         end
  else match st with
       | Ht => None
       | _ => Some Gap
       end.

(** No match of [\bhost\b] is completed in [s] by a scan that is in state
    [st]; the end of the text completes a match like a character that is
    not a word character. *)
Fixpoint free (st : state) (s : string) : bool :=
  match s with
  | EmptyString => match st with Ht => false | _ => true end
  | String c r =>
      match step st c with
      | Some st' => free st' r
      | None => false
      end
  end.

(** The state fits the character before the text. *)
Definition agrees (st : state) (prev : option ascii) : bool :=
  match st with
  | Gap => negb (is_word_opt prev)
  | _ => is_word_opt prev
  end.

(** The word that the scan is in does not become a match with the text that
    follows. *)
Definition pending (st : state) (s : string) : bool :=
  match st with
  | Hh => negb (startswith "ost" s && boundary (Some "t"%char) (drop_str 3 s))
  | Ho => negb (startswith "st" s && boundary (Some "t"%char) (drop_str 2 s))
  | Hs => negb (startswith "t" s && boundary (Some "t"%char) (drop_str 1 s))
  | Ht => negb (boundary (Some "t"%char) s)
  | Gap | Word => true
  end.

Definition no_newline (s : string) : bool :=
  Shape.all_chars (λ c, negb (code c =? 10)%N) s.

End Host.

(* ===================================================================== *)
(** ** Orders given by a three-way comparison *)
(* ===================================================================== *)

Module Order.

(** A three-way comparison that behaves like one of a total preorder. *)
Definition cmp_ok {A} (cmp : A → A → comparison) : Prop :=
  (∀ x, cmp x x = Eq)
  ∧ (∀ x y, cmp y x = CompOpp (cmp x y))
  ∧ (∀ x y z, cmp x y = Lt → cmp y z = Lt → cmp x z = Lt)
  ∧ (∀ x y z, cmp x y = Eq → cmp x z = cmp y z).

(** First [c1], then [c2] where [c1] does not decide. *)
Definition then_by (c1 c2 : comparison) : comparison :=
  match c1 with
  | Eq => c2
  | c => c
  end.

Definition leb_of {A} (cmp : A → A → comparison) (x y : A) : bool :=
  match cmp x y with
  | Gt => false
  | _ => true
  end.

End Order.

(* ===================================================================== *)
(** ** extract_all_events.py: popup enrichment *)
(* ===================================================================== *)

Module Popup.
Import Py Pd.

(** What the HTML and URL libraries return for one entry of the popup
    manifest: the [ID] parameter of its URL, the text of the element with id
    [EventSummary] and that of the element with id [DateHeader], [None] for
    an element that the page does not have. *)
Record Page : Type := {
  page_id : option string;
  page_summary : option string;
  page_date_header : option string
}.

Record PopupRow : Type := {
  event_id : option string;
  popup_summary : string;
  popup_date_header : option string
}.

Definition extract_popup (page : Page) : option PopupRow :=
  match page_summary page with
  | None => None
  | Some summary =>
      Some {| event_id := page_id page;
              popup_summary := Extract.clean summary;
              popup_date_header := Extract.clean <$> page_date_header page |}
  end.

(** [left.merge(right, on="event_id", how="left")]: every row of [left] in
    its order, once for each row of [right] with the same [event_id] (a
    missing id matches a missing id), or once with the columns of [right]
    missing when there is none. *)
Definition matches (right : list PopupRow) (e : Extract.Row) : list PopupRow :=
  filter (λ p, event_id p = Extract.event_id e) right.

Definition merge_left (left : list Extract.Row) (right : list PopupRow)
  : list (Extract.Row * option PopupRow) :=
  left ≫= (λ e,
    match matches right e with
    | [] => [(e, None)]
    | ps => (λ p, (e, Some p)) <$> ps
    end).

(** The popup enrichment of [main]: the merge is made unless no popup page
    gave a row. *)
Definition enrich (all_events : list Extract.Row) (popup_items : list Page)
  : list (Extract.Row * option PopupRow) :=
  let pop_rows := omap extract_popup popup_items in
  match pop_rows with
  | [] => (λ e, (e, None)) <$> all_events
  | _ => merge_left all_events pop_rows
  end.

End Popup.

(* ===================================================================== *)
(** ** audit_html_types.py: the audit of the downloaded files *)
(* ===================================================================== *)

Module HtmlAudit.
Import Py.

Definition classify_html (html : string) : string :=
  let low := lower html in
  if contains (Manifests.attr "class" "eventpopup") low
     || contains "eventpopup .summary" low
     || contains (Manifests.attr "id" "eventsummary") low
  then "event_popup"
  else if contains (Manifests.attr "class" "calblock") low
          || contains "class='calblock'" low
  then (if contains (Manifests.attr "class" "blockview") low
           || contains "class='blockview'" low
        then "month_block" else "calendar_grid_other")
  else if contains "<rss" low || contains "<feed" low || contains "op=rss" low
  then "feed"
  else if contains "calcium web calendar" low || contains "brownbearsw.com" low
  then "calcium_other"
  else "other".

Definition html_types : list string :=
  ["event_popup"; "month_block"; "calendar_grid_other"; "feed"; "calcium_other";
   "other"].

Definition is_xml_doc (html : string) : bool :=
  let head := lower (take_str 200 (lstrip_by is_space html)) in
  startswith "<?xml" head && negb (contains "<html" head).

(** The counters of [main]. *)
Record Report : Type := {
  counts : gmap string nat;
  skipped_xml : nat;
  skipped_empty : nat
}.

Definition empty_report : Report :=
  {| counts := ∅; skipped_xml := 0; skipped_empty := 0 |}.

(** [counts[t]] of a [Counter]: zero for a key that it does not hold. *)
Definition count_of (st : Report) (t : string) : nat :=
  default 0%nat (counts st !! t).

(** One iteration of the loop of [main] on the text of a file. *)
Definition step (st : Report) (html : string) : Report :=
  if decide (strip html = EmptyString)
  then {| counts := counts st;
          skipped_xml := skipped_xml st;
          skipped_empty := S (skipped_empty st) |}
  else if is_xml_doc html
  then {| counts := counts st;
          skipped_xml := S (skipped_xml st);
          skipped_empty := skipped_empty st |}
  else let t := classify_html html in
       {| counts := <[t := S (count_of st t)]> (counts st);
          skipped_xml := skipped_xml st;
          skipped_empty := skipped_empty st |}.

(** The files that reach [classify_html]: neither blank nor an XML
    document. *)
Definition audited (html : string) : Prop :=
  strip html ≠ EmptyString ∧ is_xml_doc html = false.

#[global] Instance audited_dec html : Decision (audited html).
Proof. unfold audited. apply _. Defined.

Section Files.
Context (read_text : string → option string).

(** The texts of the files of [iter_existing_files], cut to [max_files]
    when that option is positive. *)
Definition files (max_files : Z) (manifest : list Manifests.Entry) : list string :=
  let files := omap (Manifests.existing_file read_text) manifest in
  if 0 <? max_files then take (Z.to_nat max_files) files else files.

Definition audit (max_files : Z) (manifest : list Manifests.Entry) : Report :=
  foldl step empty_report (files max_files manifest).
End Files.

End HtmlAudit.

(* ===================================================================== *)
(** ** wayback_bulk_download.py: the downloader *)
(* ===================================================================== *)

Module Download.
Import Py.

Definition WAYBACK_WEB : string := "https://web.archive.org/web/".

Definition wayback_url (ts original : string) : string :=
  WAYBACK_WEB +:+ ts +:+ "id_/" +:+ original.

(** The class [[A-Za-z0-9._-]]. *)
Definition is_safe (c : ascii) : bool :=
  in_range 65 90 c || in_range 97 122 c || is_digit c
  || (code c =? 46)%N || (code c =? 95)%N || (code c =? 45)%N.

(** [re.sub(r"[^A-Za-z0-9._-]+", "_", s)]: every maximal run of other
    characters becomes one underscore. [in_run] tells that the previous
    character was one of them. *)
Fixpoint sub_unsafe (in_run : bool) (s : string) : string :=
  match s with
  | EmptyString => EmptyString
  | String c r =>
      if is_safe c then String c (sub_unsafe false r)
      else if in_run then sub_unsafe true r
      else String "_" (sub_unsafe true r)
  end.

Definition safe_filename (s : string) : string :=
  take_str 180 (sub_unsafe false s).

(** A row of the capture index. *)
Record Capture : Type := {
  cap_timestamp : string;
  cap_original : string
}.

(** An entry of [manifest.json] as [main] writes it. *)
Record Entry : Type := {
  timestamp : string;
  original : string;
  snapshot_url : string;
  path : string;
  error : option string
}.

(** The keys of an entry that the later scripts read. *)
Definition as_read (e : Entry) : Manifests.Entry :=
  {| Manifests.timestamp := Some (timestamp e);
     Manifests.original := Some (original e);
     Manifests.path := Some (path e) |}.

Section Main.
(** [str(outdir / sub / name)] for the output directory of the run. *)
Context (str_path : string → string → string).

Definition target_path (c : Capture) : string :=
  let ts := cap_timestamp c in
  str_path (take_str 6 ts) (ts +:+ "_" +:+ safe_filename (cap_original c) +:+ ".html").

(** One iteration of the loop of [main]. The state is the files on disk
    and the manifest so far; [fetched] is what [fetch] would do for this
    capture: the text of the page, or the message of the exception that it
    raises after its retries. *)
Definition step (st : gmap string string * list Entry)
    (cf : Capture * (string + string)) : gmap string string * list Entry :=
  let '(disk, manifest) := st in
  let '(c, fetched) := cf in
  let ts := cap_timestamp c in
  let orig := cap_original c in
  let snap := wayback_url ts orig in
  let path := target_path c in
  if decide (is_Some (disk !! path))
  then (disk, manifest ++ [{| timestamp := ts; original := orig; snapshot_url := snap;
                             path := path; error := None |}])
  else match fetched with
       | inl html =>
           (<[path := html]> disk,
            manifest ++ [{| timestamp := ts; original := orig; snapshot_url := snap;
                            path := path; error := None |}])
       | inr msg =>
           (disk,
            manifest ++ [{| timestamp := ts; original := orig; snapshot_url := snap;
                            path := EmptyString; error := Some msg |}])
       end.

Definition run (disk : gmap string string) (caps : list (Capture * (string + string)))
  : gmap string string * list Entry :=
  foldl step (disk, []) caps.

(** What an entry of the manifest says of its capture, on the disk as the
    run leaves it: the page is in the file named, or the path is empty and
    the message of the failure is kept. *)
Definition entry_of (disk : gmap string string) (e : Entry)
    (cf : Capture * (string + string)) : Prop :=
  timestamp e = cap_timestamp cf.1
  ∧ original e = cap_original cf.1
  ∧ snapshot_url e = wayback_url (cap_timestamp cf.1) (cap_original cf.1)
  ∧ ((path e = target_path cf.1 ∧ error e = None ∧ is_Some (disk !! path e))
     ∨ (path e = EmptyString ∧ ∃ msg, error e = Some msg ∧ cf.2 = inr msg)).
End Main.

End Download.

(* ===================================================================== *)
(** ** build_board_site.py: text put into the pages *)
(* ===================================================================== *)

Module Site.
Import Py.

Definition dquote : ascii := ascii_of_N 34.

(** [s.replace(c, new)] for a one-character [c]. *)
Fixpoint replace_char (c : ascii) (new : string) (s : string) : string :=
  match s with
  | EmptyString => EmptyString
  | String a r =>
      if Ascii.eqb a c then new +:+ replace_char c new r
      else String a (replace_char c new r)
  end.

Definition html_escape (s : string) : string :=
  replace_char dquote "&quot;"
    (replace_char ">" "&gt;"
       (replace_char "<" "&lt;"
          (replace_char "&" "&amp;" s))).

(** What the four replacements together make of one character. *)
Definition entity (c : ascii) : string :=
  if Ascii.eqb c "&" then "&amp;"
  else if Ascii.eqb c "<" then "&lt;"
  else if Ascii.eqb c ">" then "&gt;"
  else if Ascii.eqb c dquote then "&quot;"
  else String c EmptyString.

Fixpoint entities (s : string) : string :=
  match s with
  | EmptyString => EmptyString
  | String c r => entity c +:+ entities r
  end.

(** None of the characters that end or open markup inside text or inside a
    quoted attribute. *)
Definition markup_free (s : string) : bool :=
  Shape.all_chars
    (λ c, negb (Ascii.eqb c "<" || Ascii.eqb c ">" || Ascii.eqb c dquote)) s.

End Site.

(* ===================================================================== *)
(** ** eda_wayback_links.py: the guess of the page type from the URL *)
(* ===================================================================== *)

Module Eda.
Import Py.

(** [s.endswith(p)] *)
Fixpoint endswith (p s : string) : bool :=
  (String.eqb p s)
  || match s with
     | EmptyString => false
     | String _ r => endswith p r
     end.

Definition classify_url (original_url : string) : string :=
  let u := lower original_url in
  if contains "calcium" u then "calendar_calcium"
  else if contains "calendar" u && contains "type=block" u then "calendar_month_view"
  else if contains "calendar" u then "calendar_other"
  else if contains "rss" u || contains "feed" u then "feed"
  else if contains "sitemap" u then "sitemap"
  else if endswith ".xml" u then "xml_other"
  else if endswith ".php" u then "php_page"
  else "other".

Definition page_types : list string :=
  ["calendar_calcium"; "calendar_month_view"; "calendar_other"; "feed";
   "sitemap"; "xml_other"; "php_page"; "other"].

(** The filter [str.contains("calendar")] of [main] on the guess. *)
Definition in_calendar_df (original_url : string) : bool :=
  contains "calendar" (classify_url original_url).

End Eda.

(* ===================================================================== *)
(** ** rebuild_events_safe.py: the URLs that [get_qs] takes apart *)
(* ===================================================================== *)

Module Raw.
Import Py Html.

(** A URL as [get_qs] meets it. [urlparse] raises [ValueError] on a URL
    whose host part is malformed, a bracket without its pair for one; of
    any other URL [get_qs] returns the query dictionary. *)
Inductive Url : Type :=
| Malformed (url : string)
| Wellformed (qs : gmap string string).

(** Outcome of a statement that calls [get_qs] outside any [try]. *)
Inductive tried (A : Type) : Type :=
| Got (a : A)
| ValueError (url : string).
Arguments Got {A} a.
Arguments ValueError {A} url.

#[global] Instance tried_ret : MRet tried := λ A a, Got a.
#[global] Instance tried_bind : MBind tried := λ A B k m,
  match m with
  | Got a => k a
  | ValueError url => ValueError url
  end.

Definition get_qs (url : Url) : tried (gmap string string) :=
  match url with
  | Malformed u => ValueError u
  | Wellformed qs => Got qs
  end.

(** An event block whose [noscript] link is still a URL. *)
Record Block : Type := {
  (** the block; its field [noscript_qs] is not read *)
  block_markup : Html.Block;
  (** the [href] of the [a] inside [noscript], when the block has a
      [noscript] holding an [a] with a non-empty [href] *)
  noscript_href : option Url
}.

(** A manifest item whose [original] is still a URL. *)
Record Item : Type := {
  (** [it.get("original", "")] *)
  item_original : Url;
  (** the event blocks of its file, in document order *)
  item_blocks : list Block
}.

Definition with_qs (ev : Html.Block) (qs : option (gmap string string))
  : Html.Block :=
  {| div_classes := div_classes ev;
     time_span := time_span ev;
     anchor_text := anchor_text ev;
     block_text := block_text ev;
     noscript_qs := qs;
     popup_call := popup_call ev;
     popup_call_closed := popup_call_closed ev |}.

(** The call [get_qs(link["href"])] of [extract_events] on one block. *)
Definition read_block (ev : Block) : tried Html.Block :=
  match noscript_href ev with
  | Some url => qs ← get_qs url; mret (with_qs (block_markup ev) (Some qs))
  | None => mret (with_qs (block_markup ev) None)
  end.

(** One turn of the loop of [parse_manifest]: the URL of the item first,
    then the blocks of its file one after the other. *)
Definition read_item (it : Item) : tried Html.Item :=
  qs ← get_qs (item_original it);
  blocks ← mapM read_block (item_blocks it);
  mret {| Html.item_calendar := qs !! "CalendarName";
          Html.item_blocks := blocks |}.

Definition read_manifest (items : list Item) : tried (list Html.Item) :=
  mapM read_item items.

(** The URLs of a manifest in the order in which the script takes them
    apart. *)
Definition block_urls (ev : Block) : list Url := option_list (noscript_href ev).
Definition item_urls (it : Item) : list Url :=
  item_original it :: (item_blocks it ≫= block_urls).
Definition urls (items : list Item) : list Url := items ≫= item_urls.

Fixpoint first_malformed (l : list Url) : option string :=
  match l with
  | [] => None
  | Malformed u :: _ => Some u
  | Wellformed _ :: rest => first_malformed rest
  end.

(** A manifest yields a row when one of its blocks has a title and a
    date. *)
Definition usable (items : list Html.Item) : Prop :=
  ∃ it ev, it ∈ items ∧ ev ∈ Html.item_blocks it
           ∧ Rebuild.block_title ev ≠ EmptyString
           ∧ is_Some (Rebuild.block_date_id ev).1.

(** The script from the two manifests to [df_final]: the month manifest is
    parsed and its column [calendar_name] selected before the day manifest
    is opened. *)
Definition df_final (month_items day_items : list Item)
  : tried (Py.result (list Rebuild.Row)) :=
  month ← read_manifest month_items;
  match Rebuild.column_calendar_name (Rebuild.parse_manifest month "month_block") with
  | Py.Raise e => mret (Py.Raise e)
  | Py.Ok _ =>
      day ← read_manifest day_items;
      mret (Rebuild.df_final month day)
  end.

End Raw.

(* ===================================================================== *)
(** ** More sample data *)
(* ===================================================================== *)

Module Cases.

(** The row that extract_all_events.py reads from the Friday prayer. *)
Definition friday_event : Extract.Row :=
  {| Extract.date := Some "2021-05-21";
     Extract.title := "Friday Prayer";
     Extract.title_norm := "friday prayer";
     Extract.time_label := Some "1:00 PM";
     Extract.location_code := Some "c_Masjid";
     Extract.calendar_name := Some "BilalEvents";
     Extract.event_id := Some "899";
     Extract.source_type := "month_block" |}.

(** A popup page of an event. *)
Definition popup (id summary : string) : Popup.Page :=
  {| Popup.page_id := Some id;
     Popup.page_summary := Some summary;
     Popup.page_date_header := Some "Friday, May 21, 2021" |}.

(** A family night as the canonical table lists it, and as the analytics
    loads it. *)
Definition evening (time : string) (venue : option string) : Analytics.CsvRow :=
  {| Analytics.csv_date := Some "2021-05-21";
     Analytics.csv_title := Some "Family Night";
     Analytics.csv_time_label := Some time;
     Analytics.csv_location_code := venue |}.

Definition evening_event (time venue : string) : Analytics.Event :=
  {| Analytics.date := "2021-05-21";
     Analytics.year_int := 2021;
     Analytics.year_month := "2021-05";
     Analytics.title_canonical := "family night";
     Analytics.location_code := venue;
     Analytics.time_label := time;
     Analytics.event_key := "2021-05-21||family night||" +:+ Py.lower time |}.

(** The Friday prayer of a table row without venue, as the analytics loads
    it. *)
Definition friday_nan_event : Analytics.Event :=
  {| Analytics.date := "2021-05-21";
     Analytics.year_int := 2021;
     Analytics.year_month := "2021-05";
     Analytics.title_canonical := "friday prayer";
     Analytics.location_code := "nan";
     Analytics.time_label := "1:00 PM";
     Analytics.event_key := "2021-05-21||friday prayer||1:00 pm" |}.

(** Two captures of one page: the first download succeeds, the second
    fails. *)
Definition flat_path (sub name : string) : string := sub +:+ "/" +:+ name.

Definition month_capture : Download.Capture :=
  {| Download.cap_timestamp := "20210521000000";
     Download.cap_original := "http://cal/?Op=ShowMonth" |}.

Definition later_capture : Download.Capture :=
  {| Download.cap_timestamp := "20210604000000";
     Download.cap_original := "http://cal/?Op=ShowMonth" |}.

Definition failed_entry : Download.Entry :=
  {| Download.timestamp := "20210604000000";
     Download.original := "http://cal/?Op=ShowMonth";
     Download.snapshot_url :=
       "https://web.archive.org/web/20210604000000id_/http://cal/?Op=ShowMonth";
     Download.path := EmptyString;
     Download.error := Some "HTTP 503" |}.

(** The month page of the calendar with the Friday prayer, its URLs not
    yet taken apart, and the same page when the link of the block has a
    bracket without its pair. *)
Definition calendar_url : Raw.Url :=
  Raw.Wellformed {[ "CalendarName" := "BilalEvents" ]}.

Definition broken_url : Raw.Url :=
  Raw.Malformed "http://[cal/?Op=PopupWindow&Date=2021/5/21&ID=899".

Definition friday_href : Raw.Url :=
  Raw.Wellformed (<["ID" := "899"]> {[ "Date" := "2021/5/21" ]}).

Definition friday_page : Raw.Item :=
  {| Raw.item_original := calendar_url;
     Raw.item_blocks :=
       [ {| Raw.block_markup := Sample.friday;
            Raw.noscript_href := Some friday_href |} ] |}.

Definition broken_page : Raw.Item :=
  {| Raw.item_original := calendar_url;
     Raw.item_blocks :=
       [ {| Raw.block_markup := Sample.friday;
            Raw.noscript_href := Some broken_url |} ] |}.

(** A page of the calendar without any event block. *)
Definition blank_page : Raw.Item :=
  {| Raw.item_original := calendar_url; Raw.item_blocks := [] |}.

End Cases.

(* ===================================================================== *)
(** ** The primitives on small inputs *)
(* ===================================================================== *)

Example clean_collapses_whitespace :
  Rebuild.clean "  Friday   Prayer " = "Friday Prayer"
  ∧ Rebuild.clean (String Py.nbsp "a" +:+ String Py.newline "b") = "a b".
Proof. by vm_compute. Qed.

Example int_accepts_and_rejects :
  Py.int " 2021 " = Some 2021 ∧ Py.int "-5" = Some (-5) ∧ Py.int "+7" = Some 7
  ∧ Py.int "1_0" = Some 10 ∧ Py.int "1__0" = None ∧ Py.int "1_" = None
  ∧ Py.int "_1" = None ∧ Py.int EmptyString = None ∧ Py.int "5x" = None
  ∧ Py.int "- 5" = None
  ∧ Py.int (String Py.nbsp "5") = Some 5
  ∧ Py.int (String (ascii_of_N 28) "5") = None.
Proof. by vm_compute. Qed.

Example sub_host_needs_the_rest_of_the_line :
  let nl := String Py.newline EmptyString in
  Analytics.sub_host None ("host abc" +:+ nl) = nl
  ∧ Analytics.sub_host None ("a host b" +:+ nl +:+ "c host d")
    = "a host b" +:+ nl +:+ "c "
  ∧ Analytics.sub_host None "ghost host_x host" = "ghost host_x ".
Proof. by vm_compute. Qed.

Example format_pads_after_sign :
  Py.format_0d 4 5 = "0005" ∧ Py.format_0d 4 (-5) = "-005"
  ∧ Py.format_0d 4 12345 = "12345" ∧ Py.format_0d 2 0 = "00"
  ∧ Py.format_0d 2 (-5) = "-5".
Proof. by vm_compute. Qed.

Example split_keeps_empty_parts :
  Py.split "/" "2021/5/21" = ["2021"; "5"; "21"]
  ∧ Py.split "/" EmptyString = [EmptyString]
  ∧ Py.split "/" "a//b/" = ["a"; EmptyString; "b"; EmptyString].
Proof. by vm_compute. Qed.

Example parse_date_str_rejects :
  Rebuild.parse_date_str "2021/5" = None
  ∧ Rebuild.parse_date_str "2021/May/21" = None
  ∧ Rebuild.parse_date_str EmptyString = None
  ∧ Rebuild.parse_date_str "2021/5/21/extra" = Some "2021-05-21".
Proof. by vm_compute. Qed.

Example normalize_loc_strips_prefix :
  Rebuild.normalize_loc (Some "c_Masjid") = Some "Masjid"
  ∧ Rebuild.normalize_loc (Some "C_Gym") = Some "Gym"
  ∧ Rebuild.normalize_loc (Some "Library") = Some "Library"
  ∧ Rebuild.normalize_loc None = None.
Proof. by vm_compute. Qed.

Example scan_divs_first_venue_class :
  Rebuild.scan_divs None [["EventLink"]; ["CalEvent"; "c_Masjid"; "c_Gym"]; ["c_Hall"]]
  = Some "c_Masjid".
Proof. by vm_compute. Qed.

Example sub_host_word_boundaries :
  Analytics.canonical_title "Ghost Stories" = "ghost stories"
  ∧ Analytics.canonical_title "Youth Night - Host: A. Person" = "youth night"
  ∧ Analytics.canonical_title "Q&A / Dinner" = "q a dinner"
  ∧ Analytics.canonical_title "Arabic Scool" = "arabic school".
Proof. by vm_compute. Qed.

Example classify_html_order :
  Manifests.classify_html Sample.month_page = "month_block"
  ∧ Manifests.classify_html "<table CLASS='CalBlock'>" = "calendar_grid_other"
  ∧ Manifests.classify_html "<rss version='2.0'>" = "feed"
  ∧ Manifests.classify_html "Calcium Web Calendar" = "calcium_other"
  ∧ Manifests.classify_html EmptyString = "other".
Proof. by vm_compute. Qed.

Example search_word_ci_boundaries :
  Py.search_word_ci "CalEvent" None "<div class='calevent Masjid'>" = true
  ∧ Py.search_word_ci "CalEvent" None "<div class='CalEvents'>" = false
  ∧ Py.search_word_ci "CalEvent" None "NoCalEvent" = false.
Proof. by vm_compute. Qed.

Example sort_values_is_stable_and_ranked :
  Rebuild.sort_values
    [ Sample.family_gym_row "day_block"; Sample.friday_day_row;
      Sample.family_masjid_row "month_block"; Sample.friday_bare_row ]
  = [ Sample.family_masjid_row "month_block"; Sample.family_gym_row "day_block";
      Sample.friday_bare_row; Sample.friday_day_row ].
Proof. by vm_compute. Qed.

(* ===================================================================== *)
(** ** Facts about sorting and [drop_duplicates] *)
(* ===================================================================== *)

Section FilterFacts.
Context {A : Type} (P : A → Prop) `{∀ x, Decision (P x)}.

Lemma filter_none (l : list A) : (∀ x, x ∈ l → ¬ P x) → filter P l = [].
Proof.
  induction l as [|x l IH]; intros Hall; [done|].
  rewrite filter_cons_False by (apply Hall; by left).
  apply IH. intros y ?. apply Hall. by right.
Qed.

Lemma filter_all (l : list A) : (∀ x, x ∈ l → P x) → filter P l = l.
Proof.
  induction l as [|x l IH]; intros Hall; [done|].
  rewrite filter_cons_True by (apply Hall; by left).
  f_equal. apply IH. intros y ?. apply Hall. by right.
Qed.
End FilterFacts.

Section SortFacts.
Context {A : Type} (leb : A → A → bool).

Lemma insert_by_perm x (l : list A) : Pd.insert_by leb x l ≡ₚ x :: l.
Proof.
  induction l as [|y l IH]; simpl; [done|].
  destruct (leb x y); [done|].
  rewrite IH. apply Permutation_swap.
Qed.

Lemma sort_by_perm (l : list A) : Pd.sort_by leb l ≡ₚ l.
Proof.
  induction l as [|x l IH]; simpl; [done|].
  unfold Pd.sort_by in *. simpl.
  rewrite insert_by_perm. by rewrite IH.
Qed.

Lemma sort_by_elem_of x (l : list A) : x ∈ Pd.sort_by leb l ↔ x ∈ l.
Proof. by rewrite sort_by_perm. Qed.

Lemma sort_by_length (l : list A) : length (Pd.sort_by leb l) = length l.
Proof. by rewrite sort_by_perm. Qed.
End SortFacts.

Section DedupFacts.
Context {A K : Type} `{EqDecision K} (key : A → K).
Implicit Types (l : list A) (seen : list K).

Lemma dd_elem_of x seen l :
  x ∈ Pd.drop_duplicates key seen l → x ∈ l ∧ key x ∉ seen.
Proof.
  revert seen. induction l as [|y l IH]; intros seen; simpl.
  - by intros ?%elem_of_nil.
  - case_decide as Hy.
    + intros [? ?]%IH. split; [by right|done].
    + intros [->|[? Hn]%IH]%elem_of_cons.
      * split; [by left|done].
      * split; [by right|]. intros ?. apply Hn. by right.
Qed.

Lemma dd_sublist seen l : Pd.drop_duplicates key seen l `sublist_of` l.
Proof.
  revert seen. induction l as [|y l IH]; intros seen; simpl; [done|].
  case_decide; [by apply sublist_cons|by apply sublist_skip].
Qed.

Lemma dd_NoDup seen l : NoDup (key <$> Pd.drop_duplicates key seen l).
Proof.
  revert seen. induction l as [|y l IH]; intros seen; simpl.
  - constructor.
  - case_decide; [done|].
    rewrite fmap_cons. constructor; [|done].
    intros (z & Hz & [_ Hn]%dd_elem_of)%list_elem_of_fmap.
    apply Hn. rewrite Hz. by left.
Qed.

(** Every key of the input that was not seen before keeps a row. *)
Lemma dd_covers x seen l :
  x ∈ l → key x ∉ seen →
  ∃ y, y ∈ Pd.drop_duplicates key seen l ∧ key y = key x.
Proof.
  revert seen. induction l as [|z l IH]; intros seen; simpl.
  - by intros ?%elem_of_nil.
  - intros [->|Hx]%elem_of_cons Hseen.
    + rewrite decide_False by done. exists z. split; [by left|done].
    + case_decide as Hz.
      * by apply IH.
      * destruct (decide (key x = key z)) as [Heq|Hne].
        -- exists z. split; [by left|done].
        -- destruct (IH (key z :: seen) Hx) as (y & ? & ?).
           { intros [?|?]%elem_of_cons; done. }
           exists y. split; [by right|done].
Qed.



(** Two kept rows with one key are the same row. *)
Lemma dd_unique seen l x y :
  x ∈ Pd.drop_duplicates key seen l →
  y ∈ Pd.drop_duplicates key seen l →
  key x = key y → x = y.
Proof.
  intros Hx Hy Hk. pose proof (dd_NoDup seen l) as Hnd.
  revert Hx Hy Hnd. generalize (Pd.drop_duplicates key seen l) as d.
  induction d as [|z d IH]; [by intros ?%elem_of_nil|].
  rewrite fmap_cons, NoDup_cons.
  intros [->|Hx]%elem_of_cons [->|Hy]%elem_of_cons [Hz Hd]; [done| | |by apply IH].
  - exfalso. apply Hz. rewrite Hk. by apply list_elem_of_fmap_2.
  - exfalso. apply Hz. rewrite <- Hk. by apply list_elem_of_fmap_2.
Qed.
End DedupFacts.

(* ===================================================================== *)
(** ** Facts about the reconciler *)
(* ===================================================================== *)

Section ReconcileFacts.
Import Py Html Rebuild.
Implicit Types (r m d : Row) (df_month df_day : list Row).

Lemma extract_block_row cal src ev r :
  extract_block cal src ev = Some r →
  source_type r = src ∧ calendar_name r = cal
  ∧ year_month r = take_str 7 (date r)
  ∧ truthy (Some (title r)) = true
  ∧ (block_date_id ev).1 = Some (date r).
Proof.
  unfold extract_block. destruct (block_date_id ev) as [dt eid] eqn:Hd.
  destruct (truthy (Some (block_title ev))) eqn:Ht; simpl; [|done].
  destruct dt as [[|c s]|]; simpl; [done| |done].
  intros [= <-]. simpl. done.
Qed.

Lemma parse_manifest_row items src r :
  r ∈ parse_manifest items src →
  source_type r = src ∧ year_month r = take_str 7 (date r).
Proof.
  unfold parse_manifest, extract_events.
  intros (it & (ev & _ & Hev)%list_elem_of_omap & _)%list_elem_of_bind.
  apply extract_block_row in Hev as (? & _ & ? & _). done.
Qed.

Lemma df_final_ok month_items day_items :
  parse_manifest month_items "month_block" ≠ [] →
  parse_manifest day_items "day_block" ≠ [] →
  df_final month_items day_items
  = Ok (reconcile (bilal_rows month_items "month_block")
                  (bilal_rows day_items "day_block")).
Proof.
  unfold df_final, bilal_rows. intros Hm Hd.
  destruct (parse_manifest month_items "month_block"); [done|].
  destruct (parse_manifest day_items "day_block"); [done|]. done.
Qed.

Lemma df_final_raise month_items day_items :
  parse_manifest month_items "month_block" = []
  ∨ parse_manifest day_items "day_block" = [] →
  df_final month_items day_items = Raise (KeyError "calendar_name").
Proof.
  unfold df_final. intros [->| ->]; [done|].
  by destruct (parse_manifest month_items "month_block").
Qed.

Lemma df_sorted_elem_of df_month df_day r :
  r ∈ df_sorted df_month df_day ↔
  r ∈ df_month ∨ (r ∈ df_day ∧ year_month r ∉ month_months df_month).
Proof.
  unfold df_sorted, sort_values, df_day_missing.
  rewrite sort_by_elem_of, elem_of_app, list_elem_of_filter. tauto.
Qed.

Lemma month_months_elem_of df_month m :
  m ∈ df_month → year_month m ∈ month_months df_month.
Proof.
  intros ?. unfold month_months. rewrite elem_of_list_to_set.
  by apply list_elem_of_fmap_2.
Qed.

Lemma reconcile_elem_of df_month df_day r :
  r ∈ reconcile df_month df_day → r ∈ df_sorted df_month df_day.
Proof.
  unfold reconcile, df_with_id, df_no_id.
  intros [[H _]%dd_elem_of|[H _]%dd_elem_of]%elem_of_app;
    by apply list_elem_of_filter in H as [_ ?].
Qed.

Lemma reconcile_length df_month df_day :
  (length (reconcile df_month df_day) ≤ length df_month + length df_day)%nat.
Proof.
  unfold reconcile, df_with_id, df_no_id. rewrite length_app.
  pose proof (sublist_length _ _ (dd_sublist id_key []
    (filter (λ r, is_Some (event_id r)) (df_sorted df_month df_day)))).
  pose proof (sublist_length _ _ (dd_sublist title_key []
    (filter (λ r, event_id r = None) (df_sorted df_month df_day)))).
  pose proof (length_filter (λ r, is_Some (event_id r)) (df_sorted df_month df_day)) as H1.
  assert (length (filter (λ r, is_Some (event_id r)) (df_sorted df_month df_day))
          + length (filter (λ r, event_id r = None) (df_sorted df_month df_day))
          = length (df_sorted df_month df_day))%nat as Hsplit.
  { generalize (df_sorted df_month df_day) as l.
    induction l as [|x l IH]; [done|].
    rewrite !filter_cons. destruct (event_id x) eqn:Hx.
    - rewrite decide_True by eauto. rewrite decide_False by done. simpl. lia.
    - rewrite decide_False by (by intros [? ?]). rewrite decide_True by done.
      simpl. lia. }
  assert (length (df_sorted df_month df_day) ≤ length df_month + length df_day)%nat.
  { unfold df_sorted, sort_values, df_day_missing.
    rewrite sort_by_length, length_app.
    pose proof (length_filter (λ r, year_month r ∉ month_months df_month) df_day). lia. }
  lia.
Qed.

(** A candidate that carries an [event_id] keeps exactly one row for its
    [(date, event_id)]. *)
Lemma with_id_kept df_month df_day m :
  m ∈ df_sorted df_month df_day → is_Some (event_id m) →
  ∃ r, r ∈ reconcile df_month df_day ∧ id_key r = id_key m
       ∧ ∀ r', r' ∈ reconcile df_month df_day → id_key r' = id_key m → r' = r.
Proof.
  intros Hm Hid. unfold reconcile, df_with_id, df_no_id.
  set (df := df_sorted df_month df_day) in *.
  destruct (dd_covers id_key m [] (filter (λ r, is_Some (event_id r)) df))
    as (r & Hr & Hk).
  { by apply list_elem_of_filter. }
  { apply not_elem_of_nil. }
  exists r. split_and!; [apply elem_of_app; by left|done|].
  intros r' [Hr'|Hr']%elem_of_app Hk'.
  - eapply dd_unique; [done..|congruence].
  - apply dd_elem_of in Hr' as [[Hnone _]%list_elem_of_filter _].
    unfold id_key in Hk'. destruct Hid as [e He].
    rewrite He, Hnone in Hk'. by injection Hk'.
Qed.

End ReconcileFacts.

(* ===================================================================== *)
(** ** Properties of the reconciler *)
(* ===================================================================== *)

Section StringOrderFacts.
Import Py Html Rebuild.

Lemma string_compare_refl (s : string) : String.compare s s = Eq.
Proof.
  pose proof (String.compare_antisym s s) as H.
  by destruct (String.compare s s).
Qed.

End StringOrderFacts.

(** C2. Coverage gate. Whenever both manifests yield rows, the script
    produces the canonical table, and every [day_block] row of that table is a
    day row of the calendar whose [year_month] differs from the [year_month]
    of every month row of the calendar: a month that has a [month_block]
    record admits no [day_block] record, and day records enter only for
    months absent from the month set. *)
Theorem coverage_gate (month_items day_items : list Html.Item) :
  Rebuild.parse_manifest month_items "month_block" ≠ [] →
  Rebuild.parse_manifest day_items "day_block" ≠ [] →
  ∃ table,
    Rebuild.df_final month_items day_items = Py.Ok table
    ∧ ∀ r, r ∈ table → Rebuild.source_type r = "day_block" →
        r ∈ Rebuild.bilal_rows day_items "day_block"
        ∧ (Rebuild.year_month r
             ∉ Rebuild.month_months (Rebuild.bilal_rows month_items "month_block"))
        ∧ ∀ m, m ∈ Rebuild.bilal_rows month_items "month_block" →
               Rebuild.year_month m ≠ Rebuild.year_month r.
Proof.
  intros Hm Hd. eexists. split; [by apply df_final_ok|].
  intros r Hr Hsrc.
  apply reconcile_elem_of, df_sorted_elem_of in Hr as [Hr|[Hr Hgate]].
  - apply list_elem_of_filter in Hr as [_ Hr].
    apply parse_manifest_row in Hr as [Hs _]. congruence.
  - split_and!; [done..|].
    intros m Hmem Heq. apply Hgate. rewrite <- Heq.
    by apply month_months_elem_of.
Qed.

(** The gate at work: a month page and a day page both show the Friday prayer
    of May 2021; the table is produced and the day row is not in it. *)
Lemma coverage_gate_witness :
  Rebuild.parse_manifest [Sample.bilal [Sample.friday_bare]] "month_block" ≠ []
  ∧ Rebuild.parse_manifest [Sample.bilal [Sample.friday]] "day_block" ≠ []
  ∧ ∃ table,
      Rebuild.df_final [Sample.bilal [Sample.friday_bare]] [Sample.bilal [Sample.friday]]
      = Py.Ok table
      ∧ Sample.friday_day_row ∉ table.
Proof.
  assert (Rebuild.parse_manifest [Sample.bilal [Sample.friday_bare]] "month_block" ≠ [])
    as Hm by (vm_compute; discriminate).
  assert (Rebuild.parse_manifest [Sample.bilal [Sample.friday]] "day_block" ≠ [])
    as Hd by (vm_compute; discriminate).
  split; [exact Hm|]. split; [exact Hd|].
  destruct (coverage_gate _ _ Hm Hd) as (table & Heq & Hgate).
  exists table. split; [exact Heq|].
  intros Hin. destruct (Hgate _ Hin eq_refl) as (_ & _ & Hne).
  apply (Hne Sample.friday_bare_row); [|reflexivity].
  vm_compute. apply list_elem_of_here.
Defined.

Section RankFacts.
Import Rebuild.

(** Rows of equal [date] and [title_norm] are ordered by [source_rank]
    first, then by [has_event_id], then by [has_location]. *)
Lemma row_compare_same_title (a b : Row) :
  date a = date b → title_norm a = title_norm b →
  row_compare a b
  = lex [ source_rank a ?= source_rank b;
          has_event_id b ?= has_event_id a;
          has_location b ?= has_location a ].
Proof.
  intros Hd Ht. unfold row_compare. rewrite Hd, Ht. simpl.
  by rewrite !string_compare_refl.
Qed.

Lemma source_rank_month_day (m d : Row) :
  source_type m = "month_block" → source_type d = "day_block" →
  source_rank m < source_rank d.
Proof. unfold source_rank. intros -> ->. by vm_compute. Qed.
End RankFacts.

Section BookingFacts.
Import Analytics.



End BookingFacts.




(* ===================================================================== *)
(** ** Identity invariants *)
(* ===================================================================== *)

Section IdentityFacts.
Import Rebuild.

Lemma with_id_rows (df : list Row) :
  filter (λ r, is_Some (event_id r)) (df_with_id df ++ df_no_id df) = df_with_id df.
Proof.
  rewrite filter_app, filter_all, filter_none; [by rewrite app_nil_r| |].
  - intros r [[Hr _]%list_elem_of_filter _]%dd_elem_of [e He]. congruence.
  - by intros r [[Hr _]%list_elem_of_filter _]%dd_elem_of.
Qed.

Lemma no_id_rows (df : list Row) :
  filter (λ r, event_id r = None) (df_with_id df ++ df_no_id df) = df_no_id df.
Proof.
  rewrite filter_app, filter_none, filter_all; [done| |].
  - by intros r [[Hr _]%list_elem_of_filter _]%dd_elem_of.
  - intros r [[[e He] _]%list_elem_of_filter _]%dd_elem_of. congruence.
Qed.
End IdentityFacts.

(** C4. Identity invariants of the deduplicated output. In the canonical
    table the rows that carry an [event_id] have pairwise different
    [(date, event_id)] and the rows without one have pairwise different
    [(date, title_norm)]; over any table read by the analytics the
    [event_key] values of [events_unique] are pairwise different, the
    [(event_key, location_code)] pairs of [venue_bookings] are pairwise
    different, and no booking has an empty [location_code]. *)
Theorem identity_unique (df_month df_day : list Rebuild.Row)
    (csv : list Analytics.CsvRow) :
  let table := Rebuild.reconcile df_month df_day in
  let df := Analytics.load csv in
  NoDup (Rebuild.id_key <$> filter (λ r, is_Some (Rebuild.event_id r)) table)
  ∧ NoDup (Rebuild.title_key <$> filter (λ r, Rebuild.event_id r = None) table)
  ∧ NoDup (Analytics.event_key <$> Analytics.events_unique df)
  ∧ NoDup (Analytics.booking_key <$> Analytics.venue_bookings df)
  ∧ Forall (λ b, Analytics.location_code b ≠ EmptyString) (Analytics.venue_bookings df).
Proof.
  intros table df. subst table. unfold Rebuild.reconcile.
  rewrite with_id_rows, no_id_rows. split_and!.
  - apply dd_NoDup.
  - apply dd_NoDup.
  - apply dd_NoDup.
  - apply dd_NoDup.
  - apply Forall_forall. intros b Hb.
    by apply dd_elem_of in Hb as [[? _]%list_elem_of_filter _].
Qed.

(** The invariants on the table of the two family-night rows. *)
Lemma identity_unique_witness :
  NoDup (Analytics.event_key
           <$> Analytics.events_unique
                 (Analytics.load
                    (Analytics.read_csv
                       (Rebuild.reconcile
                          [Sample.family_masjid_row "month_block";
                           Sample.family_gym_row "month_block"] [])))).
Proof.
  exact (proj1 (proj2 (proj2
    (identity_unique [Sample.family_masjid_row "month_block";
                      Sample.family_gym_row "month_block"] []
       (Analytics.read_csv
          (Rebuild.reconcile
             [Sample.family_masjid_row "month_block";
              Sample.family_gym_row "month_block"] [])))))).
Defined.

(* ===================================================================== *)
(** ** The end-to-end scenario *)
(* ===================================================================== *)

(** The Friday prayer of 21 May 2021, printed once on a month page of the
    calendar with the venue class [c_Masjid] under event 899, stage by stage.
    The parser yields the one row with the prefix stripped, the reconciler
    keeps it as the whole table, and the analytics derives the one booking
    [("2021-05-21||friday prayer||1:00 pm", "Masjid")] from that table. The
    script ends with this table when the day manifest yields rows, none of
    them of the calendar: rows that the record alone does not provide. *)
Theorem friday_prayer_scenario :
  Rebuild.extract_events [Sample.friday] (Some "BilalEvents") "month_block"
  = [Sample.friday_row]
  ∧ Rebuild.location_code Sample.friday_row = Some "Masjid"
  ∧ Rebuild.reconcile [Sample.friday_row] [] = [Sample.friday_row]
  ∧ Analytics.booking_key
      <$> Analytics.venue_bookings
            (Analytics.load (Analytics.read_csv [Sample.friday_row]))
    = [("2021-05-21||friday prayer||1:00 pm", "Masjid")]
  ∧ ∀ day_items,
      Rebuild.parse_manifest day_items "day_block" ≠ [] →
      Rebuild.bilal_rows day_items "day_block" = [] →
      Rebuild.df_final [Sample.bilal [Sample.friday]] day_items
      = Py.Ok [Sample.friday_row].
Proof.
  split_and!; [by vm_compute..|].
  intros day_items Hne Hnil.
  rewrite df_final_ok; [|by vm_compute|done].
  rewrite Hnil. by vm_compute.
Qed.

Lemma friday_prayer_scenario_witness :
  Rebuild.df_final [Sample.bilal [Sample.friday]] [Sample.foreign [Sample.friday]]
  = Py.Ok [Sample.friday_row].
Proof.
  apply (proj2 (proj2 (proj2 (proj2 friday_prayer_scenario)))
           [Sample.foreign [Sample.friday]]).
  - vm_compute. discriminate.
  - reflexivity.
Defined.

(** C5. The record as the only input of the script: the month manifest is
    the one page of the calendar that prints the block, and the day manifest
    yields no row. The parser reads the record as the row with location
    [Masjid], and the reconciler and the analytics, given that row, produce
    the one-row table and the one booking. The script does not get that far:
    the day frame [pd.DataFrame([])] has no column, the selection
    [df_day["calendar_name"]] raises [KeyError], and nothing is written,
    neither a row nor a booking. The same holds for every day manifest
    that yields no row. *)
Theorem friday_prayer_alone_raises :
  Rebuild.parse_manifest [Sample.bilal [Sample.friday]] "month_block"
  = [Sample.friday_row]
  ∧ Rebuild.parse_manifest [] "day_block" = []
  ∧ Rebuild.df_final [Sample.bilal [Sample.friday]] []
    = Py.Raise (Py.KeyError "calendar_name")
  ∧ (∀ day_items,
       Rebuild.parse_manifest day_items "day_block" = [] →
       Rebuild.df_final [Sample.bilal [Sample.friday]] day_items
       = Py.Raise (Py.KeyError "calendar_name"))
  ∧ Rebuild.reconcile [Sample.friday_row] [] = [Sample.friday_row]
  ∧ Analytics.booking_key
      <$> Analytics.venue_bookings
            (Analytics.load (Analytics.read_csv [Sample.friday_row]))
    = [("2021-05-21||friday prayer||1:00 pm", "Masjid")].
Proof.
  split_and!; [by vm_compute..| |by vm_compute|by vm_compute].
  intros day_items Hnil. apply df_final_raise. by right.
Qed.

(* ===================================================================== *)
(** ** Title canonicalization *)
(* ===================================================================== *)

(** C6. [canonical_title] is a function of its argument alone, and on
    ["Arabic Scool at Bilal Host John Doe"] it yields
    ["arabic school at bilal"]: the title is lowercased, the clause from the
    word [host] on is cut, punctuation and whitespace are normalised, and the
    alias table corrects [scool]. *)
Theorem canonical_title_example :
  let t := "Arabic Scool at Bilal Host John Doe" in
  let lowered := Py.lower (Analytics.clean t) in
  let cut := Py.strip (Analytics.sub_host None lowered) in
  let spaced := Py.strip (Py.sub_spaces false (Py.sub_punct " " cut)) in
  lowered = "arabic scool at bilal host john doe"
  ∧ cut = "arabic scool at bilal"
  ∧ spaced = "arabic scool at bilal"
  ∧ Analytics.FIXES !! spaced = Some "arabic school at bilal"
  ∧ Analytics.canonical_title t = "arabic school at bilal".
Proof. by vm_compute. Qed.

(* ===================================================================== *)
(** ** Records without a date *)
(* ===================================================================== *)

Section DatelessFacts.
Import Py Html.

Lemma rebuild_skips_dateless ev cal src :
  (Rebuild.block_date_id ev).1 = None → Rebuild.extract_block cal src ev = None.
Proof.
  unfold Rebuild.extract_block. destruct (Rebuild.block_date_id ev) as [dt eid].
  simpl. intros ->. by rewrite andb_false_r.
Qed.

Lemma rebuild_extract_without ev pre post cal src :
  (Rebuild.block_date_id ev).1 = None →
  Rebuild.extract_events (pre ++ ev :: post) cal src
  = Rebuild.extract_events (pre ++ post) cal src.
Proof.
  intros Hev. unfold Rebuild.extract_events. rewrite !omap_app. f_equal.
  change (omap (Rebuild.extract_block cal src) (ev :: post))
    with (match Rebuild.extract_block cal src ev with
          | Some r => r :: omap (Rebuild.extract_block cal src) post
          | None => omap (Rebuild.extract_block cal src) post
          end).
  by rewrite rebuild_skips_dateless.
Qed.

Lemma rebuild_parse_without ev before after cal pre post src :
  (Rebuild.block_date_id ev).1 = None →
  Rebuild.parse_manifest
    (before ++ {| item_calendar := cal; item_blocks := pre ++ ev :: post |} :: after) src
  = Rebuild.parse_manifest
      (before ++ {| item_calendar := cal; item_blocks := pre ++ post |} :: after) src.
Proof.
  intros Hev. unfold Rebuild.parse_manifest.
  rewrite !bind_app, !bind_cons. simpl.
  by rewrite rebuild_extract_without.
Qed.
End DatelessFacts.

(** C7. A block whose date is absent or does not parse yields no row in
    [extract_events], whatever its title, time, venue and event id; the blocks
    before and after it in the document are extracted as if it were not
    there, and so the script ends in the same table (or the same exception)
    with and without it, on either manifest. The first extractor keeps such a
    block as a row without date, and its [main], which raises only when no
    row at all was parsed, drops every row without date from its table. *)
Theorem dateless_dropped :
  (∀ ev, (Rebuild.block_date_id ev).1 = None →
     (∀ cal src, Rebuild.extract_block cal src ev = None)
     ∧ (∀ pre post cal src,
          Rebuild.extract_events (pre ++ ev :: post) cal src
          = Rebuild.extract_events (pre ++ post) cal src)
     ∧ (∀ before after cal pre post others,
          let with_ev :=
            before ++ {| Html.item_calendar := cal;
                         Html.item_blocks := pre ++ ev :: post |} :: after in
          let without :=
            before ++ {| Html.item_calendar := cal;
                         Html.item_blocks := pre ++ post |} :: after in
          Rebuild.df_final with_ev others = Rebuild.df_final without others
          ∧ Rebuild.df_final others with_ev = Rebuild.df_final others without))
  ∧ (∀ ev cal src r,
       (Extract.block_date_id ev).1 = None →
       Extract.extract_block cal src ev = Some r → Extract.date r = None)
  ∧ (∀ month_items day_items,
       Extract.process_manifest month_items "month_block"
         ++ Extract.process_manifest day_items "day_block" ≠ [] →
       ∃ table, Extract.all_events month_items day_items = Py.Ok table
                ∧ ∀ r, r ∈ table → is_Some (Extract.date r)).
Proof.
  split_and!.
  - intros ev Hev. split_and!.
    + intros. by apply rebuild_skips_dateless.
    + intros. by apply rebuild_extract_without.
    + intros before after cal pre post others with_ev without.
      subst with_ev without. unfold Rebuild.df_final.
      by rewrite !(rebuild_parse_without ev before after cal pre post).
  - intros ev cal src r Hev. unfold Extract.extract_block.
    destruct (Extract.block_date_id ev) as [dt eid]. simpl in Hev. subst dt.
    destruct (Py.truthy _); [|done]. by intros [= <-].
  - intros month_items day_items Hne. unfold Extract.all_events.
    destruct (Extract.process_manifest month_items "month_block"
                ++ Extract.process_manifest day_items "day_block") as [|x l] eqn:Hl;
      [done|].
    eexists. split; [reflexivity|].
    intros r Hr. by apply dd_elem_of in Hr as [[? _]%list_elem_of_filter _].
Qed.

(** A Quran class printed with venue, time and event id but no date, between
    two dated blocks of a month page. *)
Lemma dateless_dropped_witness :
  (Rebuild.block_date_id Sample.undated).1 = None
  ∧ Rebuild.extract_events [Sample.friday; Sample.undated; Sample.family_gym]
      (Some "BilalEvents") "month_block"
    = Rebuild.extract_events [Sample.friday; Sample.family_gym]
        (Some "BilalEvents") "month_block"
  ∧ ∃ table,
      Extract.all_events [Sample.bilal [Sample.friday; Sample.undated]] [] = Py.Ok table
      ∧ ∀ r, r ∈ table → is_Some (Extract.date r).
Proof.
  assert ((Rebuild.block_date_id Sample.undated).1 = None) as Hev by reflexivity.
  split; [exact Hev|]. split.
  - exact (proj1 (proj2 (proj1 dateless_dropped Sample.undated Hev))
             [Sample.friday] [Sample.family_gym] (Some "BilalEvents") "month_block").
  - apply (proj2 (proj2 dateless_dropped)). vm_compute. discriminate.
Defined.

(* ===================================================================== *)
(** ** Dates are not range-checked *)
(* ===================================================================== *)

(** C10. When the text splits at [/] into at least three parts and the first
    three are accepted by [int], both copies of [parse_date_str] return the
    three numbers zero-padded to 4, 2 and 2 digits and joined by [-], with no
    check of month or day range. So ["2021/13/45"] parses to ["2021-13-45"],
    and a block dated so enters the canonical table under that date and the
    analytics under the key that starts with it. *)
Theorem parse_date_str_unchecked :
  (∀ (d p0 p1 p2 : string) (rest : list string) (y m day : Z),
     Py.split "/" d = p0 :: p1 :: p2 :: rest →
     Py.int p0 = Some y → Py.int p1 = Some m → Py.int p2 = Some day →
     Rebuild.parse_date_str d
     = Some (Py.format_0d 4 y +:+ "-" +:+ Py.format_0d 2 m +:+ "-" +:+ Py.format_0d 2 day)
     ∧ Extract.parse_date_str d = Rebuild.parse_date_str d)
  ∧ Rebuild.parse_date_str "2021/13/45" = Some "2021-13-45"
  ∧ Extract.parse_date_str "2021/13/45" = Some "2021-13-45"
  ∧ Rebuild.df_final [Sample.bilal [Sample.misdated]] [Sample.foreign [Sample.friday]]
    = Py.Ok [Sample.misdated_row]
  ∧ Rebuild.date Sample.misdated_row = "2021-13-45"
  ∧ Analytics.event_key
      <$> Analytics.events_unique
            (Analytics.load (Analytics.read_csv [Sample.misdated_row]))
    = ["2021-13-45||open gym||9:00 am"].
Proof.
  split_and!; [|by vm_compute..].
  intros d p0 p1 p2 rest y m day Hs H0 H1 H2.
  unfold Extract.parse_date_str, Rebuild.parse_date_str.
  by rewrite Hs, H0, H1, H2.
Qed.

Lemma parse_date_str_unchecked_witness :
  Py.split "/" "2021/13/45" = ["2021"; "13"; "45"]
  ∧ Py.int "2021" = Some 2021 ∧ Py.int "13" = Some 13 ∧ Py.int "45" = Some 45
  ∧ Rebuild.parse_date_str "2021/13/45"
    = Some (Py.format_0d 4 2021 +:+ "-" +:+ Py.format_0d 2 13 +:+ "-" +:+ Py.format_0d 2 45).
Proof.
  split_and!; [reflexivity..|].
  exact (proj1 (proj1 parse_date_str_unchecked "2021/13/45" "2021" "13" "45" []
                  2021 13 45 eq_refl eq_refl eq_refl eq_refl)).
Defined.

(* ===================================================================== *)
(** ** The manifest partitioner *)
(* ===================================================================== *)

Section PartitionFacts.
Import Py Manifests.
Context (read_text : string → option string) (get_qs : string → gmap string string).

#[local] Abbreviation route := (Manifests.route read_text get_qs).
#[local] Abbreviation target := (Manifests.target read_text get_qs).
#[local] Abbreviation partition := (Manifests.partition read_text get_qs).
#[local] Abbreviation existing_file := (Manifests.existing_file read_text).

Lemma route_bucket name st it :
  name ∈ bucket_names →
  bucket name (route st it)
  = bucket name st ++ (if decide (target it = Some name) then [it] else []).
Proof.
  intros Hn. unfold Manifests.route, Manifests.target.
  destruct existing_file as [html|]; simpl; [|by rewrite app_nil_r].
  unfold bucket_names in Hn.
  repeat (apply elem_of_cons in Hn as [->|Hn]); [..|by apply elem_of_nil in Hn];
    destruct (bool_decide (classify_html html = "month_block")
              && bool_decide (op_of get_qs it ∈ ["ShowIt"; "ShowMonth"]));
    try destruct (bool_decide (classify_html html = "event_popup"));
    try destruct (bool_decide (op_of get_qs it = "ShowDay")
                  && search_word_ci "CalEvent" None html);
    simpl; unfold bucket; simpl; by rewrite ?app_nil_r.
Qed.

Lemma foldl_route_bucket name data st :
  name ∈ bucket_names →
  bucket name (foldl route st data)
  = bucket name st ++ filter (λ it, target it = Some name) data.
Proof.
  intros Hn. revert st. induction data as [|it data IH]; intros st; simpl.
  - by rewrite app_nil_r.
  - rewrite IH, route_bucket, <- app_assoc by done. f_equal.
    rewrite filter_cons. by destruct (decide (target it = Some name)).
Qed.

Lemma partition_bucket name data :
  name ∈ bucket_names →
  bucket name (partition data) = filter (λ it, target it = Some name) data.
Proof.
  intros Hn. unfold Manifests.partition. rewrite foldl_route_bucket by done.
  unfold bucket, empty_buckets. simpl. by repeat case_decide.
Qed.

Lemma bucket_unknown name st : name ∉ bucket_names → bucket name st = [].
Proof.
  intros Hn. unfold bucket. repeat case_decide; try done; subst;
    exfalso; apply Hn; unfold bucket_names; set_solver.
Qed.

Lemma target_None it : target it = None ↔ existing_file it = None.
Proof. unfold Manifests.target. by destruct existing_file. Qed.

Lemma target_name it name : target it = Some name → name ∈ bucket_names.
Proof.
  unfold Manifests.target, bucket_names. destruct existing_file; simpl; [|done].
  intros [= <-]. repeat (case_match; [set_solver|]). set_solver.
Qed.

(** Entries that are skipped leave the state as it is. *)
Lemma foldl_route_skip data st :
  foldl route st data
  = foldl route st (filter (λ it, is_Some (existing_file it)) data).
Proof.
  revert st. induction data as [|it data IH]; intros st; [done|].
  rewrite filter_cons. simpl. destruct (existing_file it) as [html|] eqn:Hf.
  - rewrite decide_True by eauto. simpl. apply IH.
  - rewrite decide_False by (by intros [? ?]).
    rewrite <- IH. f_equal. unfold Manifests.route. by rewrite Hf.
Qed.

Lemma filter_target_length data :
  (length (filter (λ it, target it = Some "month_block") data)
   + length (filter (λ it, target it = Some "event_popup") data)
   + length (filter (λ it, target it = Some "day_block") data)
   + length (filter (λ it, target it = Some "other") data)
   = length (filter (λ it, is_Some (existing_file it)) data))%nat.
Proof.
  induction data as [|it data IH]; [done|].
  rewrite !filter_cons.
  destruct (target it) as [name|] eqn:Ht.
  - assert (is_Some (existing_file it)) as Hs.
    { destruct (existing_file it) eqn:Hf; [eauto|].
      apply target_None in Hf. congruence. }
    rewrite (decide_True (P:=is_Some _)) by done.
    apply target_name in Ht as Hn. unfold bucket_names in Hn.
    repeat (apply elem_of_cons in Hn as [->|Hn]); [..|by apply elem_of_nil in Hn];
      repeat case_decide; try done; simpl; lia.
  - apply target_None in Ht. rewrite Ht.
    rewrite (decide_False (P:=is_Some _)) by (by intros [? ?]).
    repeat case_decide; try done; simpl; lia.
Qed.
End PartitionFacts.

(** C8, as the code has it. An entry is skipped when its path is absent or
    empty or no file exists at it; a skipped entry enters no list and leaves no
    trace in what the script writes or prints. Every other entry of the
    manifest, one whose file exists but is empty included (it goes to [other]),
    enters exactly one of the four lists: [month_block] exactly when its file
    classifies as [month_block] and [Op] is [ShowIt] or [ShowMonth];
    [event_popup] exactly when its file classifies as [event_popup];
    [day_block] only when [Op] is [ShowDay] and the file holds a [CalEvent]
    marker; the sizes of the four lists add up to the number of entries that
    are not skipped. *)
Theorem partition_routes (read_text : string → option string)
    (get_qs : string → gmap string string)
    (data : list Manifests.Entry) (it : Manifests.Entry) :
  let b := Manifests.partition read_text get_qs data in
  let file := Manifests.existing_file read_text it in
  let op := Manifests.op_of get_qs it in
  (file = None → ∀ name, it ∉ Manifests.bucket name b)
  ∧ (it ∈ data → is_Some file →
     ∃ name, name ∈ Manifests.bucket_names ∧ it ∈ Manifests.bucket name b
             ∧ ∀ name', it ∈ Manifests.bucket name' b → name' = name)
  ∧ (it ∈ Manifests.month_block b ↔
     it ∈ data ∧ ∃ html, file = Some html
                         ∧ Manifests.classify_html html = "month_block"
                         ∧ op ∈ ["ShowIt"; "ShowMonth"])
  ∧ (it ∈ Manifests.event_popup b ↔
     it ∈ data ∧ ∃ html, file = Some html
                         ∧ Manifests.classify_html html = "event_popup")
  ∧ (it ∈ Manifests.day_block b →
     ∃ html, file = Some html ∧ op = "ShowDay"
             ∧ Py.search_word_ci "CalEvent" None html = true)
  ∧ (it ∈ data → file = Some EmptyString → it ∈ Manifests.other b)
  ∧ (length (Manifests.month_block b) + length (Manifests.event_popup b)
     + length (Manifests.day_block b) + length (Manifests.other b)
     = length (filter (λ e, is_Some (Manifests.existing_file read_text e)) data))%nat
  ∧ Manifests.output read_text get_qs data
    = Manifests.output read_text get_qs
        (filter (λ e, is_Some (Manifests.existing_file read_text e)) data).
Proof.
  cbv zeta. set (b := Manifests.partition read_text get_qs data).
  assert (∀ name, it ∈ Manifests.bucket name b ↔
                  it ∈ data ∧ Manifests.target read_text get_qs it = Some name) as Hb.
  { intros name. destruct (decide (name ∈ Manifests.bucket_names)) as [Hn|Hn].
    - subst b. rewrite partition_bucket, list_elem_of_filter by done. tauto.
    - rewrite bucket_unknown by done. split; [by intros ?%elem_of_nil|].
      intros [_ Ht]. by apply target_name in Ht. }
  assert (Manifests.month_block b = Manifests.bucket "month_block" b) as Hmonth by done.
  assert (Manifests.event_popup b = Manifests.bucket "event_popup" b) as Hpopup by done.
  assert (Manifests.day_block b = Manifests.bucket "day_block" b) as Hday by done.
  assert (Manifests.other b = Manifests.bucket "other" b) as Hother by done.
  split_and!.
  - intros Hf name [_ Ht]%Hb. apply (target_None read_text get_qs) in Hf. congruence.
  - intros Hin [html Hf].
    destruct (Manifests.target read_text get_qs it) as [name|] eqn:Ht.
    + exists name. split_and!; [by eapply target_name|by apply Hb|].
      intros name' [_ Ht']%Hb. congruence.
    + apply target_None in Ht. congruence.
  - rewrite Hmonth, Hb. unfold Manifests.target.
    destruct (Manifests.existing_file read_text it) as [html|]; simpl.
    + split.
      * intros [Hin Ht]. split; [done|]. exists html. split; [done|].
        injection Ht as Ht. repeat case_match; try done.
        match goal with H : _ && _ = true |- _ =>
          apply andb_true_iff in H as [?%bool_decide_eq_true ?%bool_decide_eq_true] end.
        done.
      * intros [Hin (h & [= <-] & Hc & Ho)]. split; [done|].
        by rewrite (bool_decide_eq_true_2 _ Hc), (bool_decide_eq_true_2 _ Ho).
    + split; [by intros [_ ?]|]. by intros [_ (h & ? & _)].
  - rewrite Hpopup, Hb. unfold Manifests.target.
    destruct (Manifests.existing_file read_text it) as [html|]; simpl.
    + split.
      * intros [Hin Ht]. split; [done|]. exists html. split; [done|].
        injection Ht as Ht. repeat case_match; try done.
        by match goal with H : bool_decide _ = true |- _ =>
          apply bool_decide_eq_true in H end.
      * intros [Hin (h & [= <-] & Hc)]. split; [done|]. rewrite Hc. done.
    + split; [by intros [_ ?]|]. by intros [_ (h & ? & _)].
  - rewrite Hday. intros [_ Ht]%Hb. unfold Manifests.target in Ht.
    destruct (Manifests.existing_file read_text it) as [html|]; simpl in Ht; [|done].
    exists html. split; [done|]. injection Ht as Ht. repeat case_match; try done.
    match goal with H : _ && _ = true |- _ =>
      apply andb_true_iff in H as [?%bool_decide_eq_true ?] end.
    done.
  - intros Hin Hf. rewrite Hother. apply Hb. split; [done|].
    unfold Manifests.target. rewrite Hf.
    cbn -[Manifests.classify_html Py.search_word_ci bool_decide].
    assert (Manifests.classify_html EmptyString = "other") as -> by reflexivity.
    assert (Py.search_word_ci "CalEvent" None EmptyString = false) as -> by reflexivity.
    by rewrite andb_false_r.
  - subst b. rewrite Hmonth, Hpopup, Hday, Hother.
    rewrite !partition_bucket by (unfold Manifests.bucket_names; repeat constructor).
    apply filter_target_length.
  - unfold Manifests.output, Manifests.partition. by rewrite <- foldl_route_skip.
Qed.

(** A month page, an entry whose file exists and is empty, and an entry whose
    file is missing. *)
Lemma partition_routes_witness :
  let data := [Sample.month_entry; Sample.empty_entry; Sample.missing_entry] in
  let b := Manifests.partition Sample.disk Sample.url_qs data in
  Sample.month_entry ∈ Manifests.month_block b
  ∧ Sample.empty_entry ∈ Manifests.other b
  ∧ ∀ name, Sample.missing_entry ∉ Manifests.bucket name b.
Proof.
  intros data b. split_and!.
  - apply (proj1 (proj2 (proj2
      (partition_routes Sample.disk Sample.url_qs data Sample.month_entry)))).
    split; [apply list_elem_of_here|].
    exists Sample.month_page. split_and!; [reflexivity|reflexivity|].
    apply list_elem_of_further, list_elem_of_here.
  - apply (partition_routes Sample.disk Sample.url_qs data Sample.empty_entry).
    + apply list_elem_of_further, list_elem_of_here.
    + reflexivity.
  - apply (partition_routes Sample.disk Sample.url_qs data Sample.missing_entry).
    reflexivity.
Defined.

(** C8 as stated fails twice. An entry whose local file exists and is empty is
    not skipped: it lands in [other]. And nothing counts the skipped entries:
    a manifest of one or two entries with a missing file leaves exactly what
    the empty manifest leaves, in the lists written and in the lines printed. *)
Lemma empty_file_routed_and_skips_uncounted :
  Manifests.other (Manifests.partition Sample.disk Sample.url_qs [Sample.empty_entry])
  = [Sample.empty_entry]
  ∧ Manifests.existing_file Sample.disk Sample.missing_entry = None
  ∧ Manifests.output Sample.disk Sample.url_qs [Sample.missing_entry]
    = Manifests.output Sample.disk Sample.url_qs []
  ∧ Manifests.output Sample.disk Sample.url_qs [Sample.missing_entry; Sample.missing_entry]
    = Manifests.output Sample.disk Sample.url_qs [].
Proof. by vm_compute. Qed.

(* ===================================================================== *)
(** ** Yearly growth *)
(* ===================================================================== *)

Section YearFacts.
Import Analytics.

Lemma insert_by_sorted (x : Z) (l : list Z) :
  Sorted Z.le l → Sorted Z.le (Pd.insert_by Z.leb x l).
Proof.
  induction l as [|y l IH]; simpl; intros Hs.
  - by repeat constructor.
  - destruct (Z.leb_spec x y) as [Hxy|Hxy].
    + constructor; [done|]. by constructor.
    + apply Sorted_inv in Hs as [Hs Hhd]. constructor; [by apply IH|].
      destruct l as [|z l]; simpl.
      * constructor. lia.
      * apply HdRel_inv in Hhd. destruct (Z.leb x z); constructor; lia.
Qed.

Lemma sort_by_sorted (l : list Z) : Sorted Z.le (Pd.sort_by Z.leb l).
Proof.
  induction l as [|x l IH]; [constructor|].
  unfold Pd.sort_by in *. simpl. by apply insert_by_sorted.
Qed.

Lemma sorted_NoDup_lt (l : list Z) : Sorted Z.le l → NoDup l → Sorted Z.lt l.
Proof.
  induction l as [|x l IH]; [constructor|].
  intros [Hs Hhd]%Sorted_inv [Hx Hnd]%NoDup_cons.
  constructor; [by apply IH|].
  destruct l as [|y l]; constructor.
  apply HdRel_inv in Hhd.
  assert (x ≠ y) by (intros ->; apply Hx; by left). lia.
Qed.

Lemma years_sorted (events : list Event) : Sorted Z.lt (years events).
Proof.
  unfold years. apply sorted_NoDup_lt; [apply sort_by_sorted|].
  rewrite sort_by_perm. apply NoDup_remove_dups.
Qed.

Lemma years_elem_of (events : list Event) (y : Z) :
  y ∈ years events ↔ ∃ e, e ∈ events ∧ year_int e = y.
Proof.
  unfold years. rewrite sort_by_elem_of, elem_of_remove_dups, list_elem_of_fmap.
  split; intros (e & ? & ?); exists e; done.
Qed.

Lemma events_in_positive (events : list Event) (y : Z) :
  y ∈ years events → 1 ≤ events_in events y.
Proof.
  intros (e & He & Hy)%years_elem_of. unfold events_in.
  assert (e ∈ filter (λ e, year_int e = y) events) as Hin
    by (by apply list_elem_of_filter).
  destruct (filter (λ e, year_int e = y) events); [by apply elem_of_nil in Hin|].
  simpl. lia.
Qed.

Lemma yearly_fst (events : list Event) : (yearly events).*1 = years events.
Proof.
  unfold yearly. rewrite <- list_fmap_compose.
  induction (years events) as [|y l IH]; [done|]. simpl. by f_equal.
Qed.

Lemma yearly_positive (events : list Event) :
  Forall (λ row, 1 ≤ row.2) (yearly events).
Proof.
  unfold yearly. apply Forall_fmap, Forall_forall. intros y Hy. simpl.
  by apply events_in_positive.
Qed.

Lemma zip_removelast {A} (c : A) (cs : list A) :
  zip cs (Some <$> removelast (c :: cs)) = zip cs (Some <$> (c :: cs)).
Proof.
  revert c. induction cs as [|d cs IH]; intros c; [done|].
  change (removelast (c :: d :: cs)) with (c :: removelast (d :: cs)).
  rewrite !fmap_cons. simpl. f_equal. apply IH.
Qed.

Context {F : Type} `{FloatOps F}.

Lemma mapM_cons {A B} (f : A → Py.result B) (x : A) (l : list A) :
  mapM f (x :: l) = y ← f x; k ← mapM f l; mret (y :: k).
Proof. done. Qed.

Lemma growth_after_rows (rows : list (Z * Z)) (prev : Z) :
  1 ≤ prev → Forall (λ row, 1 ≤ row.2) rows →
  mapM (λ '(cur, p), growth_entry (F:=F) cur p)
       (zip rows.*2 (Some <$> (prev :: rows.*2)))
  = Py.Ok (growth_after prev rows).*2
  ∧ (growth_after prev rows).*1 = rows.*1.
Proof.
  revert prev. induction rows as [|[y n] rows IH]; intros prev Hp Hall; [done|].
  apply Forall_cons in Hall as [Hn Hall]. simpl in Hn.
  destruct (IH n Hn Hall) as [IH1 IH2].
  split.
  - change (zip ((y, n) :: rows).*2 (Some <$> prev :: ((y, n) :: rows).*2))
      with ((n, Some prev) :: zip rows.*2 (Some <$> n :: rows.*2)).
    rewrite mapM_cons, IH1.
    unfold growth_entry, pct_change. by rewrite decide_False by lia.
  - change ((growth_after prev ((y, n) :: rows)).*1)
      with (y :: (growth_after n rows).*1).
    by rewrite IH2.
Qed.

Lemma growth_pct_rows (rows : list (Z * Z)) :
  Forall (λ row, 1 ≤ row.2) rows →
  growth_pct (F:=F) rows.*2 = Py.Ok (growth_by_rule rows).*2
  ∧ (growth_by_rule rows).*1 = rows.*1.
Proof.
  destruct rows as [|[y n] rows]; [done|].
  intros [Hn Hall]%Forall_cons. simpl in Hn.
  destruct (growth_after_rows rows n Hn Hall) as [H1 H2].
  unfold growth_pct. split.
  - change (((y, n) :: rows).*2) with (n :: rows.*2).
    change (zip (n :: rows.*2) (Pd.shift1 (n :: rows.*2)))
      with ((n, None) :: zip rows.*2 (Some <$> removelast (n :: rows.*2))).
    rewrite zip_removelast, mapM_cons, H1. done.
  - change ((growth_by_rule ((y, n) :: rows)).*1)
      with (y :: (growth_after n rows).*1).
    by rewrite H2.
Qed.
End YearFacts.

(** C9, as the code has it. The yearly table holds one row per year that has
    at least one event, in increasing year order, so every count in it is at
    least 1. The growth column is computed without error: it is missing for
    the first year of the table and, for every later year, it is the
    percentage [100 * (cur - prev) / prev] over the count of the year that
    precedes it in the table, rounded to one decimal. [pct_change] itself
    returns nothing for a missing or zero baseline. *)
Theorem yearly_growth_rule {F : Type} `{Analytics.FloatOps F}
    (csv : list Analytics.CsvRow) :
  let events := Analytics.events_unique (Analytics.load csv) in
  let table := Analytics.yearly events in
  Analytics.yearly_growth csv = Py.Ok (Analytics.growth_by_rule table)
  ∧ Sorted Z.lt table.*1
  ∧ Forall (λ row, 1 ≤ row.2) table
  ∧ (∀ y, y ∈ table.*1 ↔ ∃ e, e ∈ events ∧ Analytics.year_int e = y)
  ∧ ∀ cur, Analytics.pct_change (F:=F) cur None = None
           ∧ Analytics.pct_change (F:=F) cur (Some 0) = None.
Proof.
  intros events table. split_and!.
  - unfold Analytics.yearly_growth. fold events. fold table.
    destruct (growth_pct_rows (F:=F) table (yearly_positive events)) as [H1 H2].
    rewrite H1. simpl. rewrite <- H2. by rewrite zip_fst_snd.
  - subst table. rewrite yearly_fst. apply years_sorted.
  - apply yearly_positive.
  - intros y. subst table. rewrite yearly_fst. apply years_elem_of.
  - done.
Qed.

Lemma yearly_growth_rule_witness :
  Analytics.yearly_growth (F:=Analytics.fexpr) Sample.gap_table
  = Py.Ok (Analytics.growth_by_rule
             (Analytics.yearly
                (Analytics.events_unique (Analytics.load Sample.gap_table)))).
Proof. exact (proj1 (yearly_growth_rule Sample.gap_table)). Defined.

(** C9 as stated fails. The table has events in 2019 and in 2021 and none in
    2020: the event count of the year before 2021 is zero, yet the growth of
    2021 is not missing, it is the rounded percentage over the count of
    2019. And were a zero count to stand in the column, the list
    comprehension would not yield a missing value for the year after it
    either: [round] of [None] raises. *)
Lemma growth_over_a_gap :
  Analytics.events_in
    (Analytics.events_unique (Analytics.load Sample.gap_table)) 2020 = 0
  ∧ Analytics.growth_pct (F:=Analytics.fexpr) [3; 0; 2]
    = Py.Raise (Py.TypeError "NoneType does not define __round__")
  ∧ Analytics.yearly_growth (F:=Analytics.fexpr) Sample.gap_table
    = Py.Ok [ (2019, None);
              (2021, Some (Analytics.FRound
                             (Analytics.FDiv
                                (Analytics.FMul (Analytics.FInt 100)
                                   (Analytics.FSub (Analytics.FInt 3) (Analytics.FInt 2)))
                                (Analytics.FInt 2)) 1)) ].
Proof. by vm_compute. Qed.

(* ===================================================================== *)
(** ** Shapes kept by the text primitives *)
(* ===================================================================== *)

Section ShapeFacts.
Import Py Shape.

Lemma lower_char_idemp (c : ascii) : lower_char (lower_char c) = lower_char c.
Proof. destruct c as [[] [] [] [] [] [] [] []]; reflexivity. Qed.

Lemma spaced_sub_spaces (b : bool) (s : string) : spaced b (sub_spaces b s) = true.
Proof.
  revert b. induction s as [|c r IH]; intros b; [done|].
  simpl. destruct (is_space c) eqn:Hc.
  - destruct b; simpl; apply IH.
  - simpl. rewrite Hc. apply IH.
Qed.

Lemma spaced_true_head (s : string) :
  spaced true s = true → lstrip_by is_space s = s.
Proof.
  destruct s as [|c r]; [done|]. simpl. destruct (is_space c); [|done].
  rewrite andb_false_r. done.
Qed.

Lemma spaced_weaken (s : string) : spaced true s = true → spaced false s = true.
Proof.
  destruct s as [|c r]; [done|]. simpl. destruct (is_space c); [|done].
  rewrite andb_false_r. done.
Qed.

Lemma spaced_lstrip (s : string) :
  spaced false s = true → spaced true (lstrip_by is_space s) = true.
Proof.
  destruct s as [|c r]; [done|]. simpl. destruct (is_space c) eqn:Hc.
  - intros [_ Hr]%andb_true_iff. by rewrite spaced_true_head.
  - intros Hr. simpl. by rewrite Hc.
Qed.

Lemma spaced_rstrip (b : bool) (s : string) :
  spaced b s = true → spaced b (rstrip_by is_space s) = true.
Proof.
  revert b. induction s as [|c r IH]; intros b; [done|].
  simpl. destruct (is_space c) eqn:Hc.
  - intros [Hcb Hr]%andb_true_iff. specialize (IH true Hr).
    destruct (rstrip_by is_space r) as [|c' r']; [done|].
    simpl. rewrite Hc, Hcb. exact IH.
  - intros Hr. specialize (IH false Hr).
    destruct (rstrip_by is_space r) as [|c' r']; simpl; rewrite Hc; done.
Qed.

Lemma rstrip_ends (s : string) : ends_with_space (rstrip_by is_space s) = false.
Proof.
  unfold ends_with_space. induction s as [|c r IH]; [done|].
  simpl. destruct (rstrip_by is_space r) as [|c' r'].
  - destruct (is_space c) eqn:Hc; [done|]. simpl. done.
  - exact IH.
Qed.

Lemma rstrip_id (s : string) :
  ends_with_space s = false → rstrip_by is_space s = s.
Proof.
  unfold ends_with_space. induction s as [|c r IH]; [done|].
  destruct r as [|c' r'].
  - simpl. by intros ->.
  - intros H. change (last_char None (String c (String c' r')))
      with (last_char None (String c' r')) in H.
    specialize (IH H). simpl in *. by rewrite IH.
Qed.

Lemma sub_spaces_id (b : bool) (s : string) :
  spaced b s = true → sub_spaces b s = s.
Proof.
  revert b. induction s as [|c r IH]; intros b; [done|].
  simpl. destruct (is_space c) eqn:Hc.
  - intros [[->%Ascii.eqb_eq ->%negb_true_iff]%andb_true_iff Hr]%andb_true_iff.
    by rewrite IH.
  - intros Hr. by rewrite IH.
Qed.

Lemma replace_nbsp_id (b : bool) (s : string) :
  spaced b s = true → replace_nbsp s = s.
Proof.
  unfold replace_nbsp. revert b. induction s as [|c r IH]; intros b; [done|].
  simpl. destruct (is_space c) eqn:Hc.
  - intros [[->%Ascii.eqb_eq _]%andb_true_iff Hr]%andb_true_iff.
    simpl. f_equal. by eapply IH.
  - intros Hr. assert ((code c =? 160)%N = false) as ->.
    { destruct (code c =? 160)%N eqn:E; [|done].
      unfold is_space in Hc. rewrite E in Hc. by rewrite !orb_true_r in Hc. }
    f_equal. by eapply IH.
Qed.

Lemma tidy_strip_sub_spaces (s : string) :
  tidy (strip (sub_spaces false s)) = true.
Proof.
  unfold tidy, strip. apply andb_true_iff. split.
  - apply spaced_rstrip, spaced_lstrip, spaced_sub_spaces.
  - by rewrite rstrip_ends.
Qed.

Lemma tidy_fixed (s : string) :
  tidy s = true → strip (sub_spaces false (replace_nbsp s)) = s.
Proof.
  unfold tidy, strip. intros [Hs He%negb_true_iff]%andb_true_iff.
  rewrite (replace_nbsp_id true), (sub_spaces_id false), spaced_true_head, rstrip_id;
    auto using spaced_weaken.
Qed.

Lemma all_chars_impl (p q : ascii → bool) (s : string) :
  (∀ c, p c = true → q c = true) → all_chars p s = true → all_chars q s = true.
Proof.
  intros Hpq. induction s as [|c r IH]; [done|]. simpl.
  intros [Hc Hr]%andb_true_iff. by rewrite (Hpq c Hc), IH.
Qed.

Lemma all_chars_map (p : ascii → bool) (f : ascii → ascii) (s : string) :
  (∀ c, p (f c) = true) → all_chars p (map_chars f s) = true.
Proof. intros Hf. induction s as [|c r IH]; [done|]. simpl. by rewrite Hf, IH. Qed.

Lemma all_chars_map_keep (p : ascii → bool) (f : ascii → ascii) (s : string) :
  (∀ c, p c = true → p (f c) = true) →
  all_chars p s = true → all_chars p (map_chars f s) = true.
Proof.
  intros Hf. induction s as [|c r IH]; [done|]. simpl.
  intros [Hc Hr]%andb_true_iff. by rewrite Hf, IH.
Qed.

Lemma all_chars_sub_spaces (p : ascii → bool) (b : bool) (s : string) :
  p space = true → all_chars p s = true → all_chars p (sub_spaces b s) = true.
Proof.
  intros Hsp. revert b. induction s as [|c r IH]; intros b; [done|]. simpl.
  intros [Hc Hr]%andb_true_iff.
  destruct (is_space c); [destruct b|]; simpl; rewrite ?Hsp, ?Hc; simpl; by apply IH.
Qed.

Lemma all_chars_lstrip (p q : ascii → bool) (s : string) :
  all_chars p s = true → all_chars p (lstrip_by q s) = true.
Proof.
  induction s as [|c r IH]; [done|]. simpl.
  intros [Hc Hr]%andb_true_iff. destruct (q c); [by apply IH|].
  simpl. by rewrite Hc, Hr.
Qed.

Lemma all_chars_rstrip (p q : ascii → bool) (s : string) :
  all_chars p s = true → all_chars p (rstrip_by q s) = true.
Proof.
  induction s as [|c r IH]; [done|]. simpl.
  intros [Hc Hr]%andb_true_iff. specialize (IH Hr).
  destruct (rstrip_by q r) as [|c' r'].
  - destruct (q c); [done|]. simpl. by rewrite Hc.
  - simpl in *. by rewrite Hc, IH.
Qed.

Lemma all_chars_strip (p : ascii → bool) (s : string) :
  all_chars p s = true → all_chars p (strip s) = true.
Proof. intros. by apply all_chars_rstrip, all_chars_lstrip. Qed.

Lemma all_chars_app (p : ascii → bool) (s t : string) :
  all_chars p (s +:+ t) = all_chars p s && all_chars p t.
Proof. induction s as [|c r IH]; [done|]. simpl. by rewrite IH, andb_assoc. Qed.

Lemma all_chars_sub_punct (p : ascii → bool) (repl : string) (s : string) :
  all_chars p repl = true → all_chars p s = true →
  all_chars p (sub_punct repl s) = true.
Proof.
  intros Hrep. induction s as [|c r IH]; [done|]. simpl.
  intros [Hc Hr]%andb_true_iff.
  destruct (is_word c || is_space c); simpl.
  - by rewrite Hc, IH.
  - by rewrite all_chars_app, Hrep, IH.
Qed.

(** What [sub_punct] leaves is word characters and whitespace. *)
Lemma sub_punct_word_or_space (repl : string) (s : string) :
  all_chars (λ c, is_word c || is_space c) repl = true →
  all_chars (λ c, is_word c || is_space c) (sub_punct repl s) = true.
Proof.
  intros Hrep. induction s as [|c r IH]; [done|]. simpl.
  destruct (is_word c || is_space c) eqn:Hc; simpl.
  - by rewrite Hc, IH.
  - by rewrite all_chars_app, Hrep, IH.
Qed.

Lemma sub_punct_id (repl : string) (s : string) :
  all_chars (λ c, is_word c || is_space c) s = true → sub_punct repl s = s.
Proof.
  induction s as [|c r IH]; [done|]. simpl.
  intros [-> Hr]%andb_true_iff. by rewrite IH.
Qed.

Lemma lower_id (s : string) : lowercase s = true → lower s = s.
Proof.
  unfold lowercase, lower. induction s as [|c r IH]; [done|]. simpl.
  intros [->%Ascii.eqb_eq Hr]%andb_true_iff. by rewrite IH.
Qed.

Lemma lowercase_lower (s : string) : lowercase (lower s) = true.
Proof.
  unfold lowercase, lower. apply all_chars_map. intros c.
  apply Ascii.eqb_eq, lower_char_idemp.
Qed.

(** In a text whose only whitespace is the space, the characters that are
    word characters or whitespace are word characters or spaces. *)
Lemma plain_of_spaced (b : bool) (s : string) :
  spaced b s = true →
  all_chars (λ c, is_word c || is_space c) s = true → plain s = true.
Proof.
  unfold plain. revert b. induction s as [|c r IH]; intros b; [done|]. simpl.
  destruct (is_space c) eqn:Hc.
  - intros [[Hsp _]%andb_true_iff Hr]%andb_true_iff [_ Hall]%andb_true_iff.
    rewrite Hsp, orb_true_r. simpl. by eapply IH.
  - intros Hr [Hw Hall]%andb_true_iff. rewrite orb_false_r in Hw.
    rewrite Hw. simpl. by eapply IH.
Qed.

Lemma plain_word_or_space (s : string) :
  plain s = true → all_chars (λ c, is_word c || is_space c) s = true.
Proof.
  unfold plain. apply all_chars_impl. intros c [Hw|Hs]%orb_true_iff.
  - by rewrite Hw.
  - apply Ascii.eqb_eq in Hs as ->. reflexivity.
Qed.
End ShapeFacts.

Section CanonicalFacts.
Import Py Shape.

Lemma clean_tidy (s : string) : tidy (Rebuild.clean s) = true.
Proof. apply tidy_strip_sub_spaces. Qed.

Lemma clean_fixed (s : string) : tidy s = true → Rebuild.clean s = s.
Proof. apply tidy_fixed. Qed.

Lemma tidy_collapse_fixed (s : string) :
  tidy s = true → strip (sub_spaces false s) = s.
Proof.
  unfold tidy, strip. intros [Hs He%negb_true_iff]%andb_true_iff.
  rewrite (sub_spaces_id false), spaced_true_head, rstrip_id; auto using spaced_weaken.
Qed.

Lemma tidy_spaced (s : string) : tidy s = true → spaced true s = true.
Proof. unfold tidy. by intros [? _]%andb_true_iff. Qed.

(** The three shapes of a text that went through [\s+] collapsing and
    [strip] after its punctuation was replaced. *)
Lemma collapsed_shapes (repl : string) (s : string) :
  all_chars (λ c, is_word c || is_space c) repl = true →
  lowercase repl = true → lowercase s = true →
  let o := strip (sub_spaces false (sub_punct repl s)) in
  tidy o = true ∧ plain o = true ∧ lowercase o = true.
Proof.
  intros Hrep Hlrep Hlow o. subst o. split_and!.
  - apply tidy_strip_sub_spaces.
  - eapply plain_of_spaced.
    + apply tidy_spaced, tidy_strip_sub_spaces.
    + apply all_chars_strip, all_chars_sub_spaces; [done|].
      by apply sub_punct_word_or_space.
  - unfold lowercase in *. apply all_chars_strip, all_chars_sub_spaces; [done|].
    by apply all_chars_sub_punct.
Qed.

Lemma sub_host_unfold (prev : option ascii) (s : string) :
  Analytics.sub_host prev s
  = match (if word_at false "host" prev s
           then Analytics.rest_of_line (drop_str 4 s) else None), s with
    | Some after, _ => after
    | None, EmptyString => EmptyString
    | None, String c r => String c (Analytics.sub_host (Some c) r)
    end.
Proof. by destruct s. Qed.

Lemma all_chars_drop (p : ascii → bool) (n : nat) (s : string) :
  all_chars p s = true → all_chars p (drop_str n s) = true.
Proof.
  revert s. induction n as [|n IH]; intros [|c r]; try done.
  simpl. intros [_ Hr]%andb_true_iff. by apply IH.
Qed.

Lemma all_chars_rest_of_line (p : ascii → bool) (s after : string) :
  Analytics.rest_of_line s = Some after →
  all_chars p s = true → all_chars p after = true.
Proof.
  induction s as [|c r IH]; simpl.
  - by intros [= <-].
  - destruct (code c =? 10)%N.
    + case_decide; [|done]. by intros [= <-].
    + intros Hr [_ Hall]%andb_true_iff. by apply IH.
Qed.

Lemma all_chars_sub_host (p : ascii → bool) (prev : option ascii) (s : string) :
  all_chars p s = true → all_chars p (Analytics.sub_host prev s) = true.
Proof.
  revert prev. induction s as [|c r IH]; intros prev Hall;
    rewrite sub_host_unfold.
  - destruct (word_at false "host" prev EmptyString); [|done].
    by destruct (Analytics.rest_of_line _) eqn:E;
      [eapply all_chars_rest_of_line|].
  - destruct (word_at false "host" prev (String c r)).
    + destruct (Analytics.rest_of_line _) eqn:E.
      * eapply all_chars_rest_of_line; [done|]. by apply all_chars_drop.
      * simpl in *. apply andb_true_iff in Hall as [-> Hr]. by apply IH.
    + simpl in *. apply andb_true_iff in Hall as [-> Hr]. by apply IH.
Qed.

Lemma FIXES_values (k v : string) :
  Analytics.FIXES !! k = Some v →
  tidy v = true ∧ plain v = true ∧ lowercase v = true
  ∧ Analytics.FIXES !! v = None
  ∧ Analytics.sub_host None v = v.
Proof.
  unfold Analytics.FIXES.
  intros [[_ <-]|[_ [_ <-]%lookup_singleton_Some]]%lookup_insert_Some;
    by vm_compute.
Qed.
End CanonicalFacts.

(** X1. [clean] leaves single spaces between words, none at either end and no
    other whitespace; on a text of that shape it changes nothing, so cleaning
    twice is cleaning once. The three scripts carry the same [clean]. *)
Theorem clean_idempotent (s : string) :
  Shape.tidy (Rebuild.clean s) = true
  ∧ (Shape.tidy s = true → Rebuild.clean s = s)
  ∧ Rebuild.clean (Rebuild.clean s) = Rebuild.clean s
  ∧ Extract.clean s = Rebuild.clean s
  ∧ Analytics.clean s = Rebuild.clean s.
Proof.
  split_and!; [apply clean_tidy|apply clean_fixed| |done|done].
  apply clean_fixed, clean_tidy.
Qed.

(** X2. A title normalised by rebuild_events_safe.py is lowercase, made of
    word characters and single spaces with none at either end, and
    normalising it again changes nothing. *)
Theorem normalize_title_idempotent (t : string) :
  let o := Rebuild.normalize_title t in
  Shape.tidy o = true ∧ Shape.plain o = true ∧ Shape.lowercase o = true
  ∧ Rebuild.normalize_title o = o.
Proof.
  intros o.
  destruct (collapsed_shapes EmptyString (Py.lower (Rebuild.clean t)))
    as (Ht & Hp & Hl); [done|done|apply lowercase_lower|].
  fold (Rebuild.normalize_title t) in Ht, Hp, Hl. fold o in Ht, Hp, Hl.
  split_and!; [done..|].
  unfold Rebuild.normalize_title.
  rewrite (clean_fixed o Ht), (lower_id o Hl).
  rewrite (sub_punct_id EmptyString o (plain_word_or_space o Hp)).
  by apply tidy_collapse_fixed.
Qed.

Lemma canonical_title_shapes (t : string) :
  let o := Analytics.canonical_title t in
  Shape.tidy o = true ∧ Shape.plain o = true ∧ Shape.lowercase o = true.
Proof.
  intros o. subst o. unfold Analytics.canonical_title.
  set (cut := Py.strip (Analytics.sub_host None (Py.lower (Analytics.clean t)))).
  destruct (collapsed_shapes " " cut) as (Ht & Hp & Hl); [done|done| |].
  { unfold Shape.lowercase. apply all_chars_strip, all_chars_sub_host.
    apply lowercase_lower. }
  destruct (Analytics.FIXES !! _) as [v|] eqn:Hfix; simpl; [|done].
  apply FIXES_values in Hfix as (? & ? & ? & _). done.
Qed.

(** X3. A canonical title of the analytics is lowercase, made of word
    characters and single spaces with none at either end: no punctuation, no
    capital, no tab or line break survives [canonical_title]. *)
Theorem canonical_title_shape (t : string) :
  let o := Analytics.canonical_title t in
  Shape.tidy o = true ∧ Shape.plain o = true ∧ Shape.lowercase o = true.
Proof.
  intros o. subst o. unfold Analytics.canonical_title.
  set (cut := Py.strip (Analytics.sub_host None (Py.lower (Analytics.clean t)))).
  destruct (collapsed_shapes " " cut) as (Ht & Hp & Hl); [done|done| |].
  { unfold Shape.lowercase. apply all_chars_strip, all_chars_sub_host.
    apply lowercase_lower. }
  destruct (Analytics.FIXES !! _) as [v|] eqn:Hfix; simpl; [|done].
  apply FIXES_values in Hfix as (? & ? & ? & _). done.
Qed.

(* ===================================================================== *)
(** ** The grid parser *)
(* ===================================================================== *)

Section ParserFacts.
Import Py Html.

Lemma first_venue_class_agree (classes : list string) :
  Extract.first_venue_class classes = Rebuild.first_venue_class classes.
Proof.
  unfold Extract.first_venue_class, Rebuild.first_venue_class,
    Rebuild.structural_classes.
  f_equal. apply list_filter_iff. intros c.
  rewrite !not_elem_of_cons. tauto.
Qed.

Lemma scan_divs_agree (acc : option string) (divs : list (list string)) :
  Extract.scan_divs acc divs = Rebuild.scan_divs acc divs.
Proof.
  revert acc. induction divs as [|classes rest IH]; intros acc; [done|].
  simpl. rewrite first_venue_class_agree.
  destruct (truthy _); [done|]. apply IH.
Qed.

Lemma scan_divs_flat (divs : list (list string)) :
  (∀ classes c, classes ∈ divs → c ∈ classes → c ≠ EmptyString) →
  Rebuild.scan_divs None divs
  = head (filter (λ c, c ∉ Rebuild.structural_classes) (concat divs)).
Proof.
  induction divs as [|classes rest IH]; intros Hne; [done|].
  simpl. rewrite filter_app. unfold Rebuild.first_venue_class.
  destruct (filter (λ c, c ∉ Rebuild.structural_classes) classes)
    as [|c l] eqn:Hf; simpl.
  - apply IH. intros cl c ? ?. apply (Hne cl c); [by right|done].
  - assert (c ≠ EmptyString) as Hc.
    { apply (Hne classes c); [by left|].
      assert (c ∈ filter (λ c, c ∉ Rebuild.structural_classes) classes) as Hin
        by (rewrite Hf; by left).
      by apply list_elem_of_filter in Hin as [_ ?]. }
    by destruct c.
Qed.

Lemma parse_date_str_nonempty (d s : string) :
  Rebuild.parse_date_str d = Some s → truthy (Some s) = true.
Proof.
  unfold Rebuild.parse_date_str.
  destruct (split "/" d) as [|p0 [|p1 [|p2 rest]]]; try done.
  destruct (Py.int p0) as [y|]; [|done].
  destruct (Py.int p1) as [m|]; [|done].
  destruct (Py.int p2) as [dd|]; [|done].
  intros [= <-]. by destruct (format_0d 4 y).
Qed.

Lemma rebuild_date_truthy (ev : Block) (s : string) :
  (Rebuild.block_date_id ev).1 = Some s → truthy (Some s) = true.
Proof.
  unfold Rebuild.block_date_id.
  destruct (noscript_qs ev) as [qs|].
  - destruct (Rebuild.parse_date_str _) as [d|] eqn:Hd.
    + apply parse_date_str_nonempty in Hd as Ht. rewrite Ht. simpl.
      by intros [= <-].
    + simpl. destruct (popup_call ev) as [[d i]|]; simpl; [|done].
      apply parse_date_str_nonempty.
  - simpl. destruct (popup_call ev) as [[d i]|]; simpl; [|done].
    apply parse_date_str_nonempty.
Qed.

(** A block gives a row exactly when it has a title and a date. *)
Lemma extract_block_None (cal : option string) (src : string) (ev : Block) :
  Rebuild.extract_block cal src ev = None
  ↔ Rebuild.block_title ev = EmptyString ∨ (Rebuild.block_date_id ev).1 = None.
Proof.
  unfold Rebuild.extract_block.
  destruct (Rebuild.block_date_id ev) as [dt eid] eqn:Hid. simpl.
  destruct (Rebuild.block_title ev) as [|c t] eqn:Ht; simpl; [tauto|].
  destruct dt as [s|]; simpl; [|tauto].
  assert (truthy (Some s) = true) as Hs.
  { apply (rebuild_date_truthy ev). by rewrite Hid. }
  simpl in Hs. rewrite Hs. split; [done|]. by intros [|].
Qed.

Lemma parse_manifest_nil (items : list Item) (src : string) :
  Rebuild.parse_manifest items src = []
  ↔ ∀ it ev, it ∈ items → ev ∈ item_blocks it →
      Rebuild.block_title ev = EmptyString ∨ (Rebuild.block_date_id ev).1 = None.
Proof.
  split.
  - intros Hnil it ev Hit Hev.
    destruct (Rebuild.extract_block (item_calendar it) src ev) as [r|] eqn:Hr;
      [|by eapply extract_block_None].
    assert (r ∈ Rebuild.parse_manifest items src) as Hin.
    { unfold Rebuild.parse_manifest. apply list_elem_of_bind. exists it.
      split; [|done]. unfold Rebuild.extract_events.
      apply list_elem_of_omap. eauto. }
    rewrite Hnil in Hin. by apply elem_of_nil in Hin.
  - intros Hall. apply elem_of_nil_inv. intros r.
    unfold Rebuild.parse_manifest, Rebuild.extract_events.
    intros (it & (ev & Hev & Hr)%list_elem_of_omap & Hit)%list_elem_of_bind.
    assert (Rebuild.extract_block (item_calendar it) src ev = None) as Hn
      by (eapply extract_block_None; eauto).
    congruence.
Qed.
End ParserFacts.

(** X4. The venue scan of the grid parser, two nested loops with [break],
    returns the first class name in document order, over all nested [div]s,
    that is not one of [CalEvent], [EventLink], [DayWithEvents], as long as no
    class name is empty; and the scan of extract_all_events.py, written with
    two tests instead of one, returns the same class on every block. *)
Theorem scan_divs_first_class (divs : list (list string)) :
  (∀ classes c, classes ∈ divs → c ∈ classes → c ≠ EmptyString) →
  Rebuild.scan_divs None divs
  = head (filter (λ c, c ∉ Rebuild.structural_classes) (concat divs))
  ∧ Extract.scan_divs None divs = Rebuild.scan_divs None divs.
Proof. intros Hne. split; [by apply scan_divs_flat|apply scan_divs_agree]. Qed.

Lemma scan_divs_first_class_witness :
  Rebuild.scan_divs None [["EventLink"]; ["CalEvent"; "c_Masjid"]; ["c_Gym"]]
  = Some "c_Masjid".
Proof.
  rewrite (proj1 (scan_divs_first_class
                    [["EventLink"]; ["CalEvent"; "c_Masjid"]; ["c_Gym"]]
                    ltac:(intros classes c Hcl Hc ->; vm_compute in Hcl;
                          repeat (apply elem_of_cons in Hcl as [->|Hcl];
                                  [repeat (apply elem_of_cons in Hc as [Hc|Hc];
                                           [discriminate|]);
                                   by apply elem_of_nil in Hc|]);
                          by apply elem_of_nil in Hcl))).
  reflexivity.
Defined.

Section OutcomeFacts.
Import Raw.

Lemma usable_rows (items : list Html.Item) (src : string) :
  usable items ↔ Rebuild.parse_manifest items src ≠ [].
Proof.
  rewrite parse_manifest_nil. split.
  - intros (it & ev & Hit & Hev & Ht & Hd) Hall.
    destruct (Hall it ev Hit Hev) as [?|Hn]; [done|].
    rewrite Hn in Hd. by destruct Hd.
  - intros Hne. destruct (decide (Rebuild.parse_manifest items src = [])) as [Hnil|Hnn].
    + exfalso. apply Hne. by apply (proj1 (parse_manifest_nil items src)).
    + destruct (Rebuild.parse_manifest items src) as [|r l] eqn:Hp; [done|].
      assert (r ∈ Rebuild.parse_manifest items src) as Hin by (rewrite Hp; by left).
      unfold Rebuild.parse_manifest, Rebuild.extract_events in Hin.
      apply list_elem_of_bind in Hin as (it & (ev & Hev & Hr)%list_elem_of_omap & Hit).
      exists it, ev. split_and!; [done..| |].
      * intros Ht. assert (Rebuild.extract_block (Html.item_calendar it) src ev = None)
          as Hn by (apply extract_block_None; by left). congruence.
      * destruct ((Rebuild.block_date_id ev).1) eqn:Hd; [eauto|].
        assert (Rebuild.extract_block (Html.item_calendar it) src ev = None)
          as Hn by (apply extract_block_None; by right). congruence.
Qed.

Lemma first_malformed_app (l k : list Url) :
  first_malformed (l ++ k)
  = match first_malformed l with
    | Some u => Some u
    | None => first_malformed k
    end.
Proof. induction l as [|[u|qs] l IH]; simpl; done. Qed.

(** A loop over calls of [get_qs] stops at the first malformed URL. *)
Lemma mapM_tried {A B} (f : A → tried B) (us : A → list Url) (l : list A) :
  (∀ x, match first_malformed (us x) with
        | Some u => f x = ValueError u
        | None => ∃ y, f x = Got y
        end) →
  match first_malformed (l ≫= us) with
  | Some u => mapM f l = ValueError u
  | None => ∃ k, mapM f l = Got k
  end.
Proof.
  intros Hf. induction l as [|x l IH]; [by exists []|].
  rewrite bind_cons, first_malformed_app. specialize (Hf x).
  change (mapM f (x :: l)) with (y ← f x; k ← mapM f l; mret (y :: k)).
  destruct (first_malformed (us x)) as [u|].
  - by rewrite Hf.
  - destruct Hf as [y ->]. simpl.
    destruct (first_malformed (l ≫= us)) as [u|].
    + by rewrite IH.
    + destruct IH as [k ->]. by exists (y :: k).
Qed.

Lemma read_block_outcome (ev : Block) :
  match first_malformed (block_urls ev) with
  | Some u => read_block ev = ValueError u
  | None => ∃ y, read_block ev = Got y
  end.
Proof.
  unfold block_urls, read_block.
  destruct (noscript_href ev) as [[u|qs]|]; simpl; eauto.
Qed.

Lemma read_item_outcome (it : Item) :
  match first_malformed (item_urls it) with
  | Some u => read_item it = ValueError u
  | None => ∃ y, read_item it = Got y
  end.
Proof.
  unfold item_urls, read_item.
  destruct (item_original it) as [u|qs]; simpl; [done|].
  pose proof (mapM_tried read_block block_urls (item_blocks it) read_block_outcome)
    as Hb.
  destruct (first_malformed (item_blocks it ≫= block_urls)) as [u|].
  - by rewrite Hb.
  - destruct Hb as [k ->]. simpl. eauto.
Qed.

Lemma read_manifest_outcome (items : list Item) :
  match first_malformed (urls items) with
  | Some u => read_manifest items = ValueError u
  | None => ∃ parsed, read_manifest items = Got parsed
  end.
Proof. apply (mapM_tried read_item item_urls), read_item_outcome. Qed.
End OutcomeFacts.

(** X5. How rebuild_events_safe.py ends, given two manifests whose files
    are read. [get_qs] is called outside any [try] on the URL of each item
    and on the [noscript] link of each of its blocks: the first URL, in the
    order of reading, on which [urlparse] raises stops the script with
    [ValueError]. A manifest read to its end that yields no row, for want
    of a block with a title and a date, stops it with [KeyError] at the
    selection of [calendar_name]; for the month manifest this comes before
    the day manifest is opened. Otherwise the script produces the table of
    the reconciler on the rows of the calendar: pages of other calendars
    only give an empty table, not an exception. *)
Theorem script_outcome (month_items day_items : list Raw.Item) :
  match Raw.first_malformed (Raw.urls month_items) with
  | Some u => Raw.df_final month_items day_items = Raw.ValueError u
  | None =>
      ∃ month,
        Raw.read_manifest month_items = Raw.Got month
        ∧ (¬ Raw.usable month →
           Raw.df_final month_items day_items
           = Raw.Got (Py.Raise (Py.KeyError "calendar_name")))
        ∧ (Raw.usable month →
           match Raw.first_malformed (Raw.urls day_items) with
           | Some u => Raw.df_final month_items day_items = Raw.ValueError u
           | None =>
               ∃ day,
                 Raw.read_manifest day_items = Raw.Got day
                 ∧ (¬ Raw.usable day →
                    Raw.df_final month_items day_items
                    = Raw.Got (Py.Raise (Py.KeyError "calendar_name")))
                 ∧ (Raw.usable day →
                    Raw.df_final month_items day_items
                    = Raw.Got (Py.Ok (Rebuild.reconcile
                                        (Rebuild.bilal_rows month "month_block")
                                        (Rebuild.bilal_rows day "day_block"))))
           end)
  end.
Proof.
  pose proof (read_manifest_outcome month_items) as Hm.
  pose proof (read_manifest_outcome day_items) as Hd.
  unfold Raw.df_final.
  destruct (Raw.first_malformed (Raw.urls month_items)) as [u|]; [by rewrite Hm|].
  destruct Hm as [month ->]. exists month. split; [done|]. simpl.
  split.
  - intros Hno.
    destruct (Rebuild.parse_manifest month "month_block") as [|r l] eqn:Hp; [done|].
    exfalso. apply Hno. apply (usable_rows month "month_block"). by rewrite Hp.
  - intros Hyes%(usable_rows month "month_block").
    assert (∃ rows, Rebuild.column_calendar_name
                      (Rebuild.parse_manifest month "month_block") = Py.Ok rows)
      as [rows ->].
    { destruct (Rebuild.parse_manifest month "month_block"); [done|]. simpl. eauto. }
    destruct (Raw.first_malformed (Raw.urls day_items)) as [u|]; [by rewrite Hd|].
    destruct Hd as [day ->]. exists day. split; [done|]. simpl. split.
    + intros Hno. f_equal. apply df_final_raise. right.
      destruct (decide (Rebuild.parse_manifest day "day_block" = [])) as [|Hne]; [done|].
      exfalso. by apply Hno, (usable_rows day "day_block").
    + intros Hday%(usable_rows day "day_block"). f_equal. by apply df_final_ok.
Qed.

(** A manifest with a malformed link after a good page, and a month
    manifest without any block before a malformed day manifest. *)
Lemma script_outcome_witness :
  Raw.df_final [Cases.friday_page; Cases.broken_page] []
  = Raw.ValueError "http://[cal/?Op=PopupWindow&Date=2021/5/21&ID=899"
  ∧ Raw.df_final [Cases.blank_page] [Cases.broken_page]
    = Raw.Got (Py.Raise (Py.KeyError "calendar_name"))
  ∧ Raw.df_final [Cases.friday_page] [Cases.friday_page]
    = Raw.Got (Py.Ok [Sample.friday_row]).
Proof.
  split; [exact (script_outcome [Cases.friday_page; Cases.broken_page] [])|].
  split.
  - destruct (script_outcome [Cases.blank_page] [Cases.broken_page])
      as (month & Hm & Hno & _).
    apply Hno. injection Hm as <-.
    intros (it & ev & Hit & Hev & _).
    apply list_elem_of_singleton in Hit as ->. by apply elem_of_nil in Hev.
  - destruct (script_outcome [Cases.friday_page] [Cases.friday_page])
      as (month & Hm & _ & Hyes).
    injection Hm as <-.
    assert (Raw.usable [Sample.bilal [Sample.friday]]) as Hu.
    { exists (Sample.bilal [Sample.friday]), Sample.friday.
      split_and!; [apply list_elem_of_here|apply list_elem_of_here| |].
      - vm_compute. discriminate.
      - vm_compute. eexists. reflexivity. }
    destruct (Hyes Hu) as (day & Hd & _ & Hok).
    injection Hd as <-. rewrite (Hok Hu). reflexivity.
Defined.

(* ===================================================================== *)
(** ** The order of [sort_values] *)
(* ===================================================================== *)

Section OrderFacts.
Import Order.

Lemma cmp_ok_eq_r {A} (cmp : A → A → comparison) (x y z : A) :
  cmp_ok cmp → cmp y z = Eq → cmp x y = cmp x z.
Proof.
  intros (_ & Hanti & _ & Heq) Hyz.
  rewrite (Hanti y x), (Hanti z x). f_equal. by apply Heq.
Qed.

Lemma cmp_ok_then_by {A} (c1 c2 : A → A → comparison) :
  cmp_ok c1 → cmp_ok c2 → cmp_ok (λ x y, then_by (c1 x y) (c2 x y)).
Proof.
  intros H1 H2. pose proof H1 as (R1 & A1 & T1 & E1).
  pose proof H2 as (R2 & A2 & T2 & E2).
  unfold then_by. split_and!.
  - intros x. by rewrite R1, R2.
  - intros x y. rewrite (A1 x y), (A2 x y). by destruct (c1 x y).
  - intros x y z Hxy Hyz.
    destruct (c1 x y) eqn:C1; [|clear Hxy|done]; (destruct (c1 y z) eqn:C2; [|clear Hyz|done]).
    + rewrite (E1 x y z C1), C2. by eapply T2.
    + by rewrite (E1 x y z C1), C2.
    + by rewrite <- (cmp_ok_eq_r c1 x y z H1 C2), C1.
    + by rewrite (T1 x y z C1 C2).
  - intros x y z Hxy.
    destruct (c1 x y) eqn:C1; [|done..].
    by rewrite (E1 x y z C1), (E2 x y z Hxy).
Qed.

Lemma cmp_ok_on {A B} (f : A → B) (cmp : B → B → comparison) :
  cmp_ok cmp → cmp_ok (λ x y, cmp (f x) (f y)).
Proof. intros (R & An & T & E). split_and!; eauto. Qed.

Lemma cmp_ok_flip {A} (cmp : A → A → comparison) :
  cmp_ok cmp → cmp_ok (λ x y, cmp y x).
Proof.
  intros Hok. pose proof Hok as (R & An & T & E). split_and!; [done|done| |].
  - intros x y z Hxy Hyz. by apply (T z y x).
  - intros x y z Hxy. symmetry. by apply (cmp_ok_eq_r cmp z y x Hok).
Qed.

Lemma Z_compare_ok : cmp_ok Z.compare.
Proof.
  split_and!.
  - apply Z.compare_refl.
  - intros x y. apply Z.compare_antisym.
  - intros x y z. rewrite !Z.compare_lt_iff. lia.
  - intros x y z ->%Z.compare_eq_iff. done.
Qed.

Lemma ascii_compare_refl (a : ascii) : Ascii.compare a a = Eq.
Proof. unfold Ascii.compare. apply N.compare_refl. Qed.

Lemma ascii_compare_lt_trans (a b c : ascii) :
  Ascii.compare a b = Lt → Ascii.compare b c = Lt → Ascii.compare a c = Lt.
Proof.
  unfold Ascii.compare. rewrite !N.compare_lt_iff. lia.
Qed.

Lemma string_compare_lt_trans (x y z : string) :
  String.compare x y = Lt → String.compare y z = Lt → String.compare x z = Lt.
Proof.
  revert y z. induction x as [|a x IH]; intros [|b y] [|c z]; simpl; try done.
  destruct (Ascii.compare a b) eqn:Cab; [|intros _|done];
    (destruct (Ascii.compare b c) eqn:Cbc; [|intros _|done]).
  - apply Ascii.compare_eq_iff in Cab as ->. apply Ascii.compare_eq_iff in Cbc as ->.
    rewrite ascii_compare_refl. apply IH.
  - apply Ascii.compare_eq_iff in Cab as ->. by rewrite Cbc.
  - apply Ascii.compare_eq_iff in Cbc as <-. by rewrite Cab.
  - by rewrite (ascii_compare_lt_trans a b c Cab Cbc).
Qed.

Lemma string_compare_ok : cmp_ok String.compare.
Proof.
  split_and!.
  - apply string_compare_refl.
  - intros x y. apply String.compare_antisym.
  - apply string_compare_lt_trans.
  - intros x y z ->%String.compare_eq_iff. done.
Qed.

Lemma row_compare_ok : cmp_ok Rebuild.row_compare.
Proof.
  assert (∀ a b, Rebuild.row_compare a b
    = then_by (String.compare (Rebuild.date a) (Rebuild.date b))
       (then_by (String.compare (Rebuild.title_norm a) (Rebuild.title_norm b))
         (then_by (Rebuild.source_rank a ?= Rebuild.source_rank b)
           (then_by (Rebuild.has_event_id b ?= Rebuild.has_event_id a)
              (Rebuild.has_location b ?= Rebuild.has_location a))))) as Heq.
  { intros a b. unfold Rebuild.row_compare, then_by. simpl.
    repeat (match goal with |- context [match ?c with _ => _ end] => destruct c end;
            try done). }
  assert (cmp_ok (λ a b,
       then_by (String.compare (Rebuild.date a) (Rebuild.date b))
       (then_by (String.compare (Rebuild.title_norm a) (Rebuild.title_norm b))
         (then_by (Rebuild.source_rank a ?= Rebuild.source_rank b)
           (then_by (Rebuild.has_event_id b ?= Rebuild.has_event_id a)
              (Rebuild.has_location b ?= Rebuild.has_location a)))))) as Hok.
  { repeat apply cmp_ok_then_by.
    - apply (cmp_ok_on Rebuild.date), string_compare_ok.
    - apply (cmp_ok_on Rebuild.title_norm), string_compare_ok.
    - apply (cmp_ok_on Rebuild.source_rank), Z_compare_ok.
    - apply cmp_ok_flip, (cmp_ok_on Rebuild.has_event_id), Z_compare_ok.
    - apply cmp_ok_flip, (cmp_ok_on Rebuild.has_location), Z_compare_ok. }
  destruct Hok as (R & An & T & E).
  split_and!; intros; rewrite ?Heq in *; eauto.
Qed.

Lemma row_leb_leb_of (a b : Rebuild.Row) :
  Rebuild.row_leb a b = leb_of Rebuild.row_compare a b.
Proof. done. Qed.

Section Leb.
Context {A : Type} (cmp : A → A → comparison) (Hok : cmp_ok cmp).

Lemma leb_of_refl (x : A) : leb_of cmp x x = true.
Proof. destruct Hok as (R & _). unfold leb_of. by rewrite R. Qed.

Lemma leb_of_total (x y : A) : leb_of cmp x y = false → leb_of cmp y x = true.
Proof.
  destruct Hok as (_ & An & _). unfold leb_of. rewrite (An x y).
  by destruct (cmp x y).
Qed.

Lemma leb_of_trans (x y z : A) :
  leb_of cmp x y = true → leb_of cmp y z = true → leb_of cmp x z = true.
Proof.
  pose proof Hok as (R & An & T & E). unfold leb_of.
  destruct (cmp x y) eqn:Cxy; [|intros _|done];
    (destruct (cmp y z) eqn:Cyz; [|intros _|done]).
  - by rewrite (E x y z Cxy), Cyz.
  - by rewrite (E x y z Cxy), Cyz.
  - by rewrite <- (cmp_ok_eq_r cmp x y z Hok Cyz), Cxy.
  - by rewrite (T x y z Cxy Cyz).
Qed.

Lemma insert_by_strongly_sorted (x : A) (l : list A) :
  StronglySorted (λ a b, leb_of cmp a b = true) l →
  StronglySorted (λ a b, leb_of cmp a b = true) (Pd.insert_by (leb_of cmp) x l).
Proof.
  induction l as [|y l IH]; simpl; intros Hs.
  - by repeat constructor.
  - apply StronglySorted_cons in Hs as [Hy Hs].
    destruct (leb_of cmp x y) eqn:Hxy.
    + apply StronglySorted_cons. split; [|by apply StronglySorted_cons].
      constructor; [done|]. eapply Forall_impl; [exact Hy|].
      intros z Hz. by eapply leb_of_trans.
    + apply StronglySorted_cons. split; [|by apply IH].
      rewrite insert_by_perm. constructor; [by apply leb_of_total|done].
Qed.

Lemma sort_by_strongly_sorted (l : list A) :
  StronglySorted (λ a b, leb_of cmp a b = true) (Pd.sort_by (leb_of cmp) l).
Proof.
  induction l as [|x l IH]; [constructor|].
  unfold Pd.sort_by in *. simpl. by apply insert_by_strongly_sorted.
Qed.

Lemma filter_strongly_sorted (P : A → Prop) `{∀ x, Decision (P x)} (l : list A) :
  StronglySorted (λ a b, leb_of cmp a b = true) l →
  StronglySorted (λ a b, leb_of cmp a b = true) (filter P l).
Proof.
  induction l as [|x l IH]; [done|].
  intros [Hx Hs]%StronglySorted_cons. rewrite filter_cons.
  destruct (decide (P x)); [|by apply IH].
  apply StronglySorted_cons. split; [|by apply IH].
  apply Forall_forall. intros y [_ Hy]%list_elem_of_filter.
  by eapply Forall_forall in Hx.
Qed.

(** In a sorted frame the row kept for a key is the least row of that key. *)
Lemma dd_least {K} `{EqDecision K} (key : A → K) (seen : list K) (l : list A)
    (r x : A) :
  StronglySorted (λ a b, leb_of cmp a b = true) l →
  r ∈ Pd.drop_duplicates key seen l → x ∈ l → key x = key r →
  leb_of cmp r x = true.
Proof.
  revert seen. induction l as [|y l IH]; intros seen Hs; simpl.
  - by intros ?%elem_of_nil.
  - apply StronglySorted_cons in Hs as [Hy Hs]. case_decide as Hseen.
    + intros Hr [->|Hx]%elem_of_cons Hk; [|by eapply IH].
      apply dd_elem_of in Hr as [_ Hn]. rewrite Hk in Hseen. done.
    + intros [->|Hr]%elem_of_cons [->|Hx]%elem_of_cons Hk.
      * apply leb_of_refl.
      * by eapply Forall_forall in Hy.
      * apply dd_elem_of in Hr as [_ Hn]. exfalso. apply Hn. rewrite Hk. by left.
      * by eapply IH.
Qed.
End Leb.
End OrderFacts.

(* ===================================================================== *)
(** ** Which row the reconciler keeps, and what it never drops *)
(* ===================================================================== *)

Section KeepFacts.
Import Rebuild Order.
Implicit Types (r x : Row) (df_month df_day : list Row).

Lemma df_sorted_strongly_sorted df_month df_day :
  StronglySorted (λ a b, row_leb a b = true) (df_sorted df_month df_day).
Proof.
  unfold df_sorted, sort_values.
  apply (sort_by_strongly_sorted row_compare row_compare_ok).
Qed.

(** A row of the table comes from exactly one of the two passes. *)
Lemma reconcile_pass df_month df_day r :
  r ∈ reconcile df_month df_day ↔
  (is_Some (event_id r) ∧ r ∈ df_with_id (df_sorted df_month df_day))
  ∨ (event_id r = None ∧ r ∈ df_no_id (df_sorted df_month df_day)).
Proof.
  unfold reconcile. rewrite elem_of_app. split.
  - intros [Hr|Hr]; [left|right]; (split; [|done]);
      unfold df_with_id, df_no_id in Hr;
      by apply dd_elem_of in Hr as [[? _]%list_elem_of_filter _].
  - intros [[_ ?]|[_ ?]]; auto.
Qed.

Lemma row_leb_same_title r x :
  row_leb r x = true → date x = date r → title_norm x = title_norm r →
  has_event_id x = has_event_id r →
  source_rank r ≤ source_rank x
  ∧ (source_rank x = source_rank r → has_location x ≤ has_location r).
Proof.
  intros Hle Hd Ht Hid. unfold row_leb in Hle.
  rewrite (row_compare_same_title r x) in Hle by done. simpl in Hle.
  rewrite Hid, Z.compare_refl in Hle.
  destruct (source_rank r ?= source_rank x) eqn:Hc.
  - apply Z.compare_eq_iff in Hc. split; [lia|]. intros _.
    destruct (has_location x ?= has_location r) eqn:Hl; [| |done].
    + apply Z.compare_eq_iff in Hl. lia.
    + rewrite Z.compare_lt_iff in Hl. lia.
  - rewrite Z.compare_lt_iff in Hc. split; lia.
  - done.
Qed.

(** The row kept for a key precedes, in the order of the sort, every
    candidate of that key. *)
Lemma kept_precedes df_month df_day r x :
  r ∈ reconcile df_month df_day →
  x ∈ df_month ++ df_day_missing df_month df_day →
  date x = date r → event_id x = event_id r →
  (event_id r = None → title_norm x = title_norm r) →
  row_leb r x = true.
Proof.
  intros Hr Hx Hd Hid Ht.
  assert (x ∈ df_sorted df_month df_day) as Hxs.
  { unfold df_sorted, sort_values. by apply sort_by_elem_of. }
  pose proof (df_sorted_strongly_sorted df_month df_day) as Hs.
  apply reconcile_pass in Hr as [[Hsome Hr]|[Hnone Hr]].
  - unfold df_with_id in Hr.
    eapply (dd_least row_compare row_compare_ok id_key); [|exact Hr| |].
    + by apply (filter_strongly_sorted row_compare).
    + apply list_elem_of_filter. split; [by rewrite Hid|done].
    + unfold id_key. by rewrite Hd, Hid.
  - unfold df_no_id in Hr.
    eapply (dd_least row_compare row_compare_ok title_key); [|exact Hr| |].
    + by apply (filter_strongly_sorted row_compare).
    + apply list_elem_of_filter. split; [by rewrite Hid|done].
    + unfold title_key. by rewrite Hd, (Ht Hnone).
Qed.

(** A row that the sort puts after a candidate of its own date, title and
    [event_id] is not kept. *)
Lemma later_row_dropped df_month df_day a b :
  a ∈ df_month ++ df_day_missing df_month df_day →
  date a = date b → title_norm a = title_norm b → event_id a = event_id b →
  row_leb b a = false →
  b ∉ reconcile df_month df_day.
Proof.
  intros Ha Hd Ht Hid Hf Hb.
  pose proof (kept_precedes df_month df_day b a Hb Ha Hd Hid (λ _, Ht)).
  congruence.
Qed.

Lemma row_leb_rank a b :
  date a = date b → title_norm a = title_norm b →
  source_rank a < source_rank b →
  row_leb a b = true ∧ row_leb b a = false.
Proof.
  intros Hd Ht Hlt. unfold row_leb.
  rewrite (row_compare_same_title a b), (row_compare_same_title b a) by done.
  simpl. rewrite (proj2 (Z.compare_lt_iff _ _) Hlt).
  by rewrite (proj2 (Z.compare_gt_iff _ _) Hlt).
Qed.

Lemma row_leb_location a b :
  date a = date b → title_norm a = title_norm b →
  event_id a = event_id b → source_rank a = source_rank b →
  is_Some (location_code a) → location_code b = None →
  row_leb a b = true ∧ row_leb b a = false.
Proof.
  intros Hd Ht Hid Hr [l Hl] Hn. unfold row_leb.
  rewrite (row_compare_same_title a b), (row_compare_same_title b a) by done.
  simpl. rewrite Hr, Z.compare_refl.
  unfold has_event_id, has_location. rewrite Hid, Hl, Hn.
  by destruct (event_id b).
Qed.
End KeepFacts.

(** C3. Dedup priority. A month row without location and a day row with a
    location, both of the calendar and with the same [(date, event_id)]: the
    table is produced, the day row is not in it, and the one row the table
    holds for that [(date, event_id)] is a [month_block] row (the month row
    itself when the two are the only rows). In the script the coverage gate
    has removed the day row before the sort: the two have one date, hence
    one month. The sort decides wherever two such rows do meet among the
    candidates of the reconciler, in whatever order the frames list them:
    rows compare by [date] and [title_norm] first, then by [source_rank],
    then by [has_event_id], then by [has_location], and the reconciler keeps
    the first of a key. So when the two rows have one normalized title the
    month row sorts before the day row and the day row is dropped whenever
    the month row is a candidate; in general, of two rows of one date,
    title and [event_id] the one of greater [source_rank] is dropped
    whatever the locations, and at equal rank the one without location is
    dropped. *)
Theorem month_block_wins (month_items day_items : list Html.Item)
    (m d : Rebuild.Row) (e : string) :
  m ∈ Rebuild.bilal_rows month_items "month_block" →
  d ∈ Rebuild.bilal_rows day_items "day_block" →
  Rebuild.date m = Rebuild.date d →
  Rebuild.event_id m = Some e → Rebuild.event_id d = Some e →
  Rebuild.location_code m = None → is_Some (Rebuild.location_code d) →
  (∃ table,
     Rebuild.df_final month_items day_items = Py.Ok table
     ∧ (d ∉ table)
     ∧ (∃ r, r ∈ table ∧ Rebuild.source_type r = "month_block"
             ∧ Rebuild.id_key r = Rebuild.id_key m
             ∧ ∀ r', r' ∈ table → Rebuild.id_key r' = Rebuild.id_key m → r' = r)
     ∧ (Rebuild.bilal_rows month_items "month_block" = [m] →
        Rebuild.bilal_rows day_items "day_block" = [d] → table = [m]))
  ∧ Rebuild.source_rank m < Rebuild.source_rank d
  ∧ (Rebuild.title_norm m = Rebuild.title_norm d →
     Rebuild.row_leb m d = true ∧ Rebuild.row_leb d m = false
     ∧ ∀ df_month df_day,
         m ∈ df_month ++ Rebuild.df_day_missing df_month df_day →
         d ∉ Rebuild.reconcile df_month df_day)
  ∧ (∀ df_month df_day a b,
       a ∈ df_month ++ Rebuild.df_day_missing df_month df_day →
       Rebuild.date a = Rebuild.date b →
       Rebuild.title_norm a = Rebuild.title_norm b →
       Rebuild.event_id a = Rebuild.event_id b →
       Rebuild.source_rank a < Rebuild.source_rank b
       ∨ (Rebuild.source_rank a = Rebuild.source_rank b
          ∧ is_Some (Rebuild.location_code a)
          ∧ Rebuild.location_code b = None) →
       b ∉ Rebuild.reconcile df_month df_day)
  ∧ (∀ a b, Rebuild.date a = Rebuild.date b →
            Rebuild.title_norm a = Rebuild.title_norm b →
            Rebuild.source_rank a < Rebuild.source_rank b →
            Rebuild.row_compare a b = Lt)
  ∧ (∀ a b, Rebuild.date a = Rebuild.date b →
            Rebuild.title_norm a = Rebuild.title_norm b →
            Rebuild.source_rank a = Rebuild.source_rank b →
            is_Some (Rebuild.event_id a) → Rebuild.event_id b = None →
            Rebuild.row_compare a b = Lt).
Proof.
  intros Hm Hd Hdate Hme Hde Hml Hdl.
  pose proof Hm as [_ Hm']%list_elem_of_filter.
  pose proof Hd as [_ Hd']%list_elem_of_filter.
  pose proof (parse_manifest_row _ _ _ Hm') as [Hms Hmym].
  pose proof (parse_manifest_row _ _ _ Hd') as [Hds Hdym].
  assert (Rebuild.year_month d = Rebuild.year_month m) as Hym
    by (by rewrite Hmym, Hdym, Hdate).
  assert (Rebuild.source_rank m < Rebuild.source_rank d) as Hrank
    by (by apply source_rank_month_day).
  split_and!.
  - eexists. split.
    { apply df_final_ok; intros Hnil.
      - rewrite Hnil in Hm'. by apply elem_of_nil in Hm'.
      - rewrite Hnil in Hd'. by apply elem_of_nil in Hd'. }
    assert (∀ r, r ∈ Rebuild.reconcile (Rebuild.bilal_rows month_items "month_block")
                       (Rebuild.bilal_rows day_items "day_block") →
                 Rebuild.year_month r = Rebuild.year_month m →
                 Rebuild.source_type r = "month_block") as Hmonth.
    { intros r Hr Hrym.
      apply reconcile_elem_of, df_sorted_elem_of in Hr as [Hr|[_ Hgate]].
      - apply list_elem_of_filter in Hr as [_ Hr].
        by apply parse_manifest_row in Hr as [? _].
      - exfalso. apply Hgate. rewrite Hrym. by apply month_months_elem_of. }
    split_and!.
    + intros Hin. specialize (Hmonth d Hin Hym). congruence.
    + destruct (with_id_kept (Rebuild.bilal_rows month_items "month_block")
                  (Rebuild.bilal_rows day_items "day_block") m)
        as (r & Hr & Hk & Huniq).
      { apply df_sorted_elem_of. by left. }
      { by rewrite Hme. }
      exists r. split_and!; [done| |done|done].
      apply Hmonth; [done|].
      apply reconcile_elem_of, df_sorted_elem_of in Hr as Hr'.
      assert (Rebuild.date r = Rebuild.date m) as Hrd by (by injection Hk).
      assert (Rebuild.year_month r = Py.take_str 7 (Rebuild.date r)) as ->.
      { destruct Hr' as [Hr'|[Hr' _]];
          apply list_elem_of_filter in Hr' as [_ Hr'];
          by apply parse_manifest_row in Hr' as [_ ?]. }
      by rewrite Hrd, Hmym.
    + intros -> ->. unfold Rebuild.reconcile, Rebuild.df_sorted, Rebuild.df_day_missing.
      rewrite filter_none.
      2:{ intros x ->%list_elem_of_singleton Hx. apply Hx.
          rewrite Hym. apply month_months_elem_of. by left. }
      unfold Rebuild.df_with_id, Rebuild.df_no_id. simpl.
      rewrite !filter_cons, !filter_nil.
      rewrite decide_True by (by rewrite Hme).
      rewrite decide_False by (by rewrite Hme). done.
  - done.
  - intros Ht. destruct (row_leb_rank m d Hdate Ht Hrank) as [Hmd Hdm].
    split; [done|]. split; [done|]. intros df_month df_day Hcand.
    apply (later_row_dropped df_month df_day m d); [done..| |done].
    by rewrite Hme, Hde.
  - intros df_month df_day a b Ha Hdt Ht Hid [Hlt|(Heq & Hla & Hlb)].
    + apply (later_row_dropped df_month df_day a b); [done..|].
      by apply row_leb_rank.
    + apply (later_row_dropped df_month df_day a b); [done..|].
      by apply row_leb_location.
  - intros a b Ha Hb Hlt. rewrite row_compare_same_title by done.
    simpl. by rewrite (proj2 (Z.compare_lt_iff _ _) Hlt).
  - intros a b Ha Hb Heq [i Hi] Hn. rewrite row_compare_same_title by done.
    simpl. rewrite Heq, Z.compare_refl.
    unfold Rebuild.has_event_id. by rewrite Hi, Hn.
Qed.

(** The scenario itself: the month page prints the Friday prayer without a
    venue, the day page prints it with one, both under event 899. The
    script keeps the month row alone; and the reconciler, given a frame that
    lists the day row before the month row, still drops the day row. *)
Lemma month_block_wins_witness :
  Sample.friday_bare_row ∈ Rebuild.bilal_rows [Sample.bilal [Sample.friday_bare]] "month_block"
  ∧ Sample.friday_day_row ∈ Rebuild.bilal_rows [Sample.bilal [Sample.friday]] "day_block"
  ∧ Rebuild.df_final [Sample.bilal [Sample.friday_bare]] [Sample.bilal [Sample.friday]]
    = Py.Ok [Sample.friday_bare_row]
  ∧ Rebuild.row_leb Sample.friday_day_row Sample.friday_bare_row = false
  ∧ (Sample.friday_day_row
     ∉ Rebuild.reconcile [Sample.friday_day_row; Sample.friday_bare_row] []).
Proof.
  assert (Sample.friday_bare_row
          ∈ Rebuild.bilal_rows [Sample.bilal [Sample.friday_bare]] "month_block") as Hm
    by (vm_compute; apply list_elem_of_here).
  assert (Sample.friday_day_row
          ∈ Rebuild.bilal_rows [Sample.bilal [Sample.friday]] "day_block") as Hd
    by (vm_compute; apply list_elem_of_here).
  split; [exact Hm|]. split; [exact Hd|].
  destruct (month_block_wins _ _ _ _ "899" Hm Hd eq_refl eq_refl eq_refl eq_refl
              (ex_intro _ "Masjid" eq_refl))
    as ((table & Heq & _ & _ & Hpair) & _ & Hsort & _).
  destruct (Hsort eq_refl) as (_ & Hdm & Hdrop).
  split; [|split; [exact Hdm|]].
  - rewrite Heq. f_equal. apply Hpair; reflexivity.
  - apply (Hdrop [Sample.friday_day_row; Sample.friday_bare_row] []).
    vm_compute. apply list_elem_of_further, list_elem_of_here.
Defined.

(** X6. Which duplicate survives. A row of the canonical table precedes, in
    the order of [sort_values], every candidate that it stands for: every
    row that passed the coverage gate with the same date and the same
    [event_id], or, for rows without [event_id], the same date and
    normalized title. Hence among candidates of equal normalized title the
    kept row has the least [source_rank] (month before day) and, at equal
    rank, a location whenever any of them has one. *)
Theorem reconcile_keeps_first (df_month df_day : list Rebuild.Row)
    (r x : Rebuild.Row) :
  r ∈ Rebuild.reconcile df_month df_day →
  x ∈ df_month ++ Rebuild.df_day_missing df_month df_day →
  Rebuild.date x = Rebuild.date r →
  (is_Some (Rebuild.event_id r) ∧ Rebuild.event_id x = Rebuild.event_id r)
  ∨ (Rebuild.event_id r = None ∧ Rebuild.event_id x = None
     ∧ Rebuild.title_norm x = Rebuild.title_norm r) →
  Rebuild.row_leb r x = true
  ∧ (Rebuild.title_norm x = Rebuild.title_norm r →
     Rebuild.source_rank r ≤ Rebuild.source_rank x
     ∧ (Rebuild.source_rank x = Rebuild.source_rank r →
        is_Some (Rebuild.location_code x) → is_Some (Rebuild.location_code r))).
Proof.
  intros Hr Hx Hd Hkey.
  assert (x ∈ Rebuild.df_sorted df_month df_day) as Hxs.
  { unfold Rebuild.df_sorted, Rebuild.sort_values. by apply sort_by_elem_of. }
  pose proof (df_sorted_strongly_sorted df_month df_day) as Hs.
  assert (Rebuild.row_leb r x = true ∧ Rebuild.has_event_id x = Rebuild.has_event_id r)
    as [Hle Hid].
  { apply reconcile_pass in Hr as [[Hsome Hr]|[Hnone Hr]].
    - destruct Hkey as [[_ Hk]|[Hk _]]; [|rewrite Hk in Hsome; by destruct Hsome].
      split; [|unfold Rebuild.has_event_id; by rewrite Hk].
      unfold Rebuild.df_with_id in Hr.
      eapply (dd_least Rebuild.row_compare row_compare_ok Rebuild.id_key);
        [|exact Hr| |].
      + by apply (filter_strongly_sorted Rebuild.row_compare).
      + apply list_elem_of_filter. split; [by rewrite Hk|done].
      + unfold Rebuild.id_key. by rewrite Hd, Hk.
    - destruct Hkey as [[Hk _]|(_ & Hk & Ht)]; [rewrite Hnone in Hk; by destruct Hk|].
      split; [|unfold Rebuild.has_event_id; by rewrite Hk, Hnone].
      unfold Rebuild.df_no_id in Hr.
      eapply (dd_least Rebuild.row_compare row_compare_ok Rebuild.title_key);
        [|exact Hr| |].
      + by apply (filter_strongly_sorted Rebuild.row_compare).
      + by apply list_elem_of_filter.
      + unfold Rebuild.title_key. by rewrite Hd, Ht. }
  split; [done|]. intros Ht.
  destruct (row_leb_same_title r x Hle Hd Ht Hid) as [Hrank Hloc].
  split; [done|]. intros Heq [l Hl]. specialize (Hloc Heq).
  unfold Rebuild.has_location in Hloc. rewrite Hl in Hloc.
  destruct (Rebuild.location_code r); [eauto|lia].
Qed.

Lemma reconcile_keeps_first_witness :
  Rebuild.row_leb (Sample.family_masjid_row "month_block")
                  (Sample.family_gym_row "month_block") = true.
Proof.
  apply (reconcile_keeps_first
           [Sample.family_gym_row "day_block";
            Sample.family_masjid_row "month_block";
            Sample.family_gym_row "month_block"] []
           (Sample.family_masjid_row "month_block")
           (Sample.family_gym_row "month_block")).
  - vm_compute. apply list_elem_of_here.
  - vm_compute. do 2 apply list_elem_of_further. apply list_elem_of_here.
  - reflexivity.
  - right. vm_compute. done.
Defined.

Section ProvenanceFacts.
Import Py Html Rebuild.

Lemma parse_date_str_format (d s : string) :
  parse_date_str d = Some s →
  ∃ y m dd : Z,
    s = format_0d 4 y +:+ "-" +:+ format_0d 2 m +:+ "-" +:+ format_0d 2 dd.
Proof.
  unfold parse_date_str.
  destruct (split "/" d) as [|p0 [|p1 [|p2 rest]]]; try done.
  destruct (Py.int p0) as [y|]; [|done].
  destruct (Py.int p1) as [m|]; [|done].
  destruct (Py.int p2) as [dd|]; [|done].
  intros [= <-]. by exists y, m, dd.
Qed.

Lemma block_date_format (ev : Block) (s : string) :
  (block_date_id ev).1 = Some s →
  ∃ y m dd : Z,
    s = format_0d 4 y +:+ "-" +:+ format_0d 2 m +:+ "-" +:+ format_0d 2 dd.
Proof.
  unfold block_date_id.
  destruct (noscript_qs ev) as [qs|].
  - destruct (parse_date_str _) as [d|] eqn:Hd.
    + rewrite (parse_date_str_nonempty _ _ Hd). simpl. intros [= <-].
      by eapply parse_date_str_format.
    + simpl. destruct (popup_call ev) as [[d i]|]; simpl; [|done].
      apply parse_date_str_format.
  - simpl. destruct (popup_call ev) as [[d i]|]; simpl; [|done].
    apply parse_date_str_format.
Qed.

Lemma block_title_tidy (ev : Block) : Shape.tidy (block_title ev) = true.
Proof.
  unfold block_title. destruct (anchor_text ev) as [a|]; simpl.
  - destruct (clean a) as [|c s] eqn:Ha; simpl; [apply clean_tidy|].
    rewrite <- Ha. apply clean_tidy.
  - apply clean_tidy.
Qed.

Lemma extract_block_fields (cal : option string) (src : string) (ev : Block)
    (r : Row) :
  extract_block cal src ev = Some r →
  title r = block_title ev ∧ title r ≠ EmptyString
  ∧ title_norm r = normalize_title (title r)
  ∧ year r = take_str 4 (date r)
  ∧ location_code r = normalize_loc (scan_divs None (div_classes ev))
  ∧ event_id r = (block_date_id ev).2.
Proof.
  unfold extract_block. destruct (block_date_id ev) as [dt eid] eqn:Hd.
  destruct (block_title ev) as [|c t] eqn:Ht; simpl; [done|].
  destruct dt as [[|c' s]|]; simpl; [done| |done].
  intros [= <-]. simpl. done.
Qed.
End ProvenanceFacts.

(** X7. Nothing in the canonical table is invented. Every row that
    rebuild_events_safe.py writes was extracted from a block of a page of
    the calendar BilalEvents listed in one of the two manifests, with the
    [source_type] of that manifest; its title is that of the block, not
    empty and free of stray whitespace; [title_norm] is the normalised
    title; the date has the form [yyyy-mm-dd] printed from three integers;
    [year] and [year_month] are its first four and seven characters. *)
Theorem df_final_rows_extracted (month_items day_items : list Html.Item)
    (table : list Rebuild.Row) (r : Rebuild.Row) :
  Rebuild.df_final month_items day_items = Py.Ok table →
  r ∈ table →
  (∃ items it ev,
      (items = month_items ∧ Rebuild.source_type r = "month_block"
       ∨ items = day_items ∧ Rebuild.source_type r = "day_block")
      ∧ it ∈ items ∧ Html.item_calendar it = Some "BilalEvents"
      ∧ ev ∈ Html.item_blocks it
      ∧ Rebuild.extract_block (Some "BilalEvents") (Rebuild.source_type r) ev = Some r
      ∧ Rebuild.title r = Rebuild.block_title ev)
  ∧ Rebuild.calendar_name r = Some "BilalEvents"
  ∧ Rebuild.title r ≠ EmptyString
  ∧ Shape.tidy (Rebuild.title r) = true
  ∧ Rebuild.title_norm r = Rebuild.normalize_title (Rebuild.title r)
  ∧ (∃ y m d : Z,
        Rebuild.date r
        = Py.format_0d 4 y +:+ "-" +:+ Py.format_0d 2 m +:+ "-" +:+ Py.format_0d 2 d)
  ∧ Rebuild.year r = Py.take_str 4 (Rebuild.date r)
  ∧ Rebuild.year_month r = Py.take_str 7 (Rebuild.date r).
Proof.
  intros Hok Hr.
  assert (table = Rebuild.reconcile (Rebuild.bilal_rows month_items "month_block")
                                    (Rebuild.bilal_rows day_items "day_block")) as ->.
  { unfold Rebuild.df_final in Hok. unfold Rebuild.bilal_rows.
    destruct (Rebuild.parse_manifest month_items "month_block"); [done|].
    destruct (Rebuild.parse_manifest day_items "day_block"); [done|].
    simpl in Hok. by injection Hok as <-. }
  apply reconcile_elem_of, df_sorted_elem_of in Hr.
  assert (∃ items src, (items = month_items ∧ src = "month_block"
                        ∨ items = day_items ∧ src = "day_block")
                       ∧ r ∈ Rebuild.bilal_rows items src)
    as (items & src & Hwhich & Hin).
  { destruct Hr as [Hm|[Hd _]].
    - exists month_items, "month_block". split; [by left|done].
    - exists day_items, "day_block". split; [by right|done]. }
  unfold Rebuild.bilal_rows in Hin.
  apply list_elem_of_filter in Hin as [Hcal Hin]. unfold Rebuild.is_bilal in Hcal.
  unfold Rebuild.parse_manifest, Rebuild.extract_events in Hin.
  apply list_elem_of_bind in Hin as (it & (ev & Hev & Hrow)%list_elem_of_omap & Hit).
  pose proof (extract_block_row _ _ _ _ Hrow) as (Hsrc & Hc & Hym & _ & Hdate).
  pose proof (extract_block_fields _ _ _ _ Hrow) as (Ht & Hne & Htn & Hy & _ & _).
  assert (Html.item_calendar it = Some "BilalEvents") as Hitcal by congruence.
  split_and!; [|done|done| |done| |done|done].
  - exists items, it, ev. rewrite Hsrc. rewrite Hitcal in Hrow.
    split_and!; [|done..].
    destruct Hwhich as [[-> ->]|[-> ->]]; [left|right]; done.
  - rewrite Ht. apply block_title_tidy.
  - by eapply block_date_format.
Qed.

Lemma df_final_rows_extracted_witness :
  Rebuild.calendar_name Sample.friday_row = Some "BilalEvents"
  ∧ Rebuild.year Sample.friday_row = "2021".
Proof.
  destruct (df_final_rows_extracted
              [Sample.bilal [Sample.friday]; Sample.foreign [Sample.family_gym]]
              [Sample.foreign [Sample.family_masjid]]
              [Sample.friday_row] Sample.friday_row)
    as (_ & Hcal & _ & _ & _ & _ & Hy & _).
  - vm_compute. reflexivity.
  - apply list_elem_of_here.
  - split; [exact Hcal|exact Hy].
Defined.

(** X8. Nothing is lost either. Every row that passes the coverage gate,
    that is every month row and every day row of a month without month
    rows, has exactly one representative in the canonical table: a row of
    the same date and [event_id] and, when there is no [event_id], the same
    normalized title. *)
Theorem reconcile_represents (df_month df_day : list Rebuild.Row)
    (x : Rebuild.Row) :
  x ∈ df_month
  ∨ (x ∈ df_day ∧ Rebuild.year_month x ∉ Rebuild.month_months df_month) →
  ∃ r, r ∈ Rebuild.reconcile df_month df_day
       ∧ Rebuild.date r = Rebuild.date x
       ∧ Rebuild.event_id r = Rebuild.event_id x
       ∧ (Rebuild.event_id x = None → Rebuild.title_norm r = Rebuild.title_norm x)
       ∧ ∀ r', r' ∈ Rebuild.reconcile df_month df_day →
               Rebuild.date r' = Rebuild.date x →
               Rebuild.event_id r' = Rebuild.event_id x →
               (Rebuild.event_id x = None →
                Rebuild.title_norm r' = Rebuild.title_norm x) →
               r' = r.
Proof.
  intros Hx%df_sorted_elem_of.
  destruct (Rebuild.event_id x) as [e|] eqn:He.
  - destruct (with_id_kept df_month df_day x Hx) as (r & Hr & Hk & Huniq);
      [by rewrite He|].
    unfold Rebuild.id_key in Hk. rewrite He in Hk. injection Hk as Hd Hid.
    exists r. split_and!; [done..| |].
    + done.
    + intros r' Hr' Hd' Hid' _. apply Huniq; [done|].
      unfold Rebuild.id_key. by rewrite Hd', Hid', He.
  - unfold Rebuild.reconcile, Rebuild.df_with_id, Rebuild.df_no_id.
    set (df := Rebuild.df_sorted df_month df_day) in *.
    destruct (dd_covers Rebuild.title_key x []
                (filter (λ r, Rebuild.event_id r = None) df)) as (r & Hr & Hk).
    { by apply list_elem_of_filter. }
    { apply not_elem_of_nil. }
    unfold Rebuild.title_key in Hk. injection Hk as Hd Ht.
    pose proof Hr as [[Hnone _]%list_elem_of_filter _]%dd_elem_of.
    exists r. split_and!; [apply elem_of_app; by right|done|done|done|].
    intros r' [Hr'|Hr']%elem_of_app Hd' Hid' Ht'.
    + apply dd_elem_of in Hr' as [[[e' He'] _]%list_elem_of_filter _]. congruence.
    + eapply dd_unique; [done..|]. unfold Rebuild.title_key.
      rewrite Hd, Ht, Hd', Ht'; done.
Qed.

Lemma reconcile_represents_witness :
  ∃ r, r ∈ Rebuild.reconcile [Sample.friday_bare_row; Sample.friday_row] []
       ∧ Rebuild.date r = "2021-05-21" ∧ Rebuild.event_id r = Some "899".
Proof.
  destruct (reconcile_represents [Sample.friday_bare_row; Sample.friday_row] []
              Sample.friday_row) as (r & Hr & Hd & Hid & _).
  - left. apply list_elem_of_further, list_elem_of_here.
  - exists r. split_and!; [exact Hr|exact Hd|exact Hid].
Defined.

(* ===================================================================== *)
(** ** The two extractors *)
(* ===================================================================== *)

Section ExtractorFacts.
Import Py Html.

Lemma parse_date_str_agree (d : string) :
  Extract.parse_date_str d = Rebuild.parse_date_str d.
Proof. done. Qed.

Lemma block_title_agree (ev : Block) :
  Extract.block_title ev = Rebuild.block_title ev.
Proof. done. Qed.

(** The date found in the [noscript] link, which both scripts try first. *)
Lemma block_date_id_noscript (ev : Block) (qs : gmap string string) (d : string) :
  noscript_qs ev = Some qs →
  Rebuild.parse_date_str (default EmptyString (qs !! "Date")) = Some d →
  Rebuild.block_date_id ev = (Some d, qs !! "ID")
  ∧ Extract.block_date_id ev = (Some d, qs !! "ID").
Proof.
  intros Hqs Hd. unfold Rebuild.block_date_id, Extract.block_date_id.
  rewrite Hqs. change Extract.parse_date_str with Rebuild.parse_date_str.
  by rewrite Hd, (parse_date_str_nonempty _ _ Hd).
Qed.

Lemma block_date_id_agree (ev : Block) :
  popup_call_closed ev = popup_call ev →
  Extract.block_date_id ev = Rebuild.block_date_id ev.
Proof.
  intros Hp. unfold Rebuild.block_date_id, Extract.block_date_id.
  by rewrite Hp.
Qed.

(** [normalize_title] of rebuild_events_safe.py is that of
    extract_all_events.py followed by the whitespace clean-up. *)
Lemma normalize_title_agree (t : string) :
  Rebuild.normalize_title t = strip (sub_spaces false (Extract.normalize_title t)).
Proof. done. Qed.
End ExtractorFacts.

(** X9. The grid parser of rebuild_events_safe.py and that of
    extract_all_events.py read a block alike. Whenever the date comes from
    the [noscript] link, or the two [PopupWindow] patterns find the same
    groups, a block gives a row in the first script exactly when it gives a
    dated row in the second; the two rows carry the same date, title, time
    label, [event_id], calendar and source, the first one has the venue
    with its [c_] prefix removed and the normalized title with its
    whitespace collapsed. *)
Theorem extractors_agree (cal : option string) (src : string) (ev : Html.Block) :
  (∃ qs d, Html.noscript_qs ev = Some qs
           ∧ Rebuild.parse_date_str (default EmptyString (qs !! "Date")) = Some d)
  ∨ Html.popup_call_closed ev = Html.popup_call ev →
  (∀ r, Rebuild.extract_block cal src ev = Some r →
        ∃ r', Extract.extract_block cal src ev = Some r'
              ∧ Extract.date r' = Some (Rebuild.date r)
              ∧ Extract.title r' = Rebuild.title r
              ∧ Extract.time_label r' = Rebuild.time_label r
              ∧ Extract.event_id r' = Rebuild.event_id r
              ∧ Extract.calendar_name r' = Rebuild.calendar_name r
              ∧ Extract.source_type r' = Rebuild.source_type r
              ∧ Rebuild.location_code r = Rebuild.normalize_loc (Extract.location_code r')
              ∧ Rebuild.title_norm r
                = Py.strip (Py.sub_spaces false (Extract.title_norm r')))
  ∧ (∀ r', Extract.extract_block cal src ev = Some r' → is_Some (Extract.date r') →
           is_Some (Rebuild.extract_block cal src ev)).
Proof.
  intros Hsame.
  assert (Extract.block_date_id ev = Rebuild.block_date_id ev) as Hid.
  { destruct Hsame as [(qs & d & Hqs & Hd)|Hp]; [|by apply block_date_id_agree].
    destruct (block_date_id_noscript ev qs d Hqs Hd) as [-> ->]. done. }
  unfold Rebuild.extract_block, Extract.extract_block.
  rewrite Hid, scan_divs_agree.
  change (Extract.block_title ev) with (Rebuild.block_title ev).
  change Extract.normalize_title
    with (λ t, Py.sub_punct EmptyString (Py.lower (Rebuild.clean t))).
  destruct (Rebuild.block_date_id ev) as [dt eid] eqn:Hd.
  destruct (Py.truthy (Some (Rebuild.block_title ev))) eqn:Ht; simpl; [|done].
  split.
  - intros r Hr. eexists. split; [done|]. simpl.
    destruct dt as [s|]; [|done].
    assert (Py.truthy (Some s) = true) as Hs.
    { apply (rebuild_date_truthy ev). by rewrite Hd. }
    rewrite Hs in Hr. injection Hr as <-. simpl. done.
  - intros r' [= <-] [s Hs]. simpl in Hs. subst dt.
    assert (Py.truthy (Some s) = true) as ->; [|eauto].
    apply (rebuild_date_truthy ev). by rewrite Hd.
Qed.

Lemma extractors_agree_witness :
  ∃ r', Extract.extract_block (Some "BilalEvents") "month_block" Sample.friday = Some r'
        ∧ Extract.date r' = Some "2021-05-21"
        ∧ Extract.location_code r' = Some "c_Masjid".
Proof.
  destruct (proj1 (extractors_agree (Some "BilalEvents") "month_block" Sample.friday
                     ltac:(right; reflexivity))
                  Sample.friday_row ltac:(reflexivity))
    as (r' & Hr' & Hd & _).
  exists r'. split_and!; [exact Hr'|exact Hd|].
  vm_compute in Hr'. injection Hr' as <-. reflexivity.
Defined.

Section AllEventsFacts.
Import Py Html.

(** Of the rows of one key, the one kept stands before the others: a key
    seen in the first of two appended frames is kept from that frame. *)
Lemma dd_app_first {A K} `{EqDecision K} (key : A → K) (seen : list K)
    (l1 l2 : list A) (r m : A) :
  r ∈ Pd.drop_duplicates key seen (l1 ++ l2) → m ∈ l1 → key m = key r →
  r ∈ l1.
Proof.
  revert seen. induction l1 as [|y l1 IH]; intros seen; simpl.
  - by intros _ ?%elem_of_nil.
  - case_decide as Hy.
    + intros Hr [->|Hm]%elem_of_cons Hk.
      * apply dd_elem_of in Hr as [_ Hn]. by rewrite Hk in Hy.
      * right. by eapply IH.
    + intros [->|Hr]%elem_of_cons Hm Hk; [by left|]. right.
      apply elem_of_cons in Hm as [->|Hm]; [|by eapply IH].
      apply dd_elem_of in Hr as [_ Hn]. exfalso. apply Hn. rewrite Hk. by left.
Qed.

Lemma process_manifest_row (items : list Item) (src : string) (r : Extract.Row) :
  r ∈ Extract.process_manifest items src →
  Extract.source_type r = src ∧ Extract.title r ≠ EmptyString
  ∧ ∃ it ev, it ∈ items ∧ ev ∈ item_blocks it
             ∧ Extract.extract_block (item_calendar it) src ev = Some r.
Proof.
  unfold Extract.process_manifest, Extract.extract_events_from_html.
  intros (it & (ev & Hev & Hr)%list_elem_of_omap & Hit)%list_elem_of_bind.
  split_and!; [..|by exists it, ev];
    unfold Extract.extract_block in Hr;
    destruct (Extract.block_date_id ev) as [dt eid];
    destruct (Extract.block_title ev) as [|c t] eqn:Ht; simpl in Hr; try done;
    by injection Hr as <-.
Qed.

Lemma all_events_ok (month_items day_items : list Item) (table : list Extract.Row) :
  Extract.all_events month_items day_items = Ok table →
  table = Pd.drop_duplicates Extract.dedupe_key []
            (filter (λ r, is_Some (Extract.date r))
               (Extract.process_manifest month_items "month_block"
                ++ Extract.process_manifest day_items "day_block")).
Proof.
  unfold Extract.all_events.
  destruct (_ ++ _) as [|x l]; [done|]. by intros [= <-].
Qed.
End AllEventsFacts.

(** X10. The first extractor, extract_all_events.py: every row it keeps has
    a date and a title and was read from a block of one of the two
    manifests; no two rows share [(date, title_norm, location_code)]; every
    dated row of the manifests is represented by a row with the same three
    values; and, as the month manifest is concatenated first, a row that
    the month manifest also holds is kept from the month manifest. *)
Theorem all_events_month_first (month_items day_items : list Html.Item)
    (table : list Extract.Row) :
  Extract.all_events month_items day_items = Py.Ok table →
  let month := Extract.process_manifest month_items "month_block" in
  let day := Extract.process_manifest day_items "day_block" in
  (∀ r, r ∈ table →
        is_Some (Extract.date r) ∧ Extract.title r ≠ EmptyString
        ∧ (r ∈ month ∧ Extract.source_type r = "month_block"
           ∨ r ∈ day ∧ Extract.source_type r = "day_block")
        ∧ (∀ m, m ∈ month → Extract.dedupe_key m = Extract.dedupe_key r →
                Extract.source_type r = "month_block"))
  ∧ NoDup (Extract.dedupe_key <$> table)
  ∧ (∀ x, x ∈ month ++ day → is_Some (Extract.date x) →
          ∃ r, r ∈ table ∧ Extract.dedupe_key r = Extract.dedupe_key x).
Proof.
  intros Hok month day. apply all_events_ok in Hok as ->.
  fold month day. split_and!.
  - intros r Hr. pose proof Hr as [[Hdate Hin]%list_elem_of_filter _]%dd_elem_of.
    assert (∀ m, m ∈ month → Extract.dedupe_key m = Extract.dedupe_key r → r ∈ month)
      as Hfirst.
    { intros m Hm Hk. rewrite filter_app in Hr.
      assert (r ∈ filter (λ r, is_Some (Extract.date r)) month) as Hrm.
      { eapply (dd_app_first Extract.dedupe_key); [exact Hr| |exact Hk].
        apply list_elem_of_filter. split; [|done].
        unfold Extract.dedupe_key in Hk. injection Hk as Hk _ _. by rewrite Hk. }
      by apply list_elem_of_filter in Hrm as [_ ?]. }
    split_and!; [done| | |].
    + apply elem_of_app in Hin as [Hin|Hin];
        by apply process_manifest_row in Hin as (_ & ? & _).
    + apply elem_of_app in Hin as [Hin|Hin]; [left|right]; (split; [done|]);
        by apply process_manifest_row in Hin as (? & _).
    + intros m Hm Hk. specialize (Hfirst m Hm Hk).
      by apply process_manifest_row in Hfirst as (? & _).
  - apply dd_NoDup.
  - intros x Hx Hd. apply dd_covers; [|apply not_elem_of_nil].
    by apply list_elem_of_filter.
Qed.

Lemma all_events_month_first_witness :
  is_Some (Extract.date Cases.friday_event)
  ∧ Extract.title Cases.friday_event ≠ EmptyString.
Proof.
  destruct (proj1 (all_events_month_first
                     [Sample.bilal [Sample.friday; Sample.undated]]
                     [Sample.bilal [Sample.friday]]
                     [Cases.friday_event] ltac:(vm_compute; reflexivity))
                  Cases.friday_event ltac:(apply list_elem_of_here))
    as (Hd & Ht & _).
  split; [exact Hd|exact Ht].
Defined.

(* ===================================================================== *)
(** ** The popup enrichment *)
(* ===================================================================== *)

Section PopupFacts.
Import Popup.

Lemma merge_left_cons (e : Extract.Row) (left : list Extract.Row)
    (right : list PopupRow) :
  merge_left (e :: left) right
  = match matches right e with
    | [] => [(e, None)]
    | ps => (λ p, (e, Some p)) <$> ps
    end ++ merge_left left right.
Proof. done. Qed.

Lemma merge_left_length (left : list Extract.Row) (right : list PopupRow) :
  length (merge_left left right)
  = sum_list ((λ e, Nat.max 1 (length (matches right e))) <$> left).
Proof.
  induction left as [|e left IH]; [done|].
  rewrite merge_left_cons, length_app, IH, fmap_cons.
  change (sum_list (?x :: ?l)) with (x + sum_list l)%nat. f_equal.
  destruct (matches right e) as [|p ps]; [done|].
  rewrite length_fmap. simpl. lia.
Qed.

Lemma merge_left_fst (left : list Extract.Row) (right : list PopupRow) :
  (∀ e, e ∈ left → (length (matches right e) ≤ 1)%nat) →
  (merge_left left right).*1 = left.
Proof.
  induction left as [|e left IH]; intros Hone; [done|].
  rewrite merge_left_cons, fmap_app, IH by (intros; apply Hone; by right).
  specialize (Hone e ltac:(by left)).
  destruct (matches right e) as [|p [|q ps]]; simpl in *; [done|done|lia].
Qed.

Lemma merge_left_elem_of (left : list Extract.Row) (right : list PopupRow)
    (e : Extract.Row) (o : option PopupRow) :
  (e, o) ∈ merge_left left right ↔
  e ∈ left ∧ match o with
             | Some p => p ∈ right ∧ event_id p = Extract.event_id e
             | None => ∀ p, p ∈ right → event_id p ≠ Extract.event_id e
             end.
Proof.
  unfold merge_left. rewrite list_elem_of_bind. split.
  - intros (e' & Hin & He'). fold (matches right e') in Hin.
    destruct (matches right e') as [|p ps] eqn:Hm.
    + apply list_elem_of_singleton in Hin as [= -> ->]. split; [done|].
      intros p Hp Hid.
      assert (p ∈ matches right e') as Hpm by (by apply list_elem_of_filter).
      rewrite Hm in Hpm. by apply elem_of_nil in Hpm.
    + apply list_elem_of_fmap in Hin as (q & [= -> ->] & Hq).
      split; [done|]. rewrite <- Hm in Hq.
      by apply list_elem_of_filter in Hq as [? ?].
  - intros [He Ho]. exists e. split; [|done]. fold (matches right e).
    destruct o as [p|].
    + destruct Ho as [Hp Hid].
      assert (p ∈ matches right e) as Hpm by (by apply list_elem_of_filter).
      destruct (matches right e) as [|q qs]; [by apply elem_of_nil in Hpm|].
      apply list_elem_of_fmap. by exists p.
    + destruct (matches right e) as [|q qs] eqn:Hm; [by apply list_elem_of_singleton|].
      assert (q ∈ matches right e) as Hq by (rewrite Hm; by left).
      apply list_elem_of_filter in Hq as [Hid Hq]. by destruct (Ho q Hq).
Qed.

Lemma matches_NoDup_length (right : list PopupRow) (e : Extract.Row) :
  NoDup (event_id <$> right) → (length (matches right e) ≤ 1)%nat.
Proof.
  unfold matches. induction right as [|p right IH]; [simpl; lia|].
  rewrite fmap_cons, NoDup_cons. intros [Hp Hnd]. rewrite filter_cons.
  case_decide as Hid; [|by apply IH].
  rewrite filter_none; [simpl; lia|].
  intros q Hq Hq'. apply Hp. rewrite Hid, <- Hq'. by apply list_elem_of_fmap_2.
Qed.

Lemma enrich_merge (all_events : list Extract.Row) (popup_items : list Page) :
  enrich all_events popup_items
  = merge_left all_events (omap extract_popup popup_items).
Proof.
  unfold enrich. destruct (omap extract_popup popup_items) as [|p ps] eqn:Hp; [|done].
  induction all_events as [|e l IH]; [done|].
  rewrite merge_left_cons, fmap_cons, IH. done.
Qed.

Lemma sum_list_le_length (f : Extract.Row → nat) (l : list Extract.Row) :
  (∀ e, (1 ≤ f e)%nat) → (length l ≤ sum_list (f <$> l))%nat.
Proof.
  intros Hf. induction l as [|e l IH]; [done|].
  rewrite fmap_cons. simpl. specialize (Hf e). lia.
Qed.

Lemma sum_list_lt_length (f : Extract.Row → nat) (l : list Extract.Row)
    (e : Extract.Row) :
  (∀ e, (1 ≤ f e)%nat) → e ∈ l → (2 ≤ f e)%nat →
  (length l < sum_list (f <$> l))%nat.
Proof.
  intros Hf He H2. induction l as [|x l IH]; [by apply elem_of_nil in He|].
  rewrite fmap_cons. simpl.
  apply elem_of_cons in He as [<-|He].
  - pose proof (sum_list_le_length f l Hf). lia.
  - specialize (IH He). specialize (Hf x). lia.
Qed.
End PopupFacts.

(** X11. The popup enrichment of extract_all_events.py never loses an
    event and only adds columns when the popup pages have pairwise
    different ids. An event row is followed by the popup rows of its
    [event_id], so an id captured in two popup pages makes the event appear
    twice and the printed total exceed the number of deduplicated events. *)
Theorem enrich_counts (all_events : list Extract.Row)
    (popup_items : list Popup.Page) :
  let merged := Popup.enrich all_events popup_items in
  let pop_rows := omap Popup.extract_popup popup_items in
  (∀ e, e ∈ all_events ↔ e ∈ merged.*1)
  ∧ (length all_events ≤ length merged)%nat
  ∧ (NoDup (Popup.event_id <$> pop_rows) → merged.*1 = all_events)
  ∧ (∀ e p q rest,
       e ∈ all_events →
       Popup.matches pop_rows e = p :: q :: rest →
       (length all_events < length merged)%nat)
  ∧ (∀ e p, (e, Some p) ∈ merged ↔
            e ∈ all_events ∧ p ∈ pop_rows
            ∧ Popup.event_id p = Extract.event_id e).
Proof.
  cbv zeta. rewrite enrich_merge.
  set (right := omap Popup.extract_popup popup_items).
  split_and!.
  - intros e. rewrite list_elem_of_fmap. split.
    + intros He. destruct (Popup.matches right e) as [|p ps] eqn:Hm.
      * exists (e, None). split; [done|]. apply merge_left_elem_of.
        split; [done|]. intros p Hp Hid.
        assert (p ∈ Popup.matches right e) as Hpm by (by apply list_elem_of_filter).
        rewrite Hm in Hpm. by apply elem_of_nil in Hpm.
      * exists (e, Some p). split; [done|]. apply merge_left_elem_of.
        split; [done|].
        assert (p ∈ Popup.matches right e) as Hpm by (rewrite Hm; by left).
        by apply list_elem_of_filter in Hpm as [? ?].
    + intros ([e' o] & -> & Hin). by apply merge_left_elem_of in Hin as [? _].
  - rewrite merge_left_length. apply sum_list_le_length. lia.
  - intros Hnd. apply merge_left_fst. intros e _. by apply matches_NoDup_length.
  - intros e p q rest He Hm. rewrite merge_left_length.
    apply (sum_list_lt_length _ _ e); [lia|done|].
    rewrite Hm. simpl. lia.
  - intros e p. rewrite merge_left_elem_of. tauto.
Qed.

Lemma enrich_counts_witness :
  (length [Cases.friday_event]
   < length (Popup.enrich [Cases.friday_event]
               [Cases.popup "899" "Friday Prayer";
                Cases.popup "899" "Friday Prayer and Khutbah"]))%nat.
Proof.
  eapply (proj1 (proj2 (proj2 (proj2
            (enrich_counts [Cases.friday_event]
               [Cases.popup "899" "Friday Prayer";
                Cases.popup "899" "Friday Prayer and Khutbah"]))))
            Cases.friday_event).
  - apply list_elem_of_here.
  - vm_compute. reflexivity.
Defined.

(* ===================================================================== *)
(** ** Dates *)
(* ===================================================================== *)

Section DateFacts.
Import Py.

Lemma take_str_app (a b : string) : take_str (String.length a) (a +:+ b) = a.
Proof. induction a as [|c a IH]; simpl; [by destruct b|by rewrite IH]. Qed.

Lemma take_str_app_le (n : nat) (a b : string) :
  (String.length a ≤ n)%nat →
  take_str n (a +:+ b) = a +:+ take_str (n - String.length a) b.
Proof.
  revert n. induction a as [|c a IH]; intros n Hn; simpl.
  - by rewrite Nat.sub_0_r.
  - destruct n as [|n]; simpl in *; [lia|]. rewrite IH by lia. done.
Qed.

Lemma string_length_app (a b : string) :
  String.length (a +:+ b) = (String.length a + String.length b)%nat.
Proof. induction a as [|c a IH]; simpl; [done|by rewrite IH]. Qed.

Lemma year_range_check :
  forallb (λ n, let y := Z.of_nat n in
                (String.length (format_0d 4 y) =? 4)%nat
                && Analytics.is_year (format_0d 4 y)
                && bool_decide (Py.int (format_0d 4 y) = Some y))
          (seq 0 (Z.to_nat 10000)) = true.
Proof. vm_compute. reflexivity. Qed.

Lemma two_digit_check :
  forallb (λ n, (String.length (format_0d 2 (Z.of_nat n)) =? 2)%nat)
          (seq 0 (Z.to_nat 100)) = true.
Proof. vm_compute. reflexivity. Qed.

Lemma format_year (y : Z) :
  0 ≤ y ≤ 9999 →
  String.length (format_0d 4 y) = 4%nat
  ∧ Analytics.is_year (format_0d 4 y) = true
  ∧ Py.int (format_0d 4 y) = Some y.
Proof.
  intros Hy. pose proof year_range_check as Hall.
  rewrite forallb_forall in Hall. specialize (Hall (Z.to_nat y)).
  rewrite Z2Nat.id in Hall by lia. cbv zeta in Hall.
  assert (In (Z.to_nat y) (seq 0 (Z.to_nat 10000))) as Hin by (apply in_seq; lia).
  apply Hall in Hin.
  apply andb_true_iff in Hin as [[Hl Hd]%andb_true_iff Hi].
  split_and!; [by apply Nat.eqb_eq|done|by apply bool_decide_eq_true in Hi].
Qed.

Lemma format_two_digits (m : Z) :
  0 ≤ m ≤ 99 → String.length (format_0d 2 m) = 2%nat.
Proof.
  intros Hm. pose proof two_digit_check as Hall.
  rewrite forallb_forall in Hall. specialize (Hall (Z.to_nat m)).
  rewrite Z2Nat.id in Hall by lia. apply Nat.eqb_eq, Hall, in_seq. lia.
Qed.

Lemma format_negative (w : nat) (y : Z) :
  y < 0 → ∃ s, format_0d w y = String "-" s.
Proof.
  intros Hy. unfold format_0d. rewrite (proj2 (Z.ltb_lt y 0) Hy). eauto.
Qed.
End DateFacts.

Lemma date_year_slice (y m d : Z) :
  0 ≤ y ≤ 9999 →
  let date := Py.format_0d 4 y +:+ "-" +:+ Py.format_0d 2 m
              +:+ "-" +:+ Py.format_0d 2 d in
  Py.take_str 4 date = Py.format_0d 4 y
  ∧ Analytics.is_year (Py.take_str 4 date) = true
  ∧ Py.int (Py.take_str 4 date) = Some y.
Proof.
  intros Hy date. destruct (format_year y Hy) as (Hl & Hd & Hi).
  assert (Py.take_str 4 date = Py.format_0d 4 y) as Ht.
  { subst date. rewrite <- Hl at 1. apply take_str_app. }
  by rewrite Ht.
Qed.

Lemma date_negative_year (y m d : Z) :
  y < 0 →
  Analytics.is_year
    (Py.take_str 4 (Py.format_0d 4 y +:+ "-" +:+ Py.format_0d 2 m
                    +:+ "-" +:+ Py.format_0d 2 d)) = false.
Proof.
  intros Hy. destruct (format_negative 4 y Hy) as [s Hs]. rewrite Hs.
  change (Py.take_str 4 (String "-" s +:+ ?x))
    with (String "-" (Py.take_str 3 (s +:+ x))).
  generalize (Py.take_str 3 (s +:+ "-" +:+ Py.format_0d 2 m +:+ "-" +:+ Py.format_0d 2 d)).
  intros [|a [|b [|c [|e r]]]]; done.
Qed.

(** X12. The date that the parsers print and the slices taken from it. For
    a year from 0 to 9999 the first four characters of [yyyy-mm-dd] are the
    year: they pass the four-digit test of the analytics and [int] reads
    the year back; with a month from 0 to 99 the first seven characters are
    year and month, and with a day from 0 to 99 the date has ten
    characters. A negative year, which [int] accepts, is printed with its
    sign, and the analytics then drops the row. *)
Theorem date_slices (y m d : Z) :
  let date := Py.format_0d 4 y +:+ "-" +:+ Py.format_0d 2 m
              +:+ "-" +:+ Py.format_0d 2 d in
  (0 ≤ y ≤ 9999 →
   Py.take_str 4 date = Py.format_0d 4 y
   ∧ Analytics.is_year (Py.take_str 4 date) = true
   ∧ Py.int (Py.take_str 4 date) = Some y
   ∧ (0 ≤ m ≤ 99 →
      Py.take_str 7 date = Py.format_0d 4 y +:+ "-" +:+ Py.format_0d 2 m
      ∧ (0 ≤ d ≤ 99 → String.length date = 10%nat)))
  ∧ (y < 0 → Analytics.is_year (Py.take_str 4 date) = false).
Proof.
  intros date. split; [|apply date_negative_year].
  intros Hy. destruct (date_year_slice y m d Hy) as (Ht & Hd & Hi).
  split_and!; [done..|].
  intros Hm. pose proof (format_two_digits m Hm) as Hlm.
  destruct (format_year y Hy) as (Hl & _). split.
  - subst date. rewrite take_str_app_le by lia. rewrite Hl. f_equal.
    pose proof (take_str_app (Py.format_0d 2 m) ("-" +:+ Py.format_0d 2 d)) as Hcut.
    rewrite Hlm in Hcut.
    change (Py.take_str (7 - 4) ("-" +:+ ?x)) with (String "-" (Py.take_str 2 x)).
    by rewrite Hcut.
  - intros Hdd. pose proof (format_two_digits d Hdd) as Hld.
    subst date. rewrite !string_length_app. simpl. lia.
Qed.

Lemma date_slices_witness :
  Py.int (Py.take_str 4 (Py.format_0d 4 2021 +:+ "-" +:+ Py.format_0d 2 5
                         +:+ "-" +:+ Py.format_0d 2 21)) = Some 2021
  ∧ Analytics.is_year
      (Py.take_str 4 (Py.format_0d 4 (-5) +:+ "-" +:+ Py.format_0d 2 5
                      +:+ "-" +:+ Py.format_0d 2 21)) = false.
Proof.
  split.
  - apply (proj1 (date_slices 2021 5 21)). lia.
  - apply (proj2 (date_slices (-5) 5 21)). lia.
Defined.

(* ===================================================================== *)
(** ** The rows that the analytics loads *)
(* ===================================================================== *)

Section LoadFacts.
Import Py Analytics.

Lemma is_digit_cases (c : ascii) :
  is_digit c = true →
  c ∈ ["0"; "1"; "2"; "3"; "4"; "5"; "6"; "7"; "8"; "9"]%char.
Proof.
  destruct c as [[] [] [] [] [] [] [] []]; vm_compute; intros H;
    try discriminate H; clear H;
    repeat (first [apply list_elem_of_here|apply list_elem_of_further]).
Qed.

Lemma four_digits_check :
  let ds := ["0"; "1"; "2"; "3"; "4"; "5"; "6"; "7"; "8"; "9"]%char in
  forallb (λ a, forallb (λ b, forallb (λ c, forallb (λ d,
    match Py.int (String a (String b (String c (String d EmptyString)))) with
    | Some n => (0 <=? n) && (n <=? 9999)
    | None => false
    end) ds) ds) ds) ds = true.
Proof. vm_compute. reflexivity. Qed.

Lemma is_year_int (s : string) :
  is_year s = true → ∃ n, Py.int s = Some n ∧ 0 ≤ n ≤ 9999.
Proof.
  destruct s as [|a [|b [|c [|d [|e r]]]]]; try done.
  unfold is_year.
  intros [[[Ha%is_digit_cases Hb%is_digit_cases]%andb_true_iff
            Hc%is_digit_cases]%andb_true_iff Hd%is_digit_cases]%andb_true_iff.
  pose proof four_digits_check as Hall. cbv zeta in Hall.
  rewrite forallb_forall in Hall. apply list_elem_of_In in Ha, Hb, Hc, Hd.
  specialize (Hall a Ha). rewrite forallb_forall in Hall.
  specialize (Hall b Hb). rewrite forallb_forall in Hall.
  specialize (Hall c Hc). rewrite forallb_forall in Hall.
  specialize (Hall d Hd).
  destruct (Py.int _) as [n|]; [|done].
  apply andb_true_iff in Hall as [?%Z.leb_le ?%Z.leb_le]. by exists n.
Qed.

Lemma load_row_fields (row : CsvRow) (e : Event) :
  load_row row = Some e →
  date e = clean (astype_str (csv_date row))
  ∧ is_year (take_str 4 (date e)) = true
  ∧ year_int e = default 0 (Py.int (take_str 4 (date e)))
  ∧ year_month e = take_str 7 (date e)
  ∧ title_canonical e = canonical_title (clean (astype_str (csv_title row)))
  ∧ title_canonical e ≠ EmptyString
  ∧ location_code e = canonical_loc (astype_str (csv_location_code row))
  ∧ time_label e = clean (astype_str (csv_time_label row))
  ∧ event_key e = make_event_key (date e) (title_canonical e) (time_label e).
Proof.
  unfold load_row. destruct (is_year _) eqn:Hy; [|done].
  case_decide as Ht; [done|]. intros [= <-]. simpl. done.
Qed.

Lemma load_elem_of (csv : list CsvRow) (e : Event) :
  e ∈ load csv ↔ ∃ row, row ∈ csv ∧ load_row row = Some e.
Proof. unfold load. apply list_elem_of_omap. Qed.

(** Text before the first [||] of a key, when that text has no bar. *)
Lemma bars_split (a a' r r' : string) :
  Shape.all_chars (λ c, negb (Ascii.eqb c "|")) a = true →
  Shape.all_chars (λ c, negb (Ascii.eqb c "|")) a' = true →
  a +:+ "||" +:+ r = a' +:+ "||" +:+ r' → a = a' ∧ r = r'.
Proof.
  revert a'. induction a as [|c a IH]; intros [|c' a']; simpl.
  - intros _ _ Heq. by injection Heq as Heq.
  - intros _ [Hc _]%andb_true_iff Heq. injection Heq as Hc' _. subst c'.
    by rewrite Ascii.eqb_refl in Hc.
  - intros [Hc _]%andb_true_iff _ Heq. injection Heq as Hc' _. subst c.
    by rewrite Ascii.eqb_refl in Hc.
  - intros [_ Ha]%andb_true_iff [_ Ha']%andb_true_iff Heq.
    injection Heq as Hc Heq. subst c'.
    destruct (IH a' Ha Ha' Heq) as [HA Hr]. by subst.
Qed.

Lemma plain_no_bar (s : string) :
  Shape.plain s = true →
  Shape.all_chars (λ c, negb (Ascii.eqb c "|")) s = true.
Proof.
  unfold Shape.plain. apply all_chars_impl. intros c Hc.
  destruct (Ascii.eqb_spec c "|") as [->|]; [by vm_compute in Hc|done].
Qed.

Lemma event_key_form (row : CsvRow) (e : Event) :
  load_row row = Some e →
  event_key e
  = date e +:+ "||" +:+ title_canonical e +:+ "||" +:+ lower (time_label e).
Proof.
  intros (Hd & _ & _ & _ & Ht & _ & _ & Hl & ->)%load_row_fields.
  unfold make_event_key.
  change Analytics.clean with Rebuild.clean in *.
  assert (Rebuild.clean (date e) = date e) as ->
    by (rewrite Hd; apply clean_fixed, clean_tidy).
  assert (Rebuild.clean (time_label e) = time_label e) as ->
    by (rewrite Hl; apply clean_fixed, clean_tidy).
  destruct (canonical_title_shapes
              (Rebuild.clean (astype_str (csv_title row)))) as (Htidy & _ & Hlow).
  cbv zeta in Htidy, Hlow. rewrite <- Ht in Htidy, Hlow.
  by rewrite (clean_fixed _ Htidy), (lower_id _ Hlow).
Qed.
End LoadFacts.

(** X13. What the analytics keeps of a row, and when two rows are one
    event. A loaded row has a year between 0 and 9999, read from the first
    four characters of its date, and a canonical title that is not empty.
    Its key is [date||title_canonical||time_label] with the time label in
    lower case, the second cleaning of the three parts changing nothing.
    For dates without a bar, as the parsers print them, two loaded rows
    have the same key exactly when they have the same date, the same
    canonical title and the same time label up to case. *)
Theorem event_key_identity (csv : list Analytics.CsvRow) (e1 e2 : Analytics.Event) :
  e1 ∈ Analytics.load csv → e2 ∈ Analytics.load csv →
  (0 ≤ Analytics.year_int e1 ≤ 9999
   ∧ Py.int (Py.take_str 4 (Analytics.date e1)) = Some (Analytics.year_int e1)
   ∧ Analytics.title_canonical e1 ≠ EmptyString
   ∧ Analytics.event_key e1
     = Analytics.date e1 +:+ "||" +:+ Analytics.title_canonical e1
       +:+ "||" +:+ Py.lower (Analytics.time_label e1))
  ∧ (Shape.all_chars (λ c, negb (Ascii.eqb c "|")) (Analytics.date e1) = true →
     Shape.all_chars (λ c, negb (Ascii.eqb c "|")) (Analytics.date e2) = true →
     Analytics.event_key e1 = Analytics.event_key e2
     ↔ Analytics.date e1 = Analytics.date e2
       ∧ Analytics.title_canonical e1 = Analytics.title_canonical e2
       ∧ Py.lower (Analytics.time_label e1) = Py.lower (Analytics.time_label e2)).
Proof.
  intros (row1 & _ & H1)%load_elem_of (row2 & _ & H2)%load_elem_of.
  pose proof (event_key_form row1 e1 H1) as Hk1.
  pose proof (event_key_form row2 e2 H2) as Hk2.
  pose proof (load_row_fields row1 e1 H1) as (_ & Hy1 & Hi1 & _ & Ht1 & Hne1 & _).
  pose proof (load_row_fields row2 e2 H2) as (_ & _ & _ & _ & Ht2 & _).
  split.
  - destruct (is_year_int _ Hy1) as (n & Hn & Hr). rewrite Hn in Hi1. simpl in Hi1.
    subst n. done.
  - intros Hb1 Hb2. rewrite Hk1, Hk2. split.
    + intros Heq. apply bars_split in Heq as [Hd Heq]; [|done..].
      apply bars_split in Heq as [Ht Hl]; [done| |].
      * rewrite Ht1. apply plain_no_bar.
        by destruct (canonical_title_shapes
                       (Analytics.clean (Analytics.astype_str (Analytics.csv_title row1))))
          as (_ & ? & _).
      * rewrite Ht2. apply plain_no_bar.
        by destruct (canonical_title_shapes
                       (Analytics.clean (Analytics.astype_str (Analytics.csv_title row2))))
          as (_ & ? & _).
    + by intros (-> & -> & ->).
Qed.

Lemma event_key_identity_witness :
  Analytics.event_key (Cases.evening_event "7:00 PM" "Masjid")
  = Analytics.event_key (Cases.evening_event "7:00 pm" "Gym").
Proof.
  apply (proj2 (event_key_identity
                  [Cases.evening "7:00 PM" (Some "Masjid");
                   Cases.evening "7:00 pm" (Some "c_Gym")]
                  (Cases.evening_event "7:00 PM" "Masjid")
                  (Cases.evening_event "7:00 pm" "Gym")
                  ltac:(vm_compute; apply list_elem_of_here)
                  ltac:(vm_compute; apply list_elem_of_further, list_elem_of_here))).
  - reflexivity.
  - reflexivity.
  - split_and!; reflexivity.
Defined.

(* ===================================================================== *)
(** ** Events, bookings and the yearly table *)
(* ===================================================================== *)

Section CountFacts.
Import Py Analytics.

Lemma dd_first_of_key {A K} `{EqDecision K} (key : A → K) (seen : list K)
    (l : list A) (k : K) :
  k ∈ (key <$> Pd.drop_duplicates key seen l) ↔ (k ∉ seen) ∧ k ∈ (key <$> l).
Proof.
  rewrite !list_elem_of_fmap. split.
  - intros (x & -> & [Hx Hn]%dd_elem_of). split; [done|]. by exists x.
  - intros [Hn (x & -> & Hx)].
    destruct (dd_covers key x seen l Hx Hn) as (y & Hy & Hk). by exists y.
Qed.

Lemma count_other {A K} `{EqDecision K} (key : A → K) (ks : list K) (x : A)
    (l : list A) :
  key x ∉ ks →
  sum_list ((λ k, length (filter (λ x, key x = k) (x :: l))) <$> ks)
  = sum_list ((λ k, length (filter (λ x, key x = k) l)) <$> ks).
Proof.
  induction ks as [|k ks IH]; intros Hk; [done|].
  rewrite !fmap_cons. simpl.
  rewrite filter_cons, decide_False by (intros Heq; apply Hk; rewrite Heq; by left).
  f_equal. apply IH. intros ?. apply Hk. by right.
Qed.

Lemma count_one {A K} `{EqDecision K} (key : A → K) (ks : list K) (x : A)
    (l : list A) :
  NoDup ks → key x ∈ ks →
  sum_list ((λ k, length (filter (λ x, key x = k) (x :: l))) <$> ks)
  = S (sum_list ((λ k, length (filter (λ x, key x = k) l)) <$> ks)).
Proof.
  induction ks as [|k ks IH]; intros Hnd Hin; [by apply elem_of_nil in Hin|].
  apply NoDup_cons in Hnd as [Hk Hnd]. rewrite !fmap_cons. simpl.
  rewrite filter_cons. destruct (decide (key x = k)) as [Heq|Hne].
  - simpl. f_equal. f_equal. apply count_other. by rewrite Heq.
  - apply elem_of_cons in Hin as [?|Hin]; [done|].
    rewrite (IH Hnd Hin). lia.
Qed.

(** Each element of a list is counted under exactly one key of a
    duplicate-free list of keys that holds its key. *)
Lemma count_by_key {A K} `{EqDecision K} (key : A → K) (ks : list K) (l : list A) :
  NoDup ks → (∀ x, x ∈ l → key x ∈ ks) →
  sum_list ((λ k, length (filter (λ x, key x = k) l)) <$> ks) = length l.
Proof.
  intros Hnd. induction l as [|x l IH]; intros Hin.
  - clear. induction ks as [|k ks IH]; [done|]. rewrite fmap_cons. simpl. apply IH.
  - rewrite count_one; [|done|apply Hin; by left]. simpl. f_equal.
    apply IH. intros y Hy. apply Hin. by right.
Qed.

Lemma years_NoDup (events : list Event) : NoDup (years events).
Proof.
  unfold years. rewrite sort_by_perm. apply NoDup_remove_dups.
Qed.

Lemma sum_list_Z (l : list nat) :
  foldr Z.add 0 (Z.of_nat <$> l) = Z.of_nat (sum_list l).
Proof.
  induction l as [|n l IH]; [done|]. rewrite fmap_cons.
  change (foldr Z.add 0 (?a :: ?r)) with (a + foldr Z.add 0 r). rewrite IH.
  change (sum_list (n :: l)) with (n + sum_list l)%nat. lia.
Qed.
End CountFacts.

Lemma venue_bookings_keys (df : list Analytics.Event) (k v : string) :
  (k, v) ∈ Analytics.booking_key <$> Analytics.venue_bookings df ↔
  v ≠ EmptyString
  ∧ ∃ e, e ∈ df ∧ Analytics.event_key e = k ∧ Analytics.location_code e = v.
Proof.
  unfold Analytics.venue_bookings.
  rewrite dd_first_of_key, list_elem_of_fmap. split.
  - intros [_ (e & Hk & [Hv He]%list_elem_of_filter)].
    unfold Analytics.booking_key in Hk. injection Hk as -> ->.
    split; [done|]. by exists e.
  - intros [Hv (e & He & <- & <-)]. split; [apply not_elem_of_nil|].
    exists e. split; [done|]. by apply list_elem_of_filter.
Qed.

(** X14. Venue bookings are exactly the pairs of an event and a named venue
    that occur in the loaded rows: a pair [(event_key, location_code)] is a
    booking if and only if the venue is not empty and some loaded row has
    that key and that venue; the row kept for a pair is the first such row;
    and every booking belongs to an event that is counted in
    [events_unique]. *)
Theorem venue_bookings_exact (df : list Analytics.Event) :
  (∀ k v, (k, v) ∈ Analytics.booking_key <$> Analytics.venue_bookings df ↔
          v ≠ EmptyString
          ∧ ∃ e, e ∈ df ∧ Analytics.event_key e = k ∧ Analytics.location_code e = v)
  ∧ Analytics.venue_bookings df `sublist_of` df
  ∧ (∀ b, b ∈ Analytics.venue_bookings df →
          ∃ u, u ∈ Analytics.events_unique df
               ∧ Analytics.event_key u = Analytics.event_key b)
  ∧ (∀ e, e ∈ df →
          ∃ u, u ∈ Analytics.events_unique df
               ∧ Analytics.event_key u = Analytics.event_key e).
Proof.
  assert (∀ e, e ∈ df →
               ∃ u, u ∈ Analytics.events_unique df
                    ∧ Analytics.event_key u = Analytics.event_key e) as Hev.
  { intros e He. apply dd_covers; [done|apply not_elem_of_nil]. }
  split_and!; [| | |done].
  - intros k v. apply venue_bookings_keys.
  - unfold Analytics.venue_bookings. etrans; [apply dd_sublist|].
    apply sublist_filter.
  - intros b Hb. apply Hev. unfold Analytics.venue_bookings in Hb.
    by apply dd_elem_of in Hb as [[_ ?]%list_elem_of_filter _].
Qed.

(** X15. The yearly table partitions the events: it has one row for each
    year in which an event falls, in increasing order of the year, every
    count is at least one, and the counts add up to the number of events. *)
Theorem yearly_counts_add_up (events : list Analytics.Event) :
  Sorted Z.lt (Analytics.yearly events).*1
  ∧ (∀ y, y ∈ (Analytics.yearly events).*1 ↔
          ∃ e, e ∈ events ∧ Analytics.year_int e = y)
  ∧ Forall (λ row, 1 ≤ row.2) (Analytics.yearly events)
  ∧ foldr Z.add 0 (Analytics.yearly events).*2 = Z.of_nat (length events).
Proof.
  rewrite yearly_fst. split_and!.
  - apply years_sorted.
  - apply years_elem_of.
  - apply yearly_positive.
  - unfold Analytics.yearly. rewrite <- list_fmap_compose.
    rewrite <- (count_by_key Analytics.year_int (Analytics.years events) events).
    + rewrite <- sum_list_Z, <- list_fmap_compose. done.
    + apply years_NoDup.
    + intros e He. apply years_elem_of. by exists e.
Qed.

Lemma venue_bookings_exact_witness :
  ("2021-05-21||family night||7:00 pm", "Gym")
  ∈ Analytics.booking_key
    <$> Analytics.venue_bookings [Cases.evening_event "7:00 PM" "Masjid";
                                  Cases.evening_event "7:00 pm" "Gym"].
Proof.
  apply (proj1 (venue_bookings_exact [Cases.evening_event "7:00 PM" "Masjid";
                                      Cases.evening_event "7:00 pm" "Gym"])).
  split; [discriminate|].
  exists (Cases.evening_event "7:00 pm" "Gym").
  split_and!; [apply list_elem_of_further, list_elem_of_here|reflexivity|reflexivity].
Defined.

(* ===================================================================== *)
(** ** From the canonical table to the analytics *)
(* ===================================================================== *)

Section TableFacts.
Import Py Analytics.

#[local] Abbreviation dateish :=
  (λ c : ascii, is_digit c || Ascii.eqb c "-").

Lemma all_chars_uint (u : Decimal.uint) :
  Shape.all_chars dateish (NilEmpty.string_of_uint u) = true.
Proof. induction u; simpl; done. Qed.

Lemma all_chars_zeros (n : nat) : Shape.all_chars dateish (zeros n) = true.
Proof.
  unfold zeros. induction (seq 0 n) as [|k l IH]; [done|]. simpl. apply IH.
Qed.

Lemma all_chars_format (w : nat) (n : Z) :
  Shape.all_chars dateish (format_0d w n) = true.
Proof.
  assert (Shape.all_chars dateish (NilZero.string_of_uint (N.to_uint (Z.abs_N n))) = true)
    as Hd.
  { unfold NilZero.string_of_uint. destruct (N.to_uint _) eqn:Hu; [done|..];
      rewrite <- Hu; apply all_chars_uint. }
  unfold format_0d. destruct (n <? 0).
  - change (Shape.all_chars dateish (String "-" ?s))
      with (Shape.all_chars dateish s).
    by rewrite all_chars_app, all_chars_zeros, Hd.
  - by rewrite all_chars_app, all_chars_zeros, Hd.
Qed.

Lemma all_chars_date (y m d : Z) :
  Shape.all_chars dateish
    (format_0d 4 y +:+ "-" +:+ format_0d 2 m +:+ "-" +:+ format_0d 2 d) = true.
Proof.
  rewrite !all_chars_app, !all_chars_format. done.
Qed.

Lemma spaced_no_space (b : bool) (s : string) :
  Shape.all_chars (λ c, negb (is_space c)) s = true → Shape.spaced b s = true.
Proof.
  revert b. induction s as [|c s IH]; intros b; [done|]. simpl.
  intros [Hc Hs]%andb_true_iff. apply negb_true_iff in Hc. rewrite Hc. by apply IH.
Qed.

Lemma last_char_no_space (prev : option ascii) (s : string) :
  from_option is_space false prev = false →
  Shape.all_chars (λ c, negb (is_space c)) s = true →
  from_option is_space false (last_char prev s) = false.
Proof.
  revert prev. induction s as [|c s IH]; intros prev Hp; [done|]. simpl.
  intros [Hc Hs]%andb_true_iff. apply IH; [|done]. by apply negb_true_iff in Hc.
Qed.

Lemma tidy_no_space (s : string) :
  Shape.all_chars (λ c, negb (is_space c)) s = true → Shape.tidy s = true.
Proof.
  intros Hs. unfold Shape.tidy, Shape.ends_with_space.
  by rewrite spaced_no_space, last_char_no_space.
Qed.

Lemma dateish_no_space (s : string) :
  Shape.all_chars dateish s = true →
  Shape.all_chars (λ c, negb (is_space c)) s = true.
Proof.
  apply all_chars_impl. intros c [Hc|Hc]%orb_true_iff.
  - apply is_digit_cases in Hc.
    repeat (apply elem_of_cons in Hc as [->|Hc]; [done|]).
    by apply elem_of_nil in Hc.
  - by apply Ascii.eqb_eq in Hc as ->.
Qed.

Lemma clean_date (y m d : Z) :
  let date := format_0d 4 y +:+ "-" +:+ format_0d 2 m +:+ "-" +:+ format_0d 2 d in
  Analytics.clean date = date.
Proof.
  intros date. apply clean_fixed, tidy_no_space, dateish_no_space, all_chars_date.
Qed.

Lemma is_year_not_na (s : string) :
  is_year (take_str 4 s) = true → s ∉ na_values.
Proof.
  intros Hy Hin. unfold na_values in Hin.
  repeat (apply elem_of_cons in Hin as [->|Hin]; [by vm_compute in Hy|]).
  by apply elem_of_nil in Hin.
Qed.

Lemma read_back_cases (s : string) :
  (s ∈ na_values ∧ astype_str (read_back (Some s)) = "nan")
  ∨ ((s ∉ na_values) ∧ astype_str (read_back (Some s)) = s).
Proof.
  unfold read_back. simpl. case_decide; [left|right]; done.
Qed.

Lemma canonical_title_clean (t : string) :
  canonical_title (Analytics.clean t) = canonical_title t.
Proof.
  unfold canonical_title. change Analytics.clean with Rebuild.clean.
  by rewrite (clean_fixed _ (clean_tidy t)).
Qed.

Lemma load_singleton (row : CsvRow) :
  load [row] = match load_row row with Some e => [e] | None => [] end.
Proof. done. Qed.

Lemma load_read_csv (table : list Rebuild.Row) (e : Event) :
  e ∈ load (read_csv table) ↔ ∃ r, r ∈ table ∧ load (read_csv [r]) = [e].
Proof.
  rewrite load_elem_of. unfold read_csv. split.
  - intros (row & (r & -> & Hr)%list_elem_of_fmap & He). exists r. split; [done|].
    rewrite list_fmap_singleton, load_singleton. by rewrite He.
  - intros (r & Hr & He). rewrite list_fmap_singleton, load_singleton in He.
    eexists. split; [by apply list_elem_of_fmap_2|].
    destruct (load_row _) as [e'|]; [|done]. by injection He as ->.
Qed.
End TableFacts.

(** X16. What the analytics reads from the canonical table. Every event it
    loads comes from a row of the table whose date, printed by the parser
    as [yyyy-mm-dd], it keeps unchanged: the file round trip and the second
    cleaning do not alter it. The year of that row is not negative; and
    when it has at most four digits the event is counted under that year
    and under the first seven characters of the date as its month. *)
Theorem analytics_reads_table (table : list Rebuild.Row) (e : Analytics.Event) :
  (∀ r, r ∈ table →
        ∃ y m d : Z, Rebuild.date r
                     = Py.format_0d 4 y +:+ "-" +:+ Py.format_0d 2 m
                       +:+ "-" +:+ Py.format_0d 2 d) →
  e ∈ Analytics.load (Analytics.read_csv table) →
  ∃ r (y m d : Z),
    r ∈ table
    ∧ Rebuild.date r
      = Py.format_0d 4 y +:+ "-" +:+ Py.format_0d 2 m +:+ "-" +:+ Py.format_0d 2 d
    ∧ Analytics.date e = Rebuild.date r
    ∧ Analytics.year_month e = Py.take_str 7 (Rebuild.date r)
    ∧ 0 ≤ y
    ∧ (y ≤ 9999 → Analytics.year_int e = y).
Proof.
  intros Hdates (r & Hr & He)%load_read_csv.
  destruct (Hdates r Hr) as (y & m & d & Hdate).
  exists r, y, m, d. split; [done|]. split; [done|].
  pose proof He as Hrow. unfold Analytics.read_csv in Hrow.
  rewrite list_fmap_singleton, load_singleton in Hrow.
  destruct (Analytics.load_row _) as [e'|] eqn:Hload; [|done].
  injection Hrow as ->.
  apply load_row_fields in Hload as (Hd & Hy & Hi & Hym & _).
  cbn [Analytics.csv_date] in Hd.
  assert (Analytics.date e = Rebuild.date r) as Hsame.
  { destruct (read_back_cases (Rebuild.date r)) as [[_ Hna]|[_ Hkeep]].
    - rewrite Hna in Hd. rewrite Hd in Hy. by vm_compute in Hy.
    - rewrite Hkeep, Hdate in Hd. rewrite clean_date in Hd. by rewrite Hdate. }
  assert (0 ≤ y) as Hpos.
  { destruct (decide (0 ≤ y)) as [|Hneg]; [done|].
    rewrite Hsame, Hdate in Hy.
    rewrite (date_negative_year y m d) in Hy by lia. done. }
  split_and!; [done| |done|].
  - by rewrite Hym, Hsame.
  - intros Hle. rewrite Hi, Hsame, Hdate.
    destruct (date_year_slice y m d) as (_ & _ & ->); [lia|done].
Qed.

Lemma analytics_reads_table_witness :
  ∃ r, r ∈ [Sample.friday_bare_row]
       ∧ Analytics.date Cases.friday_nan_event = Rebuild.date r
       ∧ Analytics.year_int Cases.friday_nan_event = 2021.
Proof.
  destruct (analytics_reads_table [Sample.friday_bare_row] Cases.friday_nan_event)
    as (r & y & m & d & Hr & Hfmt & Hd & _ & _ & Hy).
  - intros r Hr. apply list_elem_of_singleton in Hr as ->.
    exists 2021, 5, 21. reflexivity.
  - vm_compute. apply list_elem_of_here.
  - exists r. split; [exact Hr|]. split; [exact Hd|]. reflexivity.
Defined.

(** X17. A row of the canonical table that has no venue is not left out of
    the venue bookings: its empty cell is read back as a missing value,
    printed as the text [nan], and the row, once loaded, is booked at a
    venue of that name. *)
Theorem missing_venue_booked_as_nan (table : list Rebuild.Row) (r : Rebuild.Row)
    (e : Analytics.Event) :
  r ∈ table → Rebuild.location_code r = None →
  Analytics.load (Analytics.read_csv [r]) = [e] →
  Analytics.location_code e = "nan"
  ∧ e ∈ Analytics.load (Analytics.read_csv table)
  ∧ ∃ b, b ∈ Analytics.venue_bookings (Analytics.load (Analytics.read_csv table))
         ∧ Analytics.booking_key b = (Analytics.event_key e, "nan").
Proof.
  intros Hr Hloc He.
  assert (e ∈ Analytics.load (Analytics.read_csv table)) as Hin
    by (apply load_read_csv; eauto).
  assert (Analytics.location_code e = "nan") as Hnan.
  { unfold Analytics.read_csv in He.
    rewrite list_fmap_singleton, load_singleton in He.
    destruct (Analytics.load_row _) as [e'|] eqn:Hload; [|done].
    injection He as ->.
    apply load_row_fields in Hload as (_ & _ & _ & _ & _ & _ & Hl & _).
    cbn [Analytics.csv_location_code] in Hl. rewrite Hloc in Hl.
    rewrite Hl. reflexivity. }
  split_and!; [done..|].
  assert ((Analytics.event_key e, "nan")
          ∈ Analytics.booking_key
            <$> Analytics.venue_bookings (Analytics.load (Analytics.read_csv table)))
    as (b & Hb & Hin')%list_elem_of_fmap; [|by exists b].
  apply venue_bookings_keys. split; [discriminate|]. by exists e.
Qed.

Lemma missing_venue_booked_as_nan_witness :
  ∃ b, b ∈ Analytics.venue_bookings
             (Analytics.load (Analytics.read_csv [Sample.friday_bare_row]))
       ∧ Analytics.booking_key b = ("2021-05-21||friday prayer||1:00 pm", "nan").
Proof.
  apply (missing_venue_booked_as_nan [Sample.friday_bare_row] Sample.friday_bare_row
           Cases.friday_nan_event).
  - apply list_elem_of_here.
  - reflexivity.
  - vm_compute. reflexivity.
Defined.

(* ===================================================================== *)
(** ** The audit and the partitioner *)
(* ===================================================================== *)

Section AuditFacts.
Import Py HtmlAudit.

Lemma audit_classify_cases (html : string) :
  HtmlAudit.classify_html html
  = if contains "eventpopup .summary" (lower html) then "event_popup"
    else Manifests.classify_html html.
Proof.
  unfold HtmlAudit.classify_html, Manifests.classify_html. cbv zeta.
  destruct (contains (Manifests.attr "class" "eventpopup") (lower html));
    destruct (contains "eventpopup .summary" (lower html));
    destruct (contains (Manifests.attr "id" "eventsummary") (lower html)); done.
Qed.

Lemma classify_html_types (html : string) : HtmlAudit.classify_html html ∈ html_types.
Proof.
  unfold HtmlAudit.classify_html, html_types. cbv zeta.
  repeat (match goal with |- context [if ?b then _ else _] => destruct b end);
    repeat (first [apply list_elem_of_here|apply list_elem_of_further]).
Qed.

Lemma step_count_of (st : Report) (html t : string) :
  count_of (step st html) t
  = (count_of st t
     + (if decide (audited html ∧ HtmlAudit.classify_html html = t) then 1 else 0))%nat.
Proof.
  unfold step. case_decide as Hblank.
  - rewrite decide_False by (by intros [[? _] _]). unfold count_of. simpl. lia.
  - destruct (is_xml_doc html) eqn:Hxml.
    + rewrite decide_False by (intros [[_ ?] _]; congruence).
      unfold count_of. simpl. lia.
    + unfold count_of at 1. cbn [counts].
      destruct (decide (HtmlAudit.classify_html html = t)) as [->|Hne].
      * rewrite lookup_insert_eq, decide_True by done. simpl. lia.
      * rewrite lookup_insert_ne by done.
        rewrite decide_False by (by intros [_ ?]). unfold count_of. lia.
Qed.

Lemma step_skipped (st : Report) (html : string) :
  skipped_empty (step st html)
  = (skipped_empty st + (if decide (strip html = EmptyString) then 1 else 0))%nat
  ∧ skipped_xml (step st html)
    = (skipped_xml st
       + (if decide (strip html ≠ EmptyString ∧ is_xml_doc html = true)
          then 1 else 0))%nat.
Proof.
  unfold step. case_decide as Hblank.
  - rewrite decide_False by (by intros [? _]). simpl. lia.
  - destruct (is_xml_doc html) eqn:Hxml.
    + rewrite decide_True by done. simpl. lia.
    + rewrite decide_False by (by intros [_ ?]). simpl. lia.
Qed.

Lemma step_counts_keys (st : Report) (html t : string) :
  is_Some (counts (step st html) !! t) →
  is_Some (counts st !! t) ∨ t ∈ html_types.
Proof.
  unfold step. case_decide; [by left|].
  destruct (is_xml_doc html); [by left|]. cbn [counts].
  destruct (decide (HtmlAudit.classify_html html = t)) as [<-|Hne].
  - intros _. right. apply classify_html_types.
  - rewrite lookup_insert_ne by done. by left.
Qed.

Lemma foldl_step (l : list string) (st : Report) :
  (∀ t, count_of (foldl step st l) t
        = (count_of st t
           + length (filter (λ h, audited h ∧ HtmlAudit.classify_html h = t) l))%nat)
  ∧ skipped_empty (foldl step st l)
    = (skipped_empty st + length (filter (λ h, strip h = EmptyString) l))%nat
  ∧ skipped_xml (foldl step st l)
    = (skipped_xml st
       + length (filter (λ h, strip h ≠ EmptyString ∧ is_xml_doc h = true) l))%nat
  ∧ (∀ t, is_Some (counts (foldl step st l) !! t) →
          is_Some (counts st !! t) ∨ t ∈ html_types).
Proof.
  revert st. induction l as [|h l IH]; intros st.
  - simpl. split_and!; [intros; lia|lia|lia|by left].
  - simpl. destruct (IH (step st h)) as (Hc & He & Hx & Hk).
    destruct (step_skipped st h) as [He' Hx']. split_and!.
    + intros t. rewrite Hc, step_count_of, filter_cons.
      repeat case_decide; simpl in *; first [lia|tauto].
    + rewrite He, He', filter_cons.
      repeat case_decide; simpl in *; first [lia|tauto].
    + rewrite Hx, Hx', filter_cons.
      repeat case_decide; simpl in *; first [lia|tauto].
    + intros t [Hs|?]%Hk; [|by right]. by apply step_counts_keys in Hs.
Qed.

Lemma filter_three_ways (l : list string) :
  (length (filter audited l)
   + length (filter (λ h, strip h ≠ EmptyString ∧ is_xml_doc h = true) l)
   + length (filter (λ h, strip h = EmptyString) l) = length l)%nat.
Proof.
  induction l as [|h l IH]; [done|]. rewrite !filter_cons.
  destruct (decide (strip h = EmptyString)) as [Hb|Hb].
  - rewrite !decide_False by (by intros [? _]). simpl. lia.
  - destruct (is_xml_doc h) eqn:Hxml.
    + rewrite decide_False by (intros [_ ?]; congruence).
      rewrite decide_True by done. simpl. lia.
    + rewrite decide_True by done. rewrite decide_False by (by intros [_ ?]).
      simpl. lia.
Qed.

Lemma length_omap_filter {A B} (f : A → option B) (l : list A) :
  length (omap f l) = length (filter (λ x, is_Some (f x)) l).
Proof.
  induction l as [|x l IH]; [done|]. rewrite filter_cons.
  change (omap f (x :: l))
    with (match f x with Some y => y :: omap f l | None => omap f l end).
  destruct (f x) as [y|].
  - rewrite decide_True by eauto. simpl. by rewrite IH.
  - rewrite decide_False by (by intros [? ?]). done.
Qed.
End AuditFacts.

(** X18. The audit accounts for every file it reads: a file is counted as
    empty, as an XML document or under exactly one of six page types, the
    counts being those of the files of each kind, so that the counts and
    the two skip counters add up to the number of files. Its classifier is
    that of the partitioner except for pages that hold the text
    [eventpopup .summary], which only the audit takes for popups. Without a
    limit on the number of files, the files of the audit are the entries
    that the partitioner routes. *)
Theorem audit_accounts (read_text : string → option string)
    (get_qs : string → gmap string string) (max_files : Z)
    (manifest : list Manifests.Entry) :
  let fs := HtmlAudit.files read_text max_files manifest in
  let rep := HtmlAudit.audit read_text max_files manifest in
  let b := Manifests.partition read_text get_qs manifest in
  HtmlAudit.skipped_empty rep = length (filter (λ h, Py.strip h = EmptyString) fs)
  ∧ HtmlAudit.skipped_xml rep
    = length (filter (λ h, Py.strip h ≠ EmptyString ∧ HtmlAudit.is_xml_doc h = true) fs)
  ∧ (∀ t, HtmlAudit.count_of rep t
          = length (filter (λ h, HtmlAudit.audited h ∧ HtmlAudit.classify_html h = t) fs))
  ∧ (∀ t, is_Some (HtmlAudit.counts rep !! t) → t ∈ HtmlAudit.html_types)
  ∧ (sum_list (HtmlAudit.count_of rep <$> HtmlAudit.html_types)
     + HtmlAudit.skipped_xml rep + HtmlAudit.skipped_empty rep = length fs)%nat
  ∧ (∀ html, HtmlAudit.classify_html html
             = if Py.contains "eventpopup .summary" (Py.lower html)
               then "event_popup" else Manifests.classify_html html)
  ∧ (max_files ≤ 0 →
     (length fs
      = length (Manifests.month_block b) + length (Manifests.event_popup b)
        + length (Manifests.day_block b) + length (Manifests.other b))%nat).
Proof.
  intros fs rep b. subst rep. unfold HtmlAudit.audit. fold fs.
  destruct (foldl_step fs HtmlAudit.empty_report) as (Hc & He & Hx & Hk).
  split_and!.
  - by rewrite He.
  - by rewrite Hx.
  - intros t. by rewrite Hc.
  - intros t [Hs|?]%Hk; [|done]. simpl in Hs. rewrite lookup_empty in Hs.
    by destruct Hs.
  - assert (sum_list (HtmlAudit.count_of (foldl HtmlAudit.step HtmlAudit.empty_report fs)
                      <$> HtmlAudit.html_types)
            = length (filter HtmlAudit.audited fs)) as ->.
    { rewrite <- (count_by_key HtmlAudit.classify_html HtmlAudit.html_types
                    (filter HtmlAudit.audited fs)).
      - f_equal. apply list_fmap_ext. intros _ t _. rewrite Hc.
        change (HtmlAudit.count_of HtmlAudit.empty_report t) with 0%nat.
        rewrite list_filter_filter, Nat.add_0_l. f_equal.
        apply list_filter_iff. intros h. tauto.
      - apply (bool_decide_unpack _). by vm_compute.
      - intros h _. apply classify_html_types. }
    rewrite He, Hx. pose proof (filter_three_ways fs).
    change (HtmlAudit.skipped_xml HtmlAudit.empty_report) with 0%nat.
    change (HtmlAudit.skipped_empty HtmlAudit.empty_report) with 0%nat. lia.
  - apply audit_classify_cases.
  - intros Hmax. subst fs b. unfold HtmlAudit.files.
    rewrite (proj2 (Z.ltb_ge 0 max_files) Hmax), length_omap_filter.
    symmetry.
    change (Manifests.month_block ?x) with (Manifests.bucket "month_block" x).
    change (Manifests.event_popup ?x) with (Manifests.bucket "event_popup" x).
    change (Manifests.day_block ?x) with (Manifests.bucket "day_block" x).
    change (Manifests.other ?x) with (Manifests.bucket "other" x).
    rewrite !partition_bucket
      by (unfold Manifests.bucket_names;
          repeat (first [apply list_elem_of_here|apply list_elem_of_further])).
    apply filter_target_length.
Qed.

Lemma audit_accounts_witness :
  let data := [Sample.month_entry; Sample.empty_entry; Sample.missing_entry] in
  let b := Manifests.partition Sample.disk Sample.url_qs data in
  (length (HtmlAudit.files Sample.disk 0 data)
   = length (Manifests.month_block b) + length (Manifests.event_popup b)
     + length (Manifests.day_block b) + length (Manifests.other b))%nat.
Proof.
  intros data b.
  destruct (audit_accounts Sample.disk Sample.url_qs 0 data)
    as (_ & _ & _ & _ & _ & _ & Hsame).
  apply Hsame. lia.
Defined.

Section StableFacts.
Import Py Manifests.
Context (read_text : string → option string) (get_qs : string → gmap string string).

Lemma partition_app (name : string) (d1 d2 : list Entry) :
  name ∈ bucket_names →
  bucket name (partition read_text get_qs (d1 ++ d2))
  = bucket name (partition read_text get_qs d1)
    ++ bucket name (partition read_text get_qs d2).
Proof.
  intros Hn. rewrite !partition_bucket by done. apply filter_app.
Qed.

Lemma partition_again (name name' : string) (data : list Entry) :
  name ∈ bucket_names → name' ∈ bucket_names →
  bucket name' (partition read_text get_qs
                  (bucket name (partition read_text get_qs data)))
  = if decide (name' = name) then bucket name (partition read_text get_qs data)
    else [].
Proof.
  intros Hn Hn'. rewrite !partition_bucket by done. case_decide as Heq.
  - subst name'. apply filter_all. by intros it [? _]%list_elem_of_filter.
  - apply filter_none. intros it [Ht _]%list_elem_of_filter Ht'. congruence.
Qed.
End StableFacts.

(** X19. The sub-manifests keep the manifest as it is. Each of the four
    lists holds its entries in the order of the manifest, an entry listed
    twice being routed twice; the partition of two manifests put one after
    the other is the partition of each, list by list; and a sub-manifest
    that is partitioned again, the files being the same, comes back whole
    in its own list and leaves the other three empty. *)
Theorem partition_stable (read_text : string → option string)
    (get_qs : string → gmap string string) (data more : list Manifests.Entry)
    (name : string) :
  name ∈ Manifests.bucket_names →
  let part := Manifests.partition read_text get_qs in
  Manifests.bucket name (part data)
  = filter (λ it, Manifests.target read_text get_qs it = Some name) data
  ∧ Manifests.bucket name (part data) `sublist_of` data
  ∧ Manifests.bucket name (part (data ++ more))
    = Manifests.bucket name (part data) ++ Manifests.bucket name (part more)
  ∧ Manifests.bucket name (part (Manifests.bucket name (part data)))
    = Manifests.bucket name (part data)
  ∧ (∀ name', name' ∈ Manifests.bucket_names → name' ≠ name →
              Manifests.bucket name' (part (Manifests.bucket name (part data))) = []).
Proof.
  intros Hn part. subst part. split_and!.
  - by apply partition_bucket.
  - rewrite partition_bucket by done. apply sublist_filter.
  - by apply partition_app.
  - rewrite partition_again by done. by rewrite decide_True.
  - intros name' Hn' Hne. rewrite partition_again by done. by rewrite decide_False.
Qed.

Lemma partition_stable_witness :
  let part := Manifests.partition Sample.disk Sample.url_qs in
  let data := [Sample.month_entry; Sample.empty_entry; Sample.month_entry] in
  Manifests.other (part (Manifests.month_block (part data))) = [].
Proof.
  intros part data.
  apply (proj2 (proj2 (proj2 (proj2
           (partition_stable Sample.disk Sample.url_qs data [] "month_block"
              ltac:(apply list_elem_of_here))))) "other").
  - do 3 apply list_elem_of_further. apply list_elem_of_here.
  - discriminate.
Defined.

(* ===================================================================== *)
(** ** File names of the downloader *)
(* ===================================================================== *)

Section FilenameFacts.
Import Py Download.

Lemma sub_unsafe_safe (b : bool) (s : string) :
  Shape.all_chars is_safe (sub_unsafe b s) = true.
Proof.
  revert b. induction s as [|c s IH]; intros b; [done|]. simpl.
  destruct (is_safe c) eqn:Hc; simpl; [by rewrite Hc, IH|].
  destruct b; simpl; apply IH.
Qed.

Lemma sub_unsafe_id (b : bool) (s : string) :
  Shape.all_chars is_safe s = true → sub_unsafe b s = s.
Proof.
  revert b. induction s as [|c s IH]; intros b; [done|]. simpl.
  intros [Hc Hs]%andb_true_iff. by rewrite Hc, IH.
Qed.

Lemma all_chars_take (p : ascii → bool) (n : nat) (s : string) :
  Shape.all_chars p s = true → Shape.all_chars p (take_str n s) = true.
Proof.
  revert n. induction s as [|c s IH]; intros [|n]; simpl; try done.
  intros [Hc Hs]%andb_true_iff. by rewrite Hc, IH.
Qed.

Lemma length_take_str (n : nat) (s : string) :
  (String.length (take_str n s) ≤ n)%nat.
Proof.
  revert s. induction n as [|n IH]; intros [|c s]; simpl; try lia.
  specialize (IH s). lia.
Qed.

Lemma take_str_id (n : nat) (s : string) :
  (String.length s ≤ n)%nat → take_str n s = s.
Proof.
  revert n. induction s as [|c s IH]; intros [|n]; simpl; try done; try lia.
  intros Hn. rewrite IH by lia. done.
Qed.

Lemma safe_not_separator (c : ascii) :
  is_safe c = true → negb (Ascii.eqb c "/") = true.
Proof. destruct (Ascii.eqb_spec c "/") as [->|]; [by vm_compute|done]. Qed.
End FilenameFacts.

(** X20. The file name that the downloader makes of a URL holds only
    letters, digits, dots, underscores and hyphens, so no path separator,
    and at most 180 characters; a name that is already of this kind is kept,
    and making a name of a name changes nothing. *)
Theorem safe_filename_safe (s : string) :
  Shape.all_chars Download.is_safe (Download.safe_filename s) = true
  ∧ Shape.all_chars (λ c, negb (Ascii.eqb c "/")) (Download.safe_filename s) = true
  ∧ (String.length (Download.safe_filename s) ≤ 180)%nat
  ∧ (Shape.all_chars Download.is_safe s = true → (String.length s ≤ 180)%nat →
     Download.safe_filename s = s)
  ∧ Download.safe_filename (Download.safe_filename s) = Download.safe_filename s.
Proof.
  assert (Shape.all_chars Download.is_safe (Download.safe_filename s) = true) as Hsafe.
  { apply all_chars_take, sub_unsafe_safe. }
  assert (∀ t, Shape.all_chars Download.is_safe t = true → (String.length t ≤ 180)%nat →
               Download.safe_filename t = t) as Hid.
  { intros t Ht Hl. unfold Download.safe_filename.
    by rewrite sub_unsafe_id, take_str_id. }
  split_and!; [done| |apply length_take_str|apply Hid|].
  - revert Hsafe. apply all_chars_impl, safe_not_separator.
  - apply Hid; [done|apply length_take_str].
Qed.

Lemma safe_filename_safe_witness :
  Download.safe_filename "Calcium40.php" = "Calcium40.php".
Proof.
  destruct (safe_filename_safe "Calcium40.php") as (_ & _ & _ & Hid & _).
  apply Hid; [reflexivity|simpl; lia].
Defined.

(* ===================================================================== *)
(** ** Escaping *)
(* ===================================================================== *)

Section EscapeFacts.
Import Py Site.

Lemma html_escape_cons (a : ascii) (r : string) :
  html_escape (String a r) = entity a +:+ html_escape r.
Proof.
  unfold html_escape, entity.
  destruct (Ascii.eqb_spec a "&") as [->|Hamp]; [done|].
  destruct (Ascii.eqb_spec a "<") as [->|Hlt]; [done|].
  destruct (Ascii.eqb_spec a ">") as [->|Hgt]; [done|].
  destruct (Ascii.eqb_spec a dquote) as [->|Hdq]; [done|].
  apply Ascii.eqb_neq in Hamp, Hlt, Hgt, Hdq.
  cbn [replace_char]. rewrite Hamp. cbn [replace_char]. rewrite Hlt.
  cbn [replace_char]. rewrite Hgt. cbn [replace_char]. by rewrite Hdq.
Qed.

Lemma html_escape_entities (s : string) : html_escape s = entities s.
Proof.
  induction s as [|a r IH]; [done|]. by rewrite html_escape_cons, IH.
Qed.

Lemma entity_cases (c : ascii) :
  (c = "&"%char ∧ entity c = "&amp;") ∨ (c = "<"%char ∧ entity c = "&lt;")
  ∨ (c = ">"%char ∧ entity c = "&gt;") ∨ (c = dquote ∧ entity c = "&quot;")
  ∨ (c ≠ "&"%char ∧ c ≠ "<"%char ∧ c ≠ ">"%char ∧ c ≠ dquote
     ∧ entity c = String c EmptyString).
Proof.
  unfold entity.
  destruct (Ascii.eqb_spec c "&") as [->|Hamp]; [by left|].
  destruct (Ascii.eqb_spec c "<") as [->|Hlt]; [by right; left|].
  destruct (Ascii.eqb_spec c ">") as [->|Hgt]; [by right; right; left|].
  destruct (Ascii.eqb_spec c dquote) as [->|Hdq]; [by right; right; right; left|].
  by right; right; right; right.
Qed.

Lemma entities_markup_free (s : string) : markup_free (entities s) = true.
Proof.
  unfold markup_free. induction s as [|c s IH]; [done|].
  cbn [entities]. rewrite all_chars_app, IH, andb_true_r.
  destruct (entity_cases c) as [[_ ->]|[[_ ->]|[[_ ->]|[[_ ->]|(_ & Hlt & Hgt & Hdq & ->)]]]];
    try done.
  simpl. apply Ascii.eqb_neq in Hlt, Hgt, Hdq. by rewrite Hlt, Hgt, Hdq.
Qed.

Lemma entities_inj (s t : string) : entities s = entities t → s = t.
Proof.
  revert t. induction s as [|a s IH]; intros [|b t]; cbn [entities].
  - done.
  - destruct (entity_cases b) as [[_ ->]|[[_ ->]|[[_ ->]|[[_ ->]|(_ & _ & _ & _ & ->)]]]];
      done.
  - destruct (entity_cases a) as [[_ ->]|[[_ ->]|[[_ ->]|[[_ ->]|(_ & _ & _ & _ & ->)]]]];
      done.
  - destruct (entity_cases a)
      as [[-> ->]|[[-> ->]|[[-> ->]|[[-> ->]|(Ha1 & Ha2 & Ha3 & Ha4 & ->)]]]];
      destruct (entity_cases b)
        as [[-> ->]|[[-> ->]|[[-> ->]|[[-> ->]|(Hb1 & Hb2 & Hb3 & Hb4 & ->)]]]];
      simpl; intros Heq; simplify_eq; try done; f_equal; by apply IH.
Qed.

Lemma entities_id (s : string) :
  Shape.all_chars
    (λ c, negb (Ascii.eqb c "&" || Ascii.eqb c "<" || Ascii.eqb c ">"
                || Ascii.eqb c dquote)) s = true →
  entities s = s.
Proof.
  induction s as [|c s IH]; [done|]. simpl.
  intros [Hc Hs]%andb_true_iff. rewrite (IH Hs).
  apply negb_true_iff in Hc. unfold entity.
  destruct (Ascii.eqb c "&"), (Ascii.eqb c "<"), (Ascii.eqb c ">"),
    (Ascii.eqb c dquote); done.
Qed.
End EscapeFacts.

(** X21. The escaping that build_board_site.py applies to text before
    putting it into a page leaves no [<], [>] or double quote in it, so the
    text can neither open nor close markup or a quoted attribute; it loses
    nothing, two different texts having different escaped forms; it
    replaces character by character, the ampersands that it writes not
    being escaped again; and it keeps a text without the four characters
    as it is. *)
Theorem html_escape_safe (s t : string) :
  Site.markup_free (Site.html_escape s) = true
  ∧ (Site.html_escape s = Site.html_escape t → s = t)
  ∧ Site.html_escape s = Site.entities s
  ∧ (Shape.all_chars
       (λ c, negb (Ascii.eqb c "&" || Ascii.eqb c "<" || Ascii.eqb c ">"
                   || Ascii.eqb c Site.dquote)) s = true →
     Site.html_escape s = s).
Proof.
  rewrite !html_escape_entities. split_and!.
  - apply entities_markup_free.
  - apply entities_inj.
  - done.
  - apply entities_id.
Qed.

Lemma html_escape_safe_witness :
  Site.html_escape "Family Night" = "Family Night".
Proof.
  destruct (html_escape_safe "Family Night" EmptyString) as (_ & _ & _ & Hid).
  apply Hid. reflexivity.
Defined.

(* ===================================================================== *)
(** ** The guess of the page type *)
(* ===================================================================== *)

(** X22. The page type that eda_wayback_links.py guesses from a URL is one
    of eight names, the first test that holds deciding: a URL that mentions
    [calcium] is never a month view, whatever else it holds. The calendar
    subset that [main] selects by searching [calendar] in the guess holds
    exactly the URLs that mention [calcium] or [calendar]. *)
Theorem classify_url_calendar (original_url : string) :
  let u := Py.lower original_url in
  Eda.classify_url original_url ∈ Eda.page_types
  ∧ Eda.in_calendar_df original_url
    = Py.contains "calcium" u || Py.contains "calendar" u
  ∧ (Eda.classify_url original_url = "calendar_month_view" ↔
     Py.contains "calcium" u = false ∧ Py.contains "calendar" u = true
     ∧ Py.contains "type=block" u = true).
Proof.
  intros u. unfold Eda.in_calendar_df, Eda.classify_url, Eda.page_types. fold u.
  destruct (Py.contains "calcium" u), (Py.contains "calendar" u),
    (Py.contains "type=block" u), (Py.contains "rss" u), (Py.contains "feed" u),
    (Py.contains "sitemap" u), (Eda.endswith ".xml" u), (Eda.endswith ".php" u);
    (split_and!;
     [repeat (first [apply list_elem_of_here|apply list_elem_of_further])
     |reflexivity
     |split; [intros Heq; try discriminate Heq; done|intros (? & ? & ?); done]]).
Qed.

(* ===================================================================== *)
(** ** The manifest of the downloader *)
(* ===================================================================== *)

Section DownloadFacts.
Import Py Download.
Context (str_path : string → string → string).

Lemma entry_of_mono (disk disk' : gmap string string) (e : Entry)
    (cf : Capture * (string + string)) :
  disk ⊆ disk' → entry_of str_path disk e cf → entry_of str_path disk' e cf.
Proof.
  intros Hsub (Ht & Ho & Hs & Hp). split_and!; [done..|].
  destruct Hp as [(Hp & He & [html Hd])|?]; [left|by right].
  split_and!; [done..|]. exists html. by eapply lookup_weaken.
Qed.

Lemma step_spec (disk : gmap string string) (manifest : list Entry)
    (cf : Capture * (string + string)) :
  ∃ disk' e, step str_path (disk, manifest) cf = (disk', manifest ++ [e])
             ∧ disk ⊆ disk' ∧ entry_of str_path disk' e cf.
Proof.
  destruct cf as [c fetched]. unfold step.
  destruct (decide (is_Some (disk !! target_path str_path c))) as [Hex|Hnew].
  - eexists _, _. split; [done|]. split; [done|].
    split_and!; [done..|]. left. done.
  - assert (disk !! target_path str_path c = None) as Hnone.
    { destruct (disk !! target_path str_path c) eqn:Hd; [|done].
      exfalso. apply Hnew. eauto. }
    destruct fetched as [html|msg].
    + eexists _, _. split; [done|]. split; [by apply insert_subseteq|].
      split_and!; [done..|]. left. split_and!; [done..|].
      simpl. rewrite lookup_insert_eq. eauto.
    + eexists _, _. split; [done|]. split; [done|].
      split_and!; [done..|]. right. split; [done|]. by exists msg.
Qed.

Lemma foldl_step_spec (caps : list (Capture * (string + string)))
    (disk : gmap string string) (manifest : list Entry) :
  ∃ disk' new, foldl (step str_path) (disk, manifest) caps = (disk', manifest ++ new)
               ∧ disk ⊆ disk'
               ∧ Forall2 (entry_of str_path disk') new caps.
Proof.
  revert disk manifest. induction caps as [|cf caps IH]; intros disk manifest.
  - exists disk, []. by rewrite app_nil_r.
  - destruct (step_spec disk manifest cf) as (disk1 & e & Hstep & Hsub & He).
    destruct (IH disk1 (manifest ++ [e])) as (disk' & new & Hrun & Hsub' & Hall).
    exists disk', (e :: new).
    change (foldl ?f ?a (?x :: ?l)) with (foldl f (f a x) l).
    rewrite Hstep, Hrun, <- app_assoc.
    split_and!; [done|by etrans|].
    constructor; [by eapply entry_of_mono|done].
Qed.
End DownloadFacts.

(** X23. The manifest that the downloader writes. It has one entry for
    each capture, in the order of the index, with the timestamp, the URL
    and the snapshot address of that capture. An entry either names the
    file of the capture, which is then on disk, or has an empty path and
    the message of the failed download. Files that were on disk before the
    run are still there with their text: a run never fetches a capture
    again. And the partitioner, reading this manifest on this disk, skips
    exactly the entries with an empty path. *)
Theorem download_manifest (str_path : string → string → string)
    (disk : gmap string string)
    (caps : list (Download.Capture * (string + string))) :
  let disk' := (Download.run str_path disk caps).1 in
  let manifest := (Download.run str_path disk caps).2 in
  Forall2 (Download.entry_of str_path disk') manifest caps
  ∧ length manifest = length caps
  ∧ disk ⊆ disk'
  ∧ (∀ e, e ∈ manifest →
          Manifests.existing_file (λ p, disk' !! p) (Download.as_read e) = None
          ↔ Download.path e = EmptyString).
Proof.
  cbv zeta. unfold Download.run.
  destruct (foldl_step_spec str_path caps disk []) as (disk' & new & -> & Hsub & Hall).
  simpl. split_and!; [done|by eapply Forall2_length|done|].
  intros e He. unfold Manifests.existing_file, Download.as_read. simpl.
  destruct (Download.path e) as [|c p] eqn:Hp; [done|]. simpl.
  split; [|done]. intros Hnone. exfalso.
  apply list_elem_of_lookup in He as [i Hi].
  destruct (Forall2_lookup_l _ _ _ i e Hall Hi) as (cf & _ & (_ & _ & _ & Hcase)).
  destruct Hcase as [(_ & _ & [html Hd])|[Hempty _]].
  - rewrite Hp in Hd. congruence.
  - congruence.
Qed.

Lemma download_manifest_witness :
  let caps := [(Cases.month_capture, inl Sample.month_page);
               (Cases.later_capture, inr "HTTP 503")] in
  Manifests.existing_file (λ p, (Download.run Cases.flat_path ∅ caps).1 !! p)
    (Download.as_read Cases.failed_entry) = None.
Proof.
  intros caps.
  apply (proj2 (proj2 (proj2 (download_manifest Cases.flat_path ∅ caps)))
           Cases.failed_entry).
  - vm_compute. apply list_elem_of_further, list_elem_of_here.
  - reflexivity.
Defined.

Lemma clean_idempotent_witness :
  Rebuild.clean "Friday Prayer" = "Friday Prayer".
Proof.
  destruct (clean_idempotent "Friday Prayer") as (_ & Hfix & _).
  apply Hfix. reflexivity.
Defined.

(* ===================================================================== *)
(** ** Reading a date *)
(* ===================================================================== *)

Section ParseFacts.
Import Py.

Lemma split_app (a b : string) :
  Shape.all_chars (λ c, negb (Ascii.eqb c "/")) a = true →
  split "/" (a +:+ "/" +:+ b) = a :: split "/" b.
Proof.
  induction a as [|c a IH]; [done|]. simpl.
  intros [Hc Ha]%andb_true_iff. apply negb_true_iff in Hc. rewrite Hc.
  by rewrite (IH Ha).
Qed.

Lemma split_whole (a : string) :
  Shape.all_chars (λ c, negb (Ascii.eqb c "/")) a = true → split "/" a = [a].
Proof.
  induction a as [|c a IH]; [done|]. simpl.
  intros [Hc Ha]%andb_true_iff. apply negb_true_iff in Hc. rewrite Hc.
  by rewrite (IH Ha).
Qed.

Lemma string_app_assoc (a b c : string) : (a +:+ b) +:+ c = a +:+ b +:+ c.
Proof.
  induction a as [|x a IH]; [done|].
  change (String x ((a +:+ b) +:+ c) = String x (a +:+ b +:+ c)). by rewrite IH.
Qed.

Lemma decimal_check :
  forallb (λ n, let s := Shape.decimal (Z.of_nat n) in
                Shape.all_chars (λ c, negb (Ascii.eqb c "/")) s
                && bool_decide (Py.int s = Some (Z.of_nat n)))
          (seq 0 (Z.to_nat 10000)) = true.
Proof. vm_compute. reflexivity. Qed.

Lemma decimal_int (n : Z) :
  0 ≤ n ≤ 9999 →
  Shape.all_chars (λ c, negb (Ascii.eqb c "/")) (Shape.decimal n) = true
  ∧ Py.int (Shape.decimal n) = Some n.
Proof.
  intros Hn. pose proof decimal_check as Hall.
  rewrite forallb_forall in Hall. specialize (Hall (Z.to_nat n)).
  rewrite Z2Nat.id in Hall by lia. cbv zeta in Hall.
  assert (In (Z.to_nat n) (seq 0 (Z.to_nat 10000))) as Hin by (apply in_seq; lia).
  apply Hall in Hin. apply andb_true_iff in Hin as [Hs Hi].
  split; [done|by apply bool_decide_eq_true in Hi].
Qed.
End ParseFacts.

(** X24. Reading a date back. A date written with three plain decimal
    numbers between slashes, each from 0 to 9999, is read by
    [parse_date_str] of both scripts as the date [yyyy-mm-dd] of these
    numbers, padded with zeros; whatever follows a further slash is
    ignored; and a text with fewer than two slashes gives no date. *)
Theorem parse_date_str_reads (y m d : Z) (more : string) :
  0 ≤ y ≤ 9999 → 0 ≤ m ≤ 9999 → 0 ≤ d ≤ 9999 →
  let text := Shape.decimal y +:+ "/" +:+ Shape.decimal m +:+ "/" +:+ Shape.decimal d in
  let date := Py.format_0d 4 y +:+ "-" +:+ Py.format_0d 2 m
              +:+ "-" +:+ Py.format_0d 2 d in
  Rebuild.parse_date_str text = Some date
  ∧ Extract.parse_date_str text = Some date
  ∧ Rebuild.parse_date_str (text +:+ "/" +:+ more) = Some date
  ∧ Rebuild.parse_date_str (Shape.decimal y +:+ "/" +:+ Shape.decimal m) = None
  ∧ Rebuild.parse_date_str (Shape.decimal y) = None.
Proof.
  intros Hy Hm Hd text date.
  destruct (decimal_int y Hy) as [Hsy Hiy].
  destruct (decimal_int m Hm) as [Hsm Him].
  destruct (decimal_int d Hd) as [Hsd Hid].
  assert (Rebuild.parse_date_str text = Some date) as Hparse.
  { subst text. unfold Rebuild.parse_date_str.
    rewrite (split_app _ _ Hsy), (split_app _ _ Hsm), (split_whole _ Hsd).
    by rewrite Hiy, Him, Hid. }
  split_and!; [done|done| | |].
  - subst text. unfold Rebuild.parse_date_str.
    rewrite !string_app_assoc.
    rewrite (split_app _ _ Hsy), (split_app _ _ Hsm), (split_app _ _ Hsd).
    by rewrite Hiy, Him, Hid.
  - unfold Rebuild.parse_date_str.
    by rewrite (split_app _ _ Hsy), (split_whole _ Hsm).
  - unfold Rebuild.parse_date_str. by rewrite (split_whole _ Hsy).
Qed.

Lemma parse_date_str_reads_witness :
  Rebuild.parse_date_str "2021/5/21" = Some "2021-05-21".
Proof.
  apply (parse_date_str_reads 2021 5 21 EmptyString); lia.
Defined.

(* ===================================================================== *)
(** ** Canonical titles are fixed points *)
(* ===================================================================== *)

Section HostFacts.
Import Py Host.

Lemma space_not_word (c : ascii) : is_space c = true → is_word c = false.
Proof. destruct c as [[] [] [] [] [] [] [] []]; by vm_compute. Qed.

Lemma step_nonword (st : state) (c : ascii) :
  is_word c = false →
  step st c = match st with Ht => None | _ => Some Gap end.
Proof. unfold step. by intros ->. Qed.

Lemma step_agrees (st st' : state) (c : ascii) :
  step st c = Some st' → agrees st' (Some c) = true.
Proof.
  unfold step. destruct (is_word c) eqn:Hw.
  - intros [= <-]. destruct st; repeat case_match; simpl; by rewrite Hw.
  - destruct st; intros [= <-]; simpl; by rewrite Hw.
Qed.

Lemma free_sub_spaces (s : string) :
  (∀ st, free st (sub_spaces false s) = free st s)
  ∧ free Gap (sub_spaces true s) = free Gap s.
Proof.
  induction s as [|c r [IH1 IH2]]; [done|]. simpl.
  destruct (is_space c) eqn:Hc.
  - pose proof (space_not_word c Hc) as Hw.
    assert (is_word space = false) as Hsp by reflexivity.
    split.
    + intros st. simpl. rewrite (step_nonword st c Hw), (step_nonword st space Hsp).
      destruct st; by rewrite ?IH2.
    + by rewrite (step_nonword Gap c Hw), IH2.
  - split.
    + intros st. simpl. destruct (step st c); [apply IH1|done].
    + simpl. destruct (step Gap c); [apply IH1|done].
Qed.

Lemma free_sub_punct (st : state) (s : string) :
  free st (sub_punct " " s) = free st s.
Proof.
  revert st. induction s as [|c r IH]; intros st; [done|]. simpl.
  destruct (is_word c || is_space c) eqn:Hc.
  - simpl. destruct (step st c); [apply IH|done].
  - apply orb_false_iff in Hc as [Hw _].
    change (" " +:+ sub_punct " " r) with (String " " (sub_punct " " r)).
    simpl. rewrite (step_nonword st c Hw), (step_nonword st " " eq_refl).
    destruct st; by rewrite ?IH.
Qed.

Lemma free_lstrip (s : string) :
  free Gap (lstrip_by is_space s) = free Gap s.
Proof.
  induction s as [|c r IH]; [done|]. simpl.
  destruct (is_space c) eqn:Hc; [|done].
  by rewrite (step_nonword Gap c (space_not_word c Hc)).
Qed.

Lemma free_rstrip (st : state) (s : string) :
  free st (rstrip_by is_space s) = free st s.
Proof.
  revert st. induction s as [|c r IH]; intros st; [done|].
  cbn [rstrip_by].
  destruct (rstrip_by is_space r) as [|c' r'] eqn:Hr.
  - destruct (is_space c) eqn:Hc.
    + simpl. rewrite (step_nonword st c (space_not_word c Hc)).
      destruct st; try done; by rewrite <- IH.
    + simpl. destruct (step st c) as [st'|]; [|done]. by rewrite <- IH.
  - simpl. destruct (step st c) as [st'|]; [|done]. by rewrite <- IH.
Qed.

Lemma free_strip (s : string) : free Gap (strip s) = free Gap s.
Proof. unfold strip. by rewrite free_rstrip, free_lstrip. Qed.

Lemma rest_of_line_no_newline (s : string) :
  no_newline s = true → Analytics.rest_of_line s = Some EmptyString.
Proof.
  unfold no_newline. induction s as [|c r IH]; [done|]. simpl.
  intros [Hc Hr]%andb_true_iff. apply negb_true_iff in Hc. rewrite Hc. by apply IH.
Qed.

Lemma word_at_host (prev : option ascii) (s : string) :
  word_at false "host" prev s
  = boundary prev s && startswith "host" s
    && boundary (Some "t"%char) (drop_str 4 s).
Proof. done. Qed.

Lemma sub_host_nil (prev : option ascii) :
  Analytics.sub_host prev EmptyString = EmptyString.
Proof.
  rewrite sub_host_unfold, word_at_host. cbn [startswith].
  by rewrite andb_false_r.
Qed.

Lemma agrees_Gap (st : state) (prev : option ascii) :
  agrees st prev = true → is_word_opt prev = false → st = Gap.
Proof. destruct st; simpl; intros H1 H2; [done|..]; by rewrite H2 in H1. Qed.

(** A match at the start of the text is one that the scan completes. *)
Lemma word_at_not_free (st : state) (prev : option ascii) (s : string) :
  agrees st prev = true → word_at false "host" prev s = true → free st s = false.
Proof.
  intros Hag. rewrite word_at_host.
  intros [[Hb Hs]%andb_true_iff Hafter]%andb_true_iff.
  destruct s as [|c1 [|c2 [|c3 [|c4 r]]]]; cbn [startswith] in Hs;
    try (by rewrite ?andb_false_r in Hs).
  apply andb_true_iff in Hs as [H1%Ascii.eqb_eq Hs].
  apply andb_true_iff in Hs as [H2%Ascii.eqb_eq Hs].
  apply andb_true_iff in Hs as [H3%Ascii.eqb_eq Hs].
  apply andb_true_iff in Hs as [H4%Ascii.eqb_eq _].
  subst c1 c2 c3 c4.
  assert (st = Gap) as ->.
  { apply (agrees_Gap st prev Hag). unfold boundary in Hb.
    cbn [head_char is_word_opt from_option] in Hb.
    change (is_word "h") with true in Hb. by destruct (is_word_opt prev). }
  change (free Gap (String "h" (String "o" (String "s" (String "t" r)))))
    with (free Ht r).
  change (drop_str 4 (String "h" (String "o" (String "s" (String "t" r)))))
    with r in Hafter.
  unfold boundary in Hafter. change (is_word_opt (Some "t"%char)) with true in Hafter.
  destruct r as [|d r]; [done|]. simpl in Hafter. simpl.
  apply negb_true_iff in Hafter. by rewrite (step_nonword Ht d Hafter).
Qed.

Lemma sub_host_fixed (s : string) (st : state) (prev : option ascii) :
  agrees st prev = true → free st s = true → Analytics.sub_host prev s = s.
Proof.
  revert st prev. induction s as [|c r IH]; intros st prev Hag Hfree;
    [apply sub_host_nil|].
  rewrite sub_host_unfold.
  destruct (word_at false "host" prev (String c r)) eqn:Hw.
  { rewrite (word_at_not_free st prev _ Hag Hw) in Hfree. done. }
  f_equal. simpl in Hfree. destruct (step st c) as [st'|] eqn:Hstep; [|done].
  apply (IH st'); [by eapply step_agrees|done].
Qed.

(** One more character read without a match leaves a state whose word does
    not become a match later. *)
Lemma step_pending (st st' : state) (prev : option ascii) (c : ascii) (r : string) :
  agrees st prev = true → pending st (String c r) = true →
  word_at false "host" prev (String c r) = false →
  step st c = Some st' → pending st' r = true.
Proof.
  intros Hag Hp Hw. unfold step. destruct (is_word c) eqn:Hc.
  - intros [= <-]. destruct st; try done.
    + destruct (Ascii.eqb_spec c "h") as [->|]; [|done].
      rewrite word_at_host in Hw. simpl in Hag. apply negb_true_iff in Hag.
      change (boundary prev (String "h" r)) with (xorb (is_word_opt prev) true) in Hw.
      change (startswith "host" (String "h" r)) with (startswith "ost" r) in Hw.
      change (drop_str 4 (String "h" r)) with (drop_str 3 r) in Hw.
      rewrite Hag in Hw. cbn [xorb] in Hw. rewrite andb_true_l in Hw.
      unfold pending. by rewrite Hw.
    + destruct (Ascii.eqb_spec c "o") as [->|]; [|done]. exact Hp.
    + destruct (Ascii.eqb_spec c "s") as [->|]; [|done]. exact Hp.
    + destruct (Ascii.eqb_spec c "t") as [->|]; [|done]. exact Hp.
  - destruct st; intros [= <-]; done.
Qed.

Lemma step_defined (st : state) (c : ascii) (r : string) :
  pending st (String c r) = true → is_Some (step st c).
Proof.
  unfold step. destruct (is_word c) eqn:Hc; [eauto|].
  destruct st; eauto. simpl. unfold boundary. simpl. by rewrite Hc.
Qed.

Lemma sub_host_free (s : string) (st : state) (prev : option ascii) :
  no_newline s = true → agrees st prev = true → pending st s = true →
  free st (Analytics.sub_host prev s) = true.
Proof.
  revert st prev. induction s as [|c r IH]; intros st prev Hnl Hag Hp.
  - rewrite sub_host_nil. by destruct st.
  - rewrite sub_host_unfold.
    destruct (word_at false "host" prev (String c r)) eqn:Hw.
    + rewrite rest_of_line_no_newline by (by apply all_chars_drop).
      assert (st = Gap) as ->; [|done].
      apply (agrees_Gap st prev Hag). rewrite word_at_host in Hw.
      apply andb_true_iff in Hw as [[Hb Hs]%andb_true_iff _].
      cbn [startswith] in Hs. apply andb_true_iff in Hs as [H1%Ascii.eqb_eq _].
      subst c.
      unfold boundary in Hb. cbn [head_char is_word_opt from_option] in Hb.
      change (is_word "h") with true in Hb.
      by destruct (is_word_opt prev).
    + simpl. destruct (step_defined st c r Hp) as [st' Hstep]. rewrite Hstep.
      apply IH.
      * unfold no_newline in *. simpl in Hnl. by apply andb_true_iff in Hnl as [_ ?].
      * by eapply step_agrees.
      * by eapply step_pending.
Qed.

Lemma spaced_no_newline (b : bool) (s : string) :
  Shape.spaced b s = true → no_newline s = true.
Proof.
  unfold no_newline. revert b. induction s as [|c r IH]; intros b; [done|]. simpl.
  destruct (is_space c) eqn:Hc.
  - intros [[->%Ascii.eqb_eq _]%andb_true_iff Hr]%andb_true_iff.
    simpl. by eapply IH.
  - intros Hr. rewrite (IH false Hr), andb_true_r.
    destruct (code c =? 10)%N eqn:Hn; [|done].
    apply N.eqb_eq in Hn. unfold is_space, in_range in Hc. rewrite Hn in Hc. done.
Qed.

Lemma no_newline_lower (s : string) :
  no_newline s = true → no_newline (lower s) = true.
Proof.
  unfold no_newline, lower. apply all_chars_map_keep.
  intros c. destruct c as [[] [] [] [] [] [] [] []]; by vm_compute.
Qed.

Lemma strip_tidy (s : string) : Shape.tidy s = true → strip s = s.
Proof.
  unfold Shape.tidy, strip. intros [Hs He%negb_true_iff]%andb_true_iff.
  by rewrite spaced_true_head, rstrip_id.
Qed.

(** A text of the shape of a canonical title that holds no word [host] and
    is not a key of [FIXES] is its own canonical title. *)
Lemma canonical_title_fixed (o : string) :
  Shape.tidy o = true → Shape.plain o = true → Shape.lowercase o = true →
  free Gap o = true → Analytics.FIXES !! o = None →
  Analytics.canonical_title o = o.
Proof.
  intros Ht Hp Hl Hf Hfix. unfold Analytics.canonical_title.
  change Analytics.clean with Rebuild.clean.
  rewrite (clean_fixed o Ht), (lower_id o Hl).
  rewrite (sub_host_fixed o Gap None eq_refl Hf), (strip_tidy o Ht).
  rewrite (sub_punct_id " " o (plain_word_or_space o Hp)).
  by rewrite (tidy_collapse_fixed o Ht), Hfix.
Qed.
End HostFacts.

(** X25. [canonical_title] is idempotent: the canonical title of a
    canonical title is that title. What the function returns is clean and
    in lower case, holds no punctuation and no word [host] any more (the cut
    at the first [host] leaves none before it, and replacing punctuation
    and collapsing spaces makes no new one), and is not a key of the table
    of fixes. *)
Theorem canonical_title_idempotent (t : string) :
  Analytics.canonical_title (Analytics.canonical_title t)
  = Analytics.canonical_title t.
Proof.
  unfold Analytics.canonical_title at 2 3.
  set (t1 := Py.lower (Analytics.clean t)).
  set (t2 := Py.strip (Analytics.sub_host None t1)).
  set (t4 := Py.strip (Py.sub_spaces false (Py.sub_punct " " t2))).
  destruct (Analytics.FIXES !! t4) as [v|] eqn:Hfix; simpl.
  - apply FIXES_values in Hfix as (Ht & Hp & Hl & Hnone & Hhost).
    unfold Analytics.canonical_title. change Analytics.clean with Rebuild.clean.
    rewrite (clean_fixed v Ht), (lower_id v Hl), Hhost, (strip_tidy v Ht).
    rewrite (sub_punct_id " " v (plain_word_or_space v Hp)).
    by rewrite (tidy_collapse_fixed v Ht), Hnone.
  - destruct (collapsed_shapes " " t2) as (Ht & Hp & Hl); [done|done| |].
    { unfold Shape.lowercase. subst t2 t1.
      apply all_chars_strip, all_chars_sub_host. apply lowercase_lower. }
    fold t4 in Ht, Hp, Hl.
    apply canonical_title_fixed; [done..| |done].
    subst t4. rewrite free_strip.
    rewrite (proj1 (free_sub_spaces _)), free_sub_punct.
    subst t2. rewrite free_strip. apply sub_host_free; [|done|done].
    subst t1. apply no_newline_lower.
    apply (spaced_no_newline true), tidy_spaced.
    change Analytics.clean with Rebuild.clean. apply clean_tidy.
Qed.
